(** * Stylus-Hardware-Anchor: the canonical receipt verifier

    A shallow embedding of [nexus_verifier.py], [generate_test_receipt.py] and
    [scripts/benchmark_receipts.py], and the properties of the receipt
    verifier that follow from the code.

    Python values are modelled as the code uses them: [int] is [Z], [bytes]
    is [list byte], a [dict] is a [gmap], a [set] is a [gset], and [str] is
    [string], read as the UTF-8 bytes of the text: the code tests strings
    for the ASCII prefix 0x, decodes ASCII hex digits and cuts hex strings,
    where bytes and characters agree ([len] counts characters and
    [String.length] bytes: they differ on non-ASCII text only, which
    [bytes.fromhex] refuses).
    A function that can raise returns a [result]; a method that prints,
    hashes or updates the verifier threads a [world].

    The second part of the file covers the rest of these scripts and what
    uses them: the registry and the counter persistence of the verifier
    (the counter file being given by the JSON object it holds),
    [verify_receipt_format], [make_single_args], the [_hex32] of
    [scripts/run_gas_benchmarks.py] and the [build_receipt_material] of
    [zkp/scripts/prove_and_submit.py].

    Left out: the command-line entry points and the scripts that talk to
    a chain, which read the environment and run other programs; [print]
    is taken to succeed. *)

From Stdlib Require Import ZArith List Strings.String Strings.Byte Strings.Ascii.
From Stdlib Require Import Floats.SpecFloat.
From stdpp Require Import base option gmap sets list strings pretty.

Set Warnings "-register-all".
#[local] Open Scope Z_scope.

(** [bytes] objects. *)
Abbreviation bytes := (list byte).

#[global] Instance byte_eq_dec : EqDecision byte := Byte.byte_eq_dec.

#[global] Instance byte_countable : Countable byte :=
  inj_countable Byte.to_N Byte.of_N Byte.of_to_N.

Definition byte_to_Z (b : byte) : Z := Z.of_N (Byte.to_N b).

(** The byte with value [z mod 256]. *)
Definition Z_to_byte (z : Z) : byte :=
  match Byte.of_N (Z.to_N (Z.land z 0xFF)) with
  | Some b => b
  | None => x00
  end.

(** ** Keccak-256

    [eth_hash.auto.keccak], the hash the three scripts import, is
    Ethereum's Keccak-256: the Keccak-f[1600] sponge with rate 1088 bits,
    capacity 512 and the original Keccak padding (first pad byte 0x01,
    where NIST SHA3-256 has 0x06). The state is 25 lanes of 64 bits, lane
    (x, y) at index x + 5y. *)
Module Keccak.

Definition mask64 : Z := 0xFFFFFFFFFFFFFFFF.

Definition rotl64 (x : Z) (n : Z) : Z :=
  Z.lor (Z.land (Z.shiftl x n) mask64) (Z.shiftr x (64 - n)).

Definition RC : list Z :=
  [ 0x0000000000000001; 0x0000000000008082; 0x800000000000808A;
    0x8000000080008000; 0x000000000000808B; 0x0000000080000001;
    0x8000000080008081; 0x8000000000008009; 0x000000000000008A;
    0x0000000000000088; 0x0000000080008009; 0x000000008000000A;
    0x000000008000808B; 0x800000000000008B; 0x8000000000008089;
    0x8000000000008003; 0x8000000000008002; 0x8000000000000080;
    0x000000000000800A; 0x800000008000000A; 0x8000000080008081;
    0x8000000000008080; 0x0000000080000001; 0x8000000080008008 ].

Definition rho_offsets : list Z :=
  [  0;  1; 62; 28; 27;
    36; 44;  6; 55; 20;
     3; 10; 43; 25; 39;
    41; 45; 15; 21;  8;
    18;  2; 61; 56; 14 ].

Definition lane (A : list Z) (x y : nat) : Z :=
  nth ((x mod 5) + 5 * (y mod 5))%nat A 0.

Definition grid (f : nat -> nat -> Z) : list Z :=
  map (fun i => f (i mod 5)%nat (i / 5)%nat) (seq 0 25).

Definition theta (A : list Z) : list Z :=
  let C x := Z.lxor (lane A x 0) (Z.lxor (lane A x 1) (Z.lxor (lane A x 2)
               (Z.lxor (lane A x 3) (lane A x 4)))) in
  let D x := Z.lxor (C (x + 4)%nat) (rotl64 (C (x + 1)%nat) 1) in
  grid (fun x y => Z.lxor (lane A x y) (D x)).

Definition rho_pi (A : list Z) : list Z :=
  grid (fun x y =>
    let x0 := ((x + 3 * y) mod 5)%nat in
    rotl64 (lane A x0 x) (nth (x0 + 5 * x)%nat rho_offsets 0)).

Definition chi (B : list Z) : list Z :=
  grid (fun x y =>
    Z.lxor (lane B x y)
           (Z.land (Z.lxor (lane B (x + 1) y) mask64) (lane B (x + 2) y))).

Definition iota (rc : Z) (A : list Z) : list Z :=
  match A with
  | a :: rest => Z.lxor a rc :: rest
  | [] => []
  end.

Definition round (A : list Z) (rc : Z) : list Z :=
  iota rc (chi (rho_pi (theta A))).

Definition keccak_f (A : list Z) : list Z := fold_left round RC A.

(** Rate in bytes. *)
Definition rate : nat := 136.

Fixpoint le_to_Z (bs : list Z) : Z :=
  match bs with
  | [] => 0
  | b :: rest => Z.lor b (Z.shiftl (le_to_Z rest) 8)
  end.

Definition Z_to_le8 (z : Z) : bytes :=
  map (fun i => Z_to_byte (Z.shiftr z (8 * Z.of_nat i))) (seq 0 8).

Fixpoint lanes_of (n : nat) (bs : list Z) : list Z :=
  match n with
  | O => []
  | S k => le_to_Z (firstn 8 bs) :: lanes_of k (skipn 8 bs)
  end.

Fixpoint xor_lanes (A B : list Z) : list Z :=
  match A, B with
  | a :: A', b :: B' => Z.lxor a b :: xor_lanes A' B'
  | _, [] => A
  | [], _ => []
  end.

(** pad10*1 after the domain bits of [dsbyte], for a message of [len] bytes. *)
Definition pad (dsbyte : Z) (len : nat) : list Z :=
  let q := (rate - len mod rate)%nat in
  match q with
  | 1%nat => [Z.lor dsbyte 0x80]
  | _ => dsbyte :: repeat 0 (q - 2) ++ [0x80]
  end.

Fixpoint absorb (nblocks : nat) (A : list Z) (data : list Z) : list Z :=
  match nblocks with
  | O => A
  | S k =>
      absorb k (keccak_f (xor_lanes A (lanes_of 17 (firstn rate data))))
             (skipn rate data)
  end.

Definition sponge256 (dsbyte : Z) (msg : bytes) : bytes :=
  let data := map byte_to_Z msg ++ pad dsbyte (List.length msg) in
  let A := absorb (List.length data / rate) (repeat 0 25) data in
  List.concat (map Z_to_le8 (firstn 4 A)).

Definition keccak256 : bytes -> bytes := sponge256 0x01.
Definition sha3_256 : bytes -> bytes := sponge256 0x06.

End Keccak.

(** [from eth_hash.auto import keccak]. *)
Definition keccak (material : bytes) : bytes := Keccak.keccak256 material.
#[global] Arguments keccak : simpl never.

(** ** Python built-ins used by the scripts *)
Module Py.

(** *** Exceptions *)

(** The exception classes the code raises, names or can meet. *)
Inductive exn_class :=
| Exception
| ValueError
| JSONDecodeError
| KeyError
| AssertionError
| TypeError
| AttributeError
| OverflowError
| RuntimeError.

#[global] Instance exn_class_eq_dec : EqDecision exn_class.
Proof. solve_decision. Defined.

(** [issubclass c d]: [JSONDecodeError] derives from [ValueError], and
    every class here from [Exception]. *)
Definition issubclass (c d : exn_class) : bool :=
  match d with
  | Exception => true
  | ValueError => bool_decide (c = ValueError) || bool_decide (c = JSONDecodeError)
  | _ => bool_decide (c = d)
  end.

(** An exception object: its class and [str(e)]. *)
Record exn := Exn { exn_type : exn_class; exn_str : string }.

#[global] Instance exn_eq_dec : EqDecision exn.
Proof. solve_decision. Defined.

(** The outcome of evaluating an expression. *)
Inductive result (A : Type) :=
| Ok (a : A)
| Raise (e : exn).
Arguments Ok {A} a.
Arguments Raise {A} e.

#[global] Instance result_ret : MRet result := fun A a => Ok a.
#[global] Instance result_bind : MBind result := fun A B f r =>
  match r with
  | Ok a => f a
  | Raise e => Raise e
  end.

(** [assert cond, msg]. *)
Definition assert_ (cond : bool) (msg : string) : result unit :=
  if cond then Ok tt else Raise (Exn AssertionError msg).

(** [try: body except classes as e: handler(e)]. *)
Definition try_except {A} (body : result A) (classes : list exn_class)
    (handler : exn -> result A) : result A :=
  match body with
  | Ok a => Ok a
  | Raise e =>
      if existsb (issubclass (exn_type e)) classes then handler e else Raise e
  end.

(** *** Strings *)

(** The newline character of the f-strings. *)
Definition nl : string := String (ascii_of_nat 10) EmptyString.

(** [s[n:]]. *)
Fixpoint str_drop (n : nat) (s : string) : string :=
  match n, s with
  | S k, String _ r => str_drop k r
  | _, _ => s
  end.

(** [s[:n]]. *)
Fixpoint str_take (n : nat) (s : string) : string :=
  match n, s with
  | S k, String c r => String c (str_take k r)
  | _, _ => EmptyString
  end.

(** [s.startswith(p)]. *)
Fixpoint startswith (s p : string) {struct p} : bool :=
  match p with
  | EmptyString => true
  | String a p' =>
      match s with
      | String b s' => Ascii.eqb a b && startswith s' p'
      | EmptyString => false
      end
  end.

(** [s * n]. *)
Fixpoint str_mul (s : string) (n : nat) : string :=
  match n with
  | O => EmptyString
  | S k => s +:+ str_mul s k
  end.

(** [s.replace("0x", "")]: every occurrence of 0x, scanning left to right,
    is dropped. *)
Fixpoint replace_0x (s : string) : string :=
  match s with
  | EmptyString => EmptyString
  | String c r =>
      match r with
      | String d r' =>
          if Ascii.eqb c "0" && Ascii.eqb d "x" then replace_0x r'
          else String c (replace_0x r)
      | EmptyString => String c EmptyString
      end
  end.

(** [repr(key)] of a key without quotes in it. *)
Definition repr (key : string) : string := "'" +:+ key +:+ "'".

(** [str(n)] of an [int]. *)
Definition str_int (n : Z) : string := pretty n.

(** *** bytes *)

(** [bytes(n)]: [n] zero bytes. *)
Definition bytes_zero (n : nat) : bytes := repeat x00 n.

(** The hex digit of a nibble, out of 0123456789abcdef. *)
Definition hexdigit (n : N) : ascii :=
  match String.get (N.to_nat n) "0123456789abcdef" with
  | Some c => c
  | None => "f"%char
  end.

(** [b.hex()]: two lower-case digits per byte. *)
Fixpoint hex (b : bytes) : string :=
  match b with
  | [] => EmptyString
  | x :: r =>
      String (hexdigit (Byte.to_N x / 16))
        (String (hexdigit (Byte.to_N x mod 16)) (hex r))
  end.

(** The value of a hex digit, in either case. *)
Definition hexval (c : ascii) : option N :=
  let n := N_of_ascii c in
  (if (48 <=? n) && (n <=? 57) then Some (n - 48)
   else if (97 <=? n) && (n <=? 102) then Some (n - 87)
   else if (65 <=? n) && (n <=? 70) then Some (n - 55)
   else None)%N.

(** ASCII white space: space, tab, line feed, vertical tab, form feed,
    carriage return. *)
Definition isspace (c : ascii) : bool :=
  let n := nat_of_ascii c in
  (n =? 32)%nat || ((9 <=? n)%nat && (n <=? 13)%nat).

(** [bytes.fromhex(s)]: pairs of hex digits, white space allowed between
    the pairs; [None] is its [ValueError]. *)
Fixpoint fromhex (s : string) : option bytes :=
  match s with
  | EmptyString => Some []
  | String c r =>
      if isspace c then fromhex r
      else
        match hexval c, r with
        | Some top, String d r' =>
            match hexval d with
            | Some bot => cons (Z_to_byte (Z.of_N (16 * top + bot))) <$> fromhex r'
            | None => None
            end
        | _, _ => None
        end
  end.

(** The value of a [bytes.fromhex] of a literal that is valid hex. *)
Definition fromhex_literal (s : string) : bytes := default [] (fromhex s).

(** The big-endian digits of [n], [len] of them. *)
Fixpoint be_bytes (len : nat) (n : Z) : bytes :=
  match len with
  | O => []
  | S k => Z_to_byte (Z.shiftr n (8 * Z.of_nat k)) :: be_bytes k n
  end.

(** [int.from_bytes(b, 'big')]. *)
Definition from_bytes_big (b : bytes) : Z :=
  fold_left (fun acc x => 256 * acc + byte_to_Z x) b 0.

(** *** JSON values, as [json.loads] returns them *)

Inductive json :=
| JNull
| JBool (b : bool)
| JInt (n : Z)
| JFloat (f : spec_float)
| JStr (s : string)
| JList (l : list json)
| JDict (d : gmap string json).

(** Truth value of an object in an [if]. *)
Definition truthy (v : json) : bool :=
  match v with
  | JNull => false
  | JBool b => b
  | JInt n => negb (n =? 0)
  | JFloat (S754_zero _) => false
  | JFloat _ => true
  | JStr s => negb (String.eqb s EmptyString)
  | JList l => negb (Nat.eqb (List.length l) 0)
  | JDict d => negb (Nat.eqb (size d) 0)
  end.

(** [int(f)] of a finite float: truncation towards zero. *)
Definition trunc_float (s : bool) (m : positive) (e : Z) : Z :=
  let mag := if 0 <=? e then Z.shiftl (Z.pos m) e else Z.shiftr (Z.pos m) (- e) in
  if s then - mag else mag.

(** *** What the interpreter decides

    The text of the exceptions the interpreter itself raises, and the
    integer literals [int] accepts in a [str], are the interpreter's: the
    model takes them as given. *)
Inductive builtin_error :=
| NotSubscriptable (v : json)            (* v[key], v not a dict *)
| NoAttribute (v : json) (name : string) (* v.name, v without it *)
| BadHex (s : string)                    (* bytes.fromhex(s) *)
| IntBadType (v : json)                  (* int(v), v None, list or dict *)
| IntBadLiteral (s : string)             (* int(s) *)
| IntOfNaN
| IntOfInfinity
| ToBytesNegative
| ToBytesTooBig.

Class PyRuntime := {
  int_of_str : string -> option Z;
  error_text : builtin_error -> string
}.

Section builtins.
Context `{rt : PyRuntime}.

(** [v[key]] for a [str] key. *)
Definition getitem (v : json) (key : string) : result json :=
  match v with
  | JDict d =>
      match d !! key with
      | Some x => Ok x
      | None => Raise (Exn KeyError (repr key))
      end
  | _ => Raise (Exn TypeError (error_text (NotSubscriptable v)))
  end.

(** [v.get(key)]. *)
Definition get (v : json) (key : string) : result json :=
  match v with
  | JDict d => Ok (default JNull (d !! key))
  | _ => Raise (Exn AttributeError (error_text (NoAttribute v "get")))
  end.

(** [v[2:] if v.startswith("0x") else v]. *)
Definition strip_0x (v : json) : result string :=
  match v with
  | JStr s => Ok (if startswith s "0x" then str_drop 2 s else s)
  | _ => Raise (Exn AttributeError (error_text (NoAttribute v "startswith")))
  end.

(** [bytes.fromhex(s)]. *)
Definition bytes_fromhex (s : string) : result bytes :=
  match fromhex s with
  | Some b => Ok b
  | None => Raise (Exn ValueError (error_text (BadHex s)))
  end.

(** [int(v)]. *)
Definition int (v : json) : result Z :=
  match v with
  | JInt n => Ok n
  | JBool b => Ok (if b then 1 else 0)
  | JFloat (S754_zero _) => Ok 0
  | JFloat (S754_finite s m e) => Ok (trunc_float s m e)
  | JFloat S754_nan => Raise (Exn ValueError (error_text IntOfNaN))
  | JFloat (S754_infinity _) => Raise (Exn OverflowError (error_text IntOfInfinity))
  | JStr s =>
      match int_of_str s with
      | Some n => Ok n
      | None => Raise (Exn ValueError (error_text (IntBadLiteral s)))
      end
  | JNull | JList _ | JDict _ => Raise (Exn TypeError (error_text (IntBadType v)))
  end.

(** [n.to_bytes(len, 'big')]. *)
Definition to_bytes (n : Z) (len : nat) : result bytes :=
  if n <? 0 then Raise (Exn OverflowError (error_text ToBytesNegative))
  else if 256 ^ Z.of_nat len <=? n then Raise (Exn OverflowError (error_text ToBytesTooBig))
  else Ok (be_bytes len n).

End builtins.

(** *** More built-ins: [len], [isinstance], dict comprehensions *)

(** A continuation byte of the UTF-8 form of a character. *)
Definition continuation (c : ascii) : bool :=
  let n := nat_of_ascii c in (128 <=? n)%nat && (n <? 192)%nat.

(** [len(s)] of a [str]: its characters, one per byte that starts one. *)
Fixpoint len_str (s : string) : nat :=
  match s with
  | EmptyString => 0
  | String c r => if continuation c then len_str r else S (len_str r)
  end.

(** [type(v).__name__]. *)
Definition class_name (v : json) : string :=
  match v with
  | JNull => "NoneType"
  | JBool _ => "bool"
  | JInt _ => "int"
  | JFloat _ => "float"
  | JStr _ => "str"
  | JList _ => "list"
  | JDict _ => "dict"
  end.

(** [str(type(v))]. *)
Definition str_type (v : json) : string := "<class '" +:+ class_name v +:+ "'>".

(** [len(v)]. *)
Definition len (v : json) : result nat :=
  match v with
  | JStr s => Ok (len_str s)
  | JList l => Ok (List.length l)
  | JDict d => Ok (size d)
  | _ => Raise (Exn TypeError ("object of type '" +:+ class_name v +:+ "' has no len()"))
  end.

(** [isinstance(v, int)]: [bool] is a subclass of [int]. *)
Definition isinstance_int (v : json) : bool :=
  match v with
  | JInt _ | JBool _ => true
  | _ => false
  end.

(** [{key(k): v for k, v in items}], starting from the dict [d]: a later
    item replaces an earlier one with the same key, and the first key that
    raises ends the comprehension. *)
Fixpoint dict_comprehension {K V K'} `{Countable K'}
    (key : K -> result K') (items : list (K * V)) (d : gmap K' V) : result (gmap K' V) :=
  match items with
  | [] => Ok d
  | (k, v) :: rest => k' ← key k; dict_comprehension key rest (<[k' := v]> d)
  end.

End Py.

(** ** nexus_verifier.py *)
Module nexus_verifier.
Import Py.

Definition NEXUS_RCT_DOMAIN : bytes := list_byte_of_string "NEXUS_RCT_V1".
Definition NEXUS_HWI_DOMAIN : bytes := list_byte_of_string "NEXUS_OHR_V1".

Record Receipt := {
  hardware_identity : bytes;
  firmware_hash : bytes;
  execution_hash : bytes;
  counter : Z;
  receipt_digest : bytes
}.

(** The attributes of a [NexusVerifier] object. *)
Record NexusVerifier := {
  authorized_nodes : gmap bytes string;
  counter_db : gmap bytes Z;
  approved_firmware : gset bytes
}.

(** [NexusVerifier()]. *)
Definition __init__ : NexusVerifier := {|
  authorized_nodes :=
    {[ fromhex_literal "52fdfc072182654f163f5f0f0f0f0f0f0f0f0f0f0f0f0f0f0f0f0f0f0f0f0f0f"
       := "Alpha_Node_S3" ]};
  counter_db := ∅;
  approved_firmware :=
    {[ fromhex_literal "1234567890abcdef1234567890abcdef1234567890abcdef1234567890abcdef" ]}
|}.

(** [self.counter_db.get(hw_id, 0)]. *)
Definition last_counter (v : NexusVerifier) (hw_id : bytes) : Z :=
  default 0 (counter_db v !! hw_id).

(** What a call does besides returning: the lines it prints and the
    hashes it computes, in order. *)
Inductive event :=
| Print (text : string)
| Keccak (material : bytes).

Record world := World { self : NexusVerifier; trace : list event }.

(** A method body: it runs in a world, returns or raises, and leaves a
    world. What was printed or stored before a raise stays. *)
Definition M (A : Type) : Type := world -> result A * world.

#[global] Instance M_ret : MRet M := fun A a w => (Ok a, w).
#[global] Instance M_bind : MBind M := fun A B f m w =>
  match m w with
  | (Ok a, w') => f a w'
  | (Raise e, w') => (Raise e, w')
  end.

Definition lift {A} (r : result A) : M A := fun w => (r, w).
Definition raise {A} (e : exn) : M A := fun w => (Raise e, w).
Definition read {A} (f : NexusVerifier -> A) : M A := fun w => (Ok (f (self w)), w).
Definition update (f : NexusVerifier -> NexusVerifier) : M unit :=
  fun w => (Ok tt, World (f (self w)) (trace w)).
Definition emit (e : event) : M unit :=
  fun w => (Ok tt, World (self w) (trace w ++ [e])).

(** [print(text)]. *)
Definition print (text : string) : M unit := emit (Print text).

(** [keccak(material)], recorded. *)
Definition keccak_call (material : bytes) : M bytes :=
  emit (Keccak material);; mret (keccak material).

(** [try: body except cls as e: handler(e)]. *)
Definition try_except_M {A} (body : M A) (cls : exn_class) (handler : exn -> M A) : M A :=
  fun w =>
    match body w with
    | (Ok a, w') => (Ok a, w')
    | (Raise e, w') =>
        if issubclass (exn_type e) cls then handler e w' else (Raise e, w')
    end.

Section verifier.
Context `{rt : PyRuntime}.

(** Check 1: identity allowlist. *)
Definition _check_identity (receipt : Receipt) : M unit :=
  nodes ← read authorized_nodes;
  match nodes !! hardware_identity receipt with
  | None =>
      raise (Exn Exception
        ("Unauthorized hardware identity: "
           +:+ str_take 16 (hex (hardware_identity receipt)) +:+ "..."))
  | Some node_name => print ("[1/4] ✓ Identity Check Passed: " +:+ node_name)
  end.

(** Check 2: firmware governance. *)
Definition _check_firmware (receipt : Receipt) : M unit :=
  approved ← read approved_firmware;
  if bool_decide (firmware_hash receipt ∈ approved) then
    print ("[2/4] ✓ Firmware Check Passed: "
             +:+ str_take 16 (hex (firmware_hash receipt)) +:+ "...")
  else
    raise (Exn Exception
      ("Firmware not approved by governance: "
         +:+ str_take 16 (hex (firmware_hash receipt)) +:+ "...")).

(** Check 3: monotonic counter. *)
Definition _check_monotonicity (receipt : Receipt) : M unit :=
  last ← read (fun v => last_counter v (hardware_identity receipt));
  if counter receipt <=? last then
    raise (Exn Exception
      ("Replay attack detected: counter " +:+ str_int (counter receipt)
         +:+ " ≤ last seen " +:+ str_int last))
  else
    print ("[3/4] ✓ Monotonicity Check Passed: " +:+ str_int (counter receipt)
             +:+ " > " +:+ str_int last).

(** The bytes [_check_digest] hashes. *)
Definition receipt_material (receipt : Receipt) (counter_be : bytes) : bytes :=
  NEXUS_RCT_DOMAIN ++ hardware_identity receipt ++ firmware_hash receipt
    ++ execution_hash receipt ++ counter_be.

(** Check 4: receipt reconstruction. *)
Definition _check_digest (receipt : Receipt) : M unit :=
  counter_be ← lift (to_bytes (counter receipt) 8);
  reconstructed_digest ← keccak_call (receipt_material receipt counter_be);
  if bool_decide (reconstructed_digest ≠ receipt_digest receipt) then
    raise (Exn Exception
      ("Receipt digest mismatch!" +:+ nl
         +:+ "  Expected: " +:+ hex reconstructed_digest +:+ nl
         +:+ "  Received: " +:+ hex (receipt_digest receipt)))
  else
    print "[4/4] ✓ Digest Reconstruction Passed";;
    print ("      Verified: " +:+ str_take 32 (hex reconstructed_digest) +:+ "...").

(** [_parse_receipt(json_blob)]. The text [json_blob] is given by what
    [json.loads(json_blob)] makes of it: the value it returns, or the
    [JSONDecodeError] it raises. *)
Definition _parse_receipt (json_blob : result json) : result Receipt :=
  try_except
    (data ← json_blob;
     (* hardware_identity *)
     hw_id_hex ← getitem data "hardware_identity" ≫= strip_0x;
     hardware_identity ← bytes_fromhex hw_id_hex;
     assert_ (Nat.eqb (List.length hardware_identity) 32)
       ("hardware_identity must be 32 bytes, got "
          +:+ pretty (List.length hardware_identity));;
     (* firmware_hash *)
     firmware_hash ← get data "firmware_hash";
     firmware_hash ←
       (if truthy firmware_hash then
          fw_hex ← strip_0x firmware_hash;
          firmware_hash ← bytes_fromhex fw_hex;
          assert_ (Nat.eqb (List.length firmware_hash) 32)
            ("firmware_hash must be 32 bytes, got "
               +:+ pretty (List.length firmware_hash));;
          mret firmware_hash
        else
          (* If missing, use placeholder *)
          mret (bytes_zero 32));
     (* execution_hash *)
     exec_hex ← getitem data "execution_hash" ≫= strip_0x;
     execution_hash ← bytes_fromhex exec_hex;
     assert_ (Nat.eqb (List.length execution_hash) 32)
       ("execution_hash must be 32 bytes, got "
          +:+ pretty (List.length execution_hash));;
     (* receipt_digest *)
     digest_hex ← getitem data "receipt_digest" ≫= strip_0x;
     receipt_digest ← bytes_fromhex digest_hex;
     assert_ (Nat.eqb (List.length receipt_digest) 32)
       ("receipt_digest must be 32 bytes, got "
          +:+ pretty (List.length receipt_digest));;
     (* counter *)
     counter ← getitem data "counter" ≫= int;
     assert_ (0 <=? counter)
       ("counter must be non-negative, got " +:+ str_int counter);;
     assert_ (counter <=? 2 ^ 64 - 1)
       ("counter must fit in uint64, got " +:+ str_int counter);;
     mret {| hardware_identity := hardware_identity;
             firmware_hash := firmware_hash;
             execution_hash := execution_hash;
             receipt_digest := receipt_digest;
             counter := counter |})
    [JSONDecodeError; KeyError; ValueError; AssertionError]
    (fun e => Raise (Exn Exception ("Invalid receipt format: " +:+ exn_str e))).

(** [self.counter_db[hw_id] = counter]. *)
Definition record_counter (hw_id : bytes) (c : Z) (v : NexusVerifier) : NexusVerifier :=
  {| authorized_nodes := authorized_nodes v;
     counter_db := <[hw_id := c]> (counter_db v);
     approved_firmware := approved_firmware v |}.

Definition msg_valid : string := "✓ VALID: Receipt authorized for Arbitrum anchoring".

(** The canonical verification flow; it returns [(success, message)]. *)
Definition verify_attestation (json_blob : result json) : M (bool * string) :=
  try_except_M
    (receipt ← lift (_parse_receipt json_blob);
     print (nl +:+ str_mul "=" 70);;
     print "  NEXUS CANONICAL VERIFIER - Receipt Validation";;
     print (str_mul "=" 70);;
     print ("Node: " +:+ hex (hardware_identity receipt));;
     print ("Counter: " +:+ str_int (counter receipt));;
     print (str_mul "=" 70 +:+ nl);;
     (* Execute all four checks (fail-fast) *)
     _check_identity receipt;;
     _check_firmware receipt;;
     _check_monotonicity receipt;;
     _check_digest receipt;;
     (* Update state ONLY after full verification *)
     update (record_counter (hardware_identity receipt) (counter receipt));;
     let msg := msg_valid in
     print (nl +:+ msg +:+ nl);;
     mret (true, msg))
    Exception
    (fun e =>
       let error_msg := "❌ REJECTED: " +:+ exn_str e in
       print (nl +:+ error_msg +:+ nl);;
       mret (false, error_msg)).

(** Registry management. *)
Definition add_authorized_node (hardware_identity_hex node_name : string) : M unit :=
  hw_id ← lift (bytes_fromhex (replace_0x hardware_identity_hex));
  update (fun v =>
    {| authorized_nodes := <[hw_id := node_name]> (authorized_nodes v);
       counter_db := counter_db v;
       approved_firmware := approved_firmware v |});;
  print ("✓ Authorized node added: " +:+ node_name).

Definition add_approved_firmware (firmware_hash_hex : string) : M unit :=
  fw_hash ← lift (bytes_fromhex (replace_0x firmware_hash_hex));
  update (fun v =>
    {| authorized_nodes := authorized_nodes v;
       counter_db := counter_db v;
       approved_firmware := {[ fw_hash ]} ∪ approved_firmware v |});;
  print ("✓ Approved firmware added: " +:+ str_take 18 firmware_hash_hex +:+ "...").

(** The dict [get_node_status] returns, by its three entries. *)
Record node_status := {
  authorized : bool;
  node_name : string;
  status_last_counter : Z
}.

Definition get_node_status (hardware_identity_hex : string) : M node_status :=
  hw_id ← lift (bytes_fromhex (replace_0x hardware_identity_hex));
  v ← read id;
  mret {| authorized := bool_decide (is_Some (authorized_nodes v !! hw_id));
          node_name := default "Unknown" (authorized_nodes v !! hw_id);
          status_last_counter := last_counter v hw_id |}.

(** *** Persistence of the counters

    The file [nexus_counter_state.json] is [None] when it does not exist,
    and else the items of the JSON object in it, in the order of the text.
    The model covers the files [save_counter_state] writes, objects whose
    values are integers, and takes [open], [json.dump] and [json.load] to
    succeed on them. *)
Definition counter_state_file : Type := option (list (string * Z)).

(** [save_counter_state(storage_backend)]; it returns the file it leaves.
    A [dict] of the model keeps no insertion order: the items are written
    in the order of [map_to_list], and what is proved of a written file is
    proved for every order of its items. *)
Definition save_counter_state (storage_backend : string) (file : counter_state_file)
    : M counter_state_file :=
  db ← read counter_db;
  state ← lift (dict_comprehension (fun hw_id => Ok (hex hw_id)) (map_to_list db) ∅);
  if String.eqb storage_backend "json" then mret (Some (map_to_list state))
  else mret file.

(** [load_counter_state(storage_backend)], the file being [file]. *)
Definition load_counter_state (storage_backend : string) (file : counter_state_file)
    : M unit :=
  if String.eqb storage_backend "json" then
    match file with
    | Some state =>
        db ← lift (dict_comprehension bytes_fromhex state ∅);
        update (fun v =>
          {| authorized_nodes := authorized_nodes v;
             counter_db := db;
             approved_firmware := approved_firmware v |});;
        n ← read (fun v => size (counter_db v));
        print ("✓ Loaded " +:+ pretty n +:+ " counter states from storage")
    | None => mret tt
    end
  else mret tt.

End verifier.

End nexus_verifier.

(** ** generate_test_receipt.py *)
Module generate_test_receipt.
Import Py.

Definition NEXUS_RCT_DOMAIN : bytes := list_byte_of_string "NEXUS_RCT_V1".

Section generator.
Context `{rt : PyRuntime}.

(** [generate_test_receipt(hardware_identity, firmware_hash, execution_hash,
    counter)]; an argument left out is [None]. The dict it returns is the
    receipt the verifier reads. *)
Definition generate_test_receipt
    (hardware_identity firmware_hash execution_hash : option string)
    (counter : Z) : result (gmap string json) :=
  (* Use defaults if not provided *)
  let hardware_identity :=
    default "52fdfc072182654f163f5f0f0f0f0f0f0f0f0f0f0f0f0f0f0f0f0f0f0f0f0f0f"
            hardware_identity in
  let firmware_hash :=
    default "1234567890abcdef1234567890abcdef1234567890abcdef1234567890abcdef"
            firmware_hash in
  let execution_hash :=
    default "deadbeefcafebabe000000000000000000000000000000000000000000000001"
            execution_hash in
  (* Remove 0x prefix if present *)
  let hardware_identity := replace_0x hardware_identity in
  let firmware_hash := replace_0x firmware_hash in
  let execution_hash := replace_0x execution_hash in
  (* Validate lengths *)
  assert_ (Nat.eqb (String.length hardware_identity) 64)
    ("hardware_identity must be 64 hex chars, got "
       +:+ pretty (String.length hardware_identity));;
  assert_ (Nat.eqb (String.length firmware_hash) 64)
    ("firmware_hash must be 64 hex chars, got "
       +:+ pretty (String.length firmware_hash));;
  assert_ (Nat.eqb (String.length execution_hash) 64)
    ("execution_hash must be 64 hex chars, got "
       +:+ pretty (String.length execution_hash));;
  assert_ ((0 <=? counter) && (counter <? 2 ^ 64))
    ("counter must fit in uint64, got " +:+ str_int counter);;
  (* Convert to bytes *)
  hw_id_bytes ← bytes_fromhex hardware_identity;
  fw_hash_bytes ← bytes_fromhex firmware_hash;
  exec_hash_bytes ← bytes_fromhex execution_hash;
  counter_be ← to_bytes counter 8;
  (* Compute canonical receipt digest *)
  let receipt_material :=
    NEXUS_RCT_DOMAIN ++ hw_id_bytes ++ fw_hash_bytes ++ exec_hash_bytes ++ counter_be in
  let receipt_digest := keccak receipt_material in
  (* Build receipt *)
  mret (<["hardware_identity" := JStr ("0x" +:+ hardware_identity)]>
       (<["firmware_hash" := JStr ("0x" +:+ firmware_hash)]>
       (<["execution_hash" := JStr ("0x" +:+ execution_hash)]>
       (<["receipt_digest" := JStr ("0x" +:+ hex receipt_digest)]>
       (<["counter" := JInt counter]> ∅))))).

Definition required_fields : list string :=
  ["hardware_identity"; "firmware_hash"; "execution_hash"; "receipt_digest"; "counter"].

(** 0x + 64 hex chars. *)
Definition checks : list (string * nat) :=
  [("hardware_identity", 66%nat); ("firmware_hash", 66%nat);
   ("execution_hash", 66%nat); ("receipt_digest", 66%nat)].

(** The loop over [required_fields]: the field it stops at, if any. *)
Fixpoint missing_field (fields : list string) (receipt : gmap string json) : option string :=
  match fields with
  | [] => None
  | field :: rest =>
      if bool_decide (receipt !! field = None) then Some field
      else missing_field rest receipt
  end.

(** The loop over [checks]: the field it stops at, if any, with the
    expected and the actual length. *)
Fixpoint wrong_length (checks : list (string * nat)) (receipt : gmap string json)
    : result (option (string * nat * nat)) :=
  match checks with
  | [] => Ok None
  | (field, expected_len) :: rest =>
      actual_len ← getitem (JDict receipt) field ≫= len;
      if negb (Nat.eqb actual_len expected_len) then
        Ok (Some (field, expected_len, actual_len))
      else wrong_length rest receipt
  end.

(** [verify_receipt_format(receipt)]: the lines it prints, and what it
    returns or raises. *)
Definition verify_receipt_format (receipt : gmap string json) : list string * result bool :=
  match missing_field required_fields receipt with
  | Some field => (["✗ Missing field: " +:+ field], Ok false)
  | None =>
      (* Check lengths *)
      match wrong_length checks receipt with
      | Raise e => ([], Raise e)
      | Ok (Some (field, expected_len, actual_len)) =>
          (["✗ " +:+ field +:+ ": expected " +:+ pretty expected_len
              +:+ " chars, got " +:+ pretty actual_len], Ok false)
      | Ok None =>
          match getitem (JDict receipt) "counter" with
          | Raise e => ([], Raise e)
          | Ok counter =>
              if negb (isinstance_int counter) then
                (["✗ counter must be int, got " +:+ str_type counter], Ok false)
              else (["✓ Receipt format is valid"], Ok true)
          end
      end
  end.

End generator.

End generate_test_receipt.

(** ** scripts/benchmark_receipts.py *)
Module benchmark_receipts.
Import Py.

Definition DOMAIN : bytes := list_byte_of_string "anchor_RCT_V1".
Definition CHAIN_ID_DEFAULT : Z := 421614.
Definition PACKED_V1_LEN : nat := 137.

Definition _strip_0x (s : string) : string :=
  if startswith s "0x" then str_drop 2 s else s.

Section packing.
Context `{rt : PyRuntime}.

Definition _hex32_to_bytes (s : string) : result bytes :=
  let s := _strip_0x s in
  if negb (Nat.eqb (String.length s) 64) then
    Raise (Exn ValueError
      ("expected 32-byte hex (64 chars), got " +:+ pretty (String.length s)))
  else bytes_fromhex s.

Definition _u64be (x : Z) : result bytes :=
  if (x <? 0) || (2 ^ 64 <=? x) then
    Raise (Exn ValueError "counter must fit into uint64")
  else to_bytes x 8.

Definition compute_digest (chain_id : Z) (hw_id fw_hash exec_hash : bytes)
    (counter : Z) : result bytes :=
  chain_be ← _u64be chain_id;
  counter_be ← _u64be counter;
  let material := DOMAIN ++ chain_be ++ hw_id ++ fw_hash ++ exec_hash ++ counter_be in
  mret (keccak material).

Definition pack_v1 (chain_id : Z) (hw_id fw_hash exec_hash : bytes) (counter : Z)
    (claimed_digest : bytes) : result bytes :=
  counter_be ← _u64be counter;
  let packed := [x01] ++ hw_id ++ fw_hash ++ exec_hash ++ counter_be ++ claimed_digest in
  if negb (Nat.eqb (List.length packed) PACKED_V1_LEN) then
    Raise (Exn RuntimeError
      ("packed receipt length mismatch: " +:+ pretty (List.length packed)))
  else mret packed.

Definition exec_hash_for (counter : Z) : result bytes :=
  counter_be ← _u64be counter;
  mret (keccak (list_byte_of_string "exec:" ++ counter_be)).

(** [range(n)]. *)
Definition range (n : Z) : list Z := map Z.of_nat (seq 0 (Z.to_nat n)).

(** The [for i in range(n)] loop of [make_packed_batch], [out] being the
    bytearray built so far. *)
Fixpoint batch_loop (chain_id : Z) (hw_id fw_hash : bytes) (start_counter : Z)
    (indices : list Z) (out : bytes) : result bytes :=
  match indices with
  | [] => Ok out
  | i :: rest =>
      let counter := start_counter + i in
      ex ← exec_hash_for counter;
      d ← compute_digest chain_id hw_id fw_hash ex counter;
      packed ← pack_v1 chain_id hw_id fw_hash ex counter d;
      batch_loop chain_id hw_id fw_hash start_counter rest (out ++ packed)
  end.

Definition make_packed_batch (chain_id : Z) (hw_id fw_hash : bytes)
    (start_counter n : Z) : result bytes :=
  batch_loop chain_id hw_id fw_hash start_counter (range n) [].

Record SingleArgs := {
  exec_hash : bytes;
  claimed_digest : bytes;
  claimed_digest_bad : bytes
}.

(** [bad[-1] ^= mask] on a bytearray; [None] is the IndexError of an empty
    one. *)
Fixpoint xor_last (bad : bytes) (mask : Z) : option bytes :=
  match bad with
  | [] => None
  | [x] => Some [Z_to_byte (Z.lxor (byte_to_Z x) mask)]
  | x :: rest => cons x <$> xor_last rest mask
  end.

(** What [make_single_args] can raise: an exception of the classes above,
    or the IndexError of [bad[-1]], a class the verifier never meets. *)
Inductive raised :=
| Builtin (e : exn)
| IndexError (text : string).

Definition make_single_args (chain_id : Z) (hw_id fw_hash : bytes) (counter : Z)
    : SingleArgs + raised :=
  match exec_hash_for counter with
  | Raise e => inr (Builtin e)
  | Ok ex =>
      match compute_digest chain_id hw_id fw_hash ex counter with
      | Raise e => inr (Builtin e)
      | Ok d =>
          match xor_last d 1 with
          | None => inr (IndexError "bytearray index out of range")
          | Some bad =>
              inl {| exec_hash := ex; claimed_digest := d; claimed_digest_bad := bad |}
          end
      end
  end.

End packing.

End benchmark_receipts.

(** ** scripts/run_gas_benchmarks.py *)
Module run_gas_benchmarks.
Import Py.

(** The [_hex32] of [main]. *)
Definition _hex32 (b : bytes) : string := "0x" +:+ hex b.

End run_gas_benchmarks.

(** ** zkp/scripts/prove_and_submit.py *)
Module prove_and_submit.
Import Py.

Section material.
Context `{rt : PyRuntime}.

(** [build_receipt_material(hw_id, fw_hash, exec_hash, counter)]; an
    [assert] without a message raises an AssertionError whose text is
    empty. *)
Definition build_receipt_material (hw_id fw_hash exec_hash : bytes) (counter : Z)
    : result bytes :=
  assert_ (Nat.eqb (List.length hw_id) 32) "hw_id must be 32 bytes";;
  assert_ (Nat.eqb (List.length fw_hash) 32) "fw_hash must be 32 bytes";;
  assert_ (Nat.eqb (List.length exec_hash) 32) "exec_hash must be 32 bytes";;
  let domain := list_byte_of_string "anchor_RCT_V1" in
  assert_ (Nat.eqb (List.length domain) 13) EmptyString;;
  counter_be ← to_bytes counter 8;
  let material := domain ++ hw_id ++ fw_hash ++ exec_hash ++ counter_be in
  assert_ (Nat.eqb (List.length material) 117) EmptyString;;
  mret material.

(** Ethereum-compatible Keccak-256. *)
Definition keccak256 (data : bytes) : bytes := keccak data.

End material.

End prove_and_submit.

(** ** The vocabulary of the specification *)
Module Spec.
Import Py nexus_verifier.

(** The counter as an 8-byte big-endian unsigned integer: the byte of
    weight 256^7 first, the byte of weight 1 last. *)
Definition counter_big_endian_u64 (c : Z) : bytes :=
  map (fun k => Z_to_byte (c / 256 ^ k)) [7; 6; 5; 4; 3; 2; 1; 0].

(** The canonical digest of the four fields other than the digest:
    Keccak-256 over domain, hardware identity, firmware hash, execution
    hash and counter, in this order. *)
Definition canonical_digest (domain hw fw ex : bytes) (c : Z) : bytes :=
  keccak (domain ++ hw ++ fw ++ ex ++ counter_big_endian_u64 c).

(** The digest a receipt should carry under the verifier's domain tag. *)
Definition receipt_canonical_digest (r : Receipt) : bytes :=
  canonical_digest NEXUS_RCT_DOMAIN (hardware_identity r) (firmware_hash r)
    (execution_hash r) (counter r).

(** A packed version-1 record. *)
Definition record_v1 (hw fw ex : bytes) (c : Z) (claimed : bytes) : bytes :=
  [x01] ++ hw ++ fw ++ ex ++ counter_big_endian_u64 c ++ claimed.

(** Outcomes of the verification of a parsed receipt: accepted, or
    rejected by one of the four checks. *)
Inductive reason :=
| UnauthorizedHardware
| UnapprovedFirmware
| ReplayDetected
| DigestMismatch.

Inductive outcome :=
| Accept
| Rejected (why : reason).

#[global] Instance reason_eq_dec : EqDecision reason.
Proof. solve_decision. Defined.

#[global] Instance outcome_eq_dec : EqDecision outcome.
Proof. solve_decision. Defined.

(** The four checks in their order, as a function of the store and the
    receipt. *)
Definition decide_receipt (v : NexusVerifier) (r : Receipt) : outcome :=
  if negb (bool_decide (hardware_identity r ∈ dom (authorized_nodes v))) then
    Rejected UnauthorizedHardware
  else if negb (bool_decide (firmware_hash r ∈ approved_firmware v)) then
    Rejected UnapprovedFirmware
  else if counter r <=? last_counter v (hardware_identity r) then
    Rejected ReplayDetected
  else if negb (bool_decide (receipt_digest r = receipt_canonical_digest r)) then
    Rejected DigestMismatch
  else Accept.

(** What [verify_attestation] returns for a rejection with text [text]. *)
Definition rejected (text : string) : bool * string :=
  (false, "❌ REJECTED: " +:+ text).

(** The texts of the four policy rejections. *)
Definition text_unauthorized (r : Receipt) : string :=
  "Unauthorized hardware identity: "
    +:+ str_take 16 (hex (hardware_identity r)) +:+ "...".

Definition text_unapproved (r : Receipt) : string :=
  "Firmware not approved by governance: "
    +:+ str_take 16 (hex (firmware_hash r)) +:+ "...".

Definition text_replay (v : NexusVerifier) (r : Receipt) : string :=
  "Replay attack detected: counter " +:+ str_int (counter r)
    +:+ " ≤ last seen " +:+ str_int (last_counter v (hardware_identity r)).

Definition text_mismatch (r : Receipt) : string :=
  "Receipt digest mismatch!" +:+ nl
    +:+ "  Expected: " +:+ hex (receipt_canonical_digest r) +:+ nl
    +:+ "  Received: " +:+ hex (receipt_digest r).

(** The pair returned to the caller for each outcome. *)
Definition returned (v : NexusVerifier) (r : Receipt) (o : outcome) : bool * string :=
  match o with
  | Accept => (true, msg_valid)
  | Rejected UnauthorizedHardware => rejected (text_unauthorized r)
  | Rejected UnapprovedFirmware => rejected (text_unapproved r)
  | Rejected ReplayDetected => rejected (text_replay v r)
  | Rejected DigestMismatch => rejected (text_mismatch r)
  end.

(** How a caller can tell the outcome from the returned pair: by the
    words the message starts with. *)
Definition read_outcome (ret : bool * string) : option outcome :=
  let '(success, message) := ret in
  if success then Some Accept
  else if startswith message "❌ REJECTED: Unauthorized hardware identity: " then
    Some (Rejected UnauthorizedHardware)
  else if startswith message "❌ REJECTED: Firmware not approved by governance: " then
    Some (Rejected UnapprovedFirmware)
  else if startswith message "❌ REJECTED: Replay attack detected: " then
    Some (Rejected ReplayDetected)
  else if startswith message "❌ REJECTED: Receipt digest mismatch!" then
    Some (Rejected DigestMismatch)
  else None.

(** The message of a receipt the codec refused. *)
Definition reads_malformed (ret : bool * string) : bool :=
  negb (fst ret) && startswith (snd ret) "❌ REJECTED: Invalid receipt format: ".

(** The store after a verification with outcome [o]. *)
Definition store_after (v : NexusVerifier) (r : Receipt) (o : outcome) : NexusVerifier :=
  match o with
  | Accept => record_counter (hardware_identity r) (counter r) v
  | Rejected _ => v
  end.

(** The materials hashed along a trace. *)
Definition keccak_calls (t : list event) : list bytes :=
  omap (fun e => match e with Keccak m => Some m | Print _ => None end) t.

(** The lines printed before the first check. *)
Definition banner (r : Receipt) : list event :=
  [ Print (nl +:+ str_mul "=" 70);
    Print "  NEXUS CANONICAL VERIFIER - Receipt Validation";
    Print (str_mul "=" 70);
    Print ("Node: " +:+ hex (hardware_identity r));
    Print ("Counter: " +:+ str_int (counter r));
    Print (str_mul "=" 70 +:+ nl) ].

(** What each check leaves on the trace when it passes. *)
Definition identity_passed (v : NexusVerifier) (r : Receipt) : event :=
  Print ("[1/4] ✓ Identity Check Passed: "
           +:+ default EmptyString (authorized_nodes v !! hardware_identity r)).

Definition firmware_passed (r : Receipt) : event :=
  Print ("[2/4] ✓ Firmware Check Passed: "
           +:+ str_take 16 (hex (firmware_hash r)) +:+ "...").

Definition monotonicity_passed (v : NexusVerifier) (r : Receipt) : event :=
  Print ("[3/4] ✓ Monotonicity Check Passed: " +:+ str_int (counter r)
           +:+ " > " +:+ str_int (last_counter v (hardware_identity r))).

Definition digest_hashed (r : Receipt) : event :=
  Keccak (NEXUS_RCT_DOMAIN ++ hardware_identity r ++ firmware_hash r
            ++ execution_hash r ++ counter_big_endian_u64 (counter r)).

Definition digest_passed (r : Receipt) : list event :=
  [ Print "[4/4] ✓ Digest Reconstruction Passed";
    Print ("      Verified: " +:+ str_take 32 (hex (receipt_canonical_digest r)) +:+ "...") ].

(** The last line: the message between two newlines. *)
Definition verdict_line (ret : bool * string) : event :=
  Print (nl +:+ snd ret +:+ nl).

(** The trace of the verification of a parsed receipt, after the banner. *)
Definition narration (v : NexusVerifier) (r : Receipt) (o : outcome) : list event :=
  match o with
  | Rejected UnauthorizedHardware => []
  | Rejected UnapprovedFirmware => [identity_passed v r]
  | Rejected ReplayDetected => [identity_passed v r; firmware_passed r]
  | Rejected DigestMismatch =>
      [identity_passed v r; firmware_passed r; monotonicity_passed v r; digest_hashed r]
  | Accept =>
      [identity_passed v r; firmware_passed r; monotonicity_passed v r; digest_hashed r]
        ++ digest_passed r
  end ++ [verdict_line (returned v r o)].

(** A text without the letter x. *)
Fixpoint no_x (s : string) : bool :=
  match s with
  | EmptyString => true
  | String c r => negb (Ascii.eqb c "x") && no_x r
  end.

(** *** Malformed receipts *)

(** The hex text of a field once its optional 0x marker is stripped. *)
Definition unmarked (s : string) : string :=
  if startswith s "0x" then str_drop 2 s else s.

(** A hex field that decodes, to a length other than 32 bytes. *)
Definition decodes_to_other_length (field : option json) : bool :=
  match field with
  | Some (JStr s) =>
      match fromhex (unmarked s) with
      | Some b => negb (Nat.eqb (List.length b) 32)
      | None => false
      end
  | _ => false
  end.

(** A counter that is absent, negative, or above 2^64 - 1. *)
Definition counter_absent_or_out_of_range (field : option json) : bool :=
  match field with
  | None => true
  | Some (JInt n) => (n <? 0) || (2 ^ 64 - 1 <? n)
  | Some _ => false
  end.

(** The conditions the specification lists for [MalformedReceipt]. *)
Definition malformed_as_specified (json_blob : result json) : bool :=
  match json_blob with
  | Raise _ => true
  | Ok (JDict d) =>
      decodes_to_other_length (d !! "hardware_identity")
      || decodes_to_other_length (d !! "firmware_hash")
      || decodes_to_other_length (d !! "execution_hash")
      || decodes_to_other_length (d !! "receipt_digest")
      || counter_absent_or_out_of_range (d !! "counter")
  | Ok _ => true
  end.

(** A required hex field: absent, not hex, or not 32 bytes. *)
Definition bad_required_hex (field : option json) : bool :=
  match field with
  | Some (JStr s) =>
      match fromhex (unmarked s) with
      | Some b => negb (Nat.eqb (List.length b) 32)
      | None => true
      end
  | _ => true
  end.

(** The firmware hash: present and not empty, and not hex or not 32 bytes. *)
Definition bad_optional_hex (field : option json) : bool :=
  match field with
  | Some (JStr s) => negb (String.eqb s EmptyString) && bad_required_hex field
  | _ => false
  end.

(** The counter: absent, negative or above 2^64 - 1. *)
Definition bad_counter (field : option json) : bool :=
  match field with
  | Some (JInt n) => (n <? 0) || (2 ^ 64 - 1 <? n)
  | _ => true
  end.

(** The records the codec refuses, among the well-typed ones. *)
Definition malformed (json_blob : result json) : bool :=
  match json_blob with
  | Raise _ => true
  | Ok (JDict d) =>
      bad_required_hex (d !! "hardware_identity")
      || bad_optional_hex (d !! "firmware_hash")
      || bad_required_hex (d !! "execution_hash")
      || bad_required_hex (d !! "receipt_digest")
      || bad_counter (d !! "counter")
  | Ok _ => true
  end.

(** A well-typed input: text that [json.loads] refuses, or an object
    whose hex fields are strings and whose counter is an integer,
    wherever they are present. *)
Definition is_str (field : option json) : bool :=
  match field with
  | None | Some (JStr _) => true
  | Some _ => false
  end.

Definition is_int (field : option json) : bool :=
  match field with
  | None | Some (JInt _) => true
  | Some _ => false
  end.

Definition well_typed (json_blob : result json) : bool :=
  match json_blob with
  | Raise e => bool_decide (exn_type e = JSONDecodeError)
  | Ok (JDict d) =>
      is_str (d !! "hardware_identity") && is_str (d !! "firmware_hash")
      && is_str (d !! "execution_hash") && is_str (d !! "receipt_digest")
      && is_int (d !! "counter")
  | Ok _ => false
  end.

(** The codec refuses the record: the exception [_parse_receipt] raises
    for a malformed receipt. *)
Definition refused (res : result Receipt) : Prop :=
  exists text, res = Raise (Exn Exception ("Invalid receipt format: " +:+ text)).

(** *** Packed batches *)

(** The record [make_packed_batch] writes for a counter: the execution
    hash and the chain-scoped digest are derived from the counter. *)
Definition batch_record (chain_id : Z) (hw fw : bytes) (c : Z) : bytes :=
  let ex := keccak (list_byte_of_string "exec:" ++ counter_big_endian_u64 c) in
  record_v1 hw fw ex c
    (keccak (benchmark_receipts.DOMAIN ++ counter_big_endian_u64 chain_id
               ++ hw ++ fw ++ ex ++ counter_big_endian_u64 c)).

(** *** Sequences of calls on a verifier *)

Inductive call :=
| Call_add_authorized_node (hardware_identity_hex node_name : string)
| Call_add_approved_firmware (firmware_hash_hex : string)
| Call_verify_attestation (json_blob : result json).

Section calls.
Context `{rt : PyRuntime}.

(** The world a call leaves, whether it returns or raises. *)
Definition after_call (w : world) (c : call) : world :=
  match c with
  | Call_add_authorized_node h n => snd (add_authorized_node h n w)
  | Call_add_approved_firmware h => snd (add_approved_firmware h w)
  | Call_verify_attestation b => snd (verify_attestation b w)
  end.

Definition after_calls (w : world) (cs : list call) : world :=
  fold_left after_call cs w.

End calls.

(** *** Counter stores *)

(** A counter store as a verifier builds it: keys of 32 bytes, counters
    between 1 and 2^64 - 1. *)
Definition counters_well_formed (v : NexusVerifier) : Prop :=
  map_Forall (fun hw c => List.length hw = 32%nat /\ 1 <= c <= 2 ^ 64 - 1) (counter_db v).

End Spec.

(** ** A runtime and sample data for the examples

    The theorems below hold for every [PyRuntime]; the examples are
    evaluated on this one, which words the built-in errors as CPython 3.11
    does for ASCII text and reads the decimal literals without
    underscores. *)
Module Samples.
Import Py nexus_verifier Spec.

Definition type_name (v : json) : string :=
  match v with
  | JNull => "NoneType"
  | JBool _ => "bool"
  | JInt _ => "int"
  | JFloat _ => "float"
  | JStr _ => "str"
  | JList _ => "list"
  | JDict _ => "dict"
  end.

(** The position [bytes.fromhex] reports. *)
Fixpoint bad_hex_position (s : string) (i : nat) : nat :=
  match s with
  | EmptyString => i
  | String c r =>
      if isspace c then bad_hex_position r (S i)
      else
        match hexval c, r with
        | Some _, String d r' =>
            match hexval d with
            | Some _ => bad_hex_position r' (S (S i))
            | None => S i
            end
        | Some _, EmptyString => S i
        | None, _ => i
        end
  end.

Definition cpython_error_text (e : builtin_error) : string :=
  match e with
  | NotSubscriptable (JList _) => "list indices must be integers or slices, not str"
  | NotSubscriptable (JStr _) => "string indices must be integers, not 'str'"
  | NotSubscriptable v => "'" +:+ type_name v +:+ "' object is not subscriptable"
  | NoAttribute v name =>
      "'" +:+ type_name v +:+ "' object has no attribute '" +:+ name +:+ "'"
  | BadHex s =>
      "non-hexadecimal number found in fromhex() arg at position "
        +:+ pretty (bad_hex_position s 0)
  | IntBadType v =>
      "int() argument must be a string, a bytes-like object or a real number, not '"
        +:+ type_name v +:+ "'"
  | IntBadLiteral s => "invalid literal for int() with base 10: " +:+ repr s
  | IntOfNaN => "cannot convert float NaN to integer"
  | IntOfInfinity => "cannot convert float infinity to integer"
  | ToBytesNegative => "can't convert negative int to unsigned"
  | ToBytesTooBig => "int too big to convert"
  end.

Definition digit_value (c : ascii) : option Z :=
  match hexval c with
  | Some n => if (n <? 10)%N then Some (Z.of_N n) else None
  | None => None
  end.

Fixpoint lstrip (s : string) : string :=
  match s with
  | String c r => if isspace c then lstrip r else s
  | EmptyString => EmptyString
  end.

(** Digits up to the end of the text or trailing white space. *)
Fixpoint read_digits (s : string) (acc : option Z) : option Z :=
  match s with
  | EmptyString => acc
  | String c r =>
      match digit_value c with
      | Some d => read_digits r (Some (10 * default 0 acc + d))
      | None =>
          if String.eqb (lstrip s) EmptyString then acc else None
      end
  end.

Definition decimal_literal (s : string) : option Z :=
  match lstrip s with
  | String "-" r => Z.opp <$> read_digits r None
  | String "+" r => read_digits r None
  | t => read_digits t None
  end.

Definition cpython : PyRuntime :=
  {| int_of_str := decimal_literal; error_text := cpython_error_text |}.

(** A receipt object with its five fields. *)
Definition receipt_json (hw fw ex digest : string) (c : json) : json :=
  JDict (<["hardware_identity" := JStr hw]>
        (<["firmware_hash" := JStr fw]>
        (<["execution_hash" := JStr ex]>
        (<["receipt_digest" := JStr digest]>
        (<["counter" := c]> ∅))))).

(** The node and the firmware of a freshly constructed verifier. *)
Definition alpha_hw : string :=
  "0x52fdfc072182654f163f5f0f0f0f0f0f0f0f0f0f0f0f0f0f0f0f0f0f0f0f0f0f".
Definition alpha_fw : string :=
  "0x1234567890abcdef1234567890abcdef1234567890abcdef1234567890abcdef".
Definition sample_ex : string :=
  "0xdeadbeefcafebabe000000000000000000000000000000000000000000000001".

(** The digest of the receipt (alpha_hw, alpha_fw, sample_ex, c). *)
Definition alpha_digest (c : Z) : string :=
  "0x" +:+ hex (canonical_digest NEXUS_RCT_DOMAIN
                  (fromhex_literal (unmarked alpha_hw))
                  (fromhex_literal (unmarked alpha_fw))
                  (fromhex_literal (unmarked sample_ex)) c).

(** A valid receipt of the alpha node with counter [c]. *)
Definition alpha_receipt (c : Z) : result json :=
  Ok (receipt_json alpha_hw alpha_fw sample_ex (alpha_digest c) (JInt c)).

(** What the codec makes of it. *)
Definition alpha_parsed (c : Z) : Receipt :=
  {| hardware_identity := fromhex_literal (unmarked alpha_hw);
     firmware_hash := fromhex_literal (unmarked alpha_fw);
     execution_hash := fromhex_literal (unmarked sample_ex);
     counter := c;
     receipt_digest :=
       canonical_digest NEXUS_RCT_DOMAIN
         (fromhex_literal (unmarked alpha_hw))
         (fromhex_literal (unmarked alpha_fw))
         (fromhex_literal (unmarked sample_ex)) c |}.

(** The same with a digest of 32 bytes 0xab. *)
Definition forged_receipt (c : Z) : result json :=
  Ok (receipt_json alpha_hw alpha_fw sample_ex ("0x" +:+ str_mul "ab" 32) (JInt c)).

(** A fresh verifier that has printed nothing yet. *)
Definition fresh : world := World __init__ [].

(** The fresh verifier after it accepted the alpha receipt with counter 5. *)
Definition after_five : world :=
  snd (verify_attestation (rt := cpython) (alpha_receipt 5) fresh).

(** A second node, authorized next to the alpha node. *)
Definition beta_hw : string := "0x" +:+ str_mul "be" 32.

Definition two_nodes : world :=
  snd (add_authorized_node (rt := cpython) beta_hw "Beta_Node" fresh).

(** A firmware hash no governance approved. *)
Definition rogue_fw : string := "0x" +:+ str_mul "66" 32.

(** A receipt of node [hw] with the rogue firmware and counter [c]. *)
Definition rogue_receipt (hw : string) (c : Z) : result json :=
  Ok (receipt_json hw rogue_fw sample_ex ("0x" +:+ str_mul "ab" 32) (JInt c)).

Definition rogue_parsed (hw : string) (c : Z) : Receipt :=
  {| hardware_identity := fromhex_literal (unmarked hw);
     firmware_hash := fromhex_literal (unmarked rogue_fw);
     execution_hash := fromhex_literal (unmarked sample_ex);
     counter := c;
     receipt_digest := fromhex_literal (str_mul "ab" 32) |}.

(** A receipt of a node nobody authorized. *)
Definition stranger_hw : string := "0x" +:+ str_mul "ff" 32.

Definition stranger_receipt : result json :=
  Ok (receipt_json stranger_hw alpha_fw sample_ex ("0x" +:+ str_mul "ab" 32) (JInt 6)).

Definition stranger_parsed : Receipt :=
  {| hardware_identity := fromhex_literal (unmarked stranger_hw);
     firmware_hash := fromhex_literal (unmarked alpha_fw);
     execution_hash := fromhex_literal (unmarked sample_ex);
     counter := 6;
     receipt_digest := fromhex_literal (str_mul "ab" 32) |}.

(** The fields of the end-to-end example: a hardware identity of 32 zero
    bytes, a firmware hash of 32 bytes 0x11, an execution hash of 32 bytes
    0x22. *)
Definition example_hw : bytes := bytes_zero 32.
Definition example_fw : bytes := repeat x11 32.
Definition example_ex : bytes := repeat x22 32.

(** A verifier where governance authorized that hardware and approved
    that firmware. *)
Definition example_world : world :=
  after_calls (rt := cpython) fresh
    [ Call_add_authorized_node (hex example_hw) "Example_Node";
      Call_add_approved_firmware (hex example_fw) ].

(** Its receipt with counter 1 and the canonical digest. *)
Definition example_receipt : result json :=
  Ok (receipt_json ("0x" +:+ hex example_hw) ("0x" +:+ hex example_fw)
        ("0x" +:+ hex example_ex)
        ("0x" +:+ hex (canonical_digest NEXUS_RCT_DOMAIN example_hw example_fw example_ex 1))
        (JInt 1)).

(** The float -0.5. *)
Definition minus_half : json := JFloat (S754_finite true 1 (-1)).

(** The receipt the example script of [nexus_verifier.py] starts from: its
    digest is a copy of the firmware hash. *)
Definition script_receipt : result json :=
  Ok (receipt_json alpha_hw alpha_fw sample_ex alpha_fw (JInt 5)).

(** The world after the script verified it. *)
Definition after_script_receipt : world :=
  snd (verify_attestation (rt := cpython) script_receipt fresh).

(** The alpha receipt without its firmware hash. *)
Definition no_firmware : gmap string json :=
  <["hardware_identity" := JStr alpha_hw]>
  (<["execution_hash" := JStr sample_ex]>
  (<["receipt_digest" := JStr ("0x" +:+ str_mul "ab" 32)]>
  (<["counter" := JInt 7]> ∅))).

(** The alpha receipt with an empty firmware hash. *)
Definition empty_firmware : result json :=
  Ok (receipt_json alpha_hw "" sample_ex ("0x" +:+ str_mul "ab" 32) (JInt 7)).

(** The alpha receipt without its execution hash. *)
Definition no_execution_hash : result json :=
  Ok (JDict (<["hardware_identity" := JStr alpha_hw]>
            (<["firmware_hash" := JStr alpha_fw]>
            (<["receipt_digest" := JStr ("0x" +:+ str_mul "ab" 32)]>
            (<["counter" := JInt 7]> ∅))))).

(** What the codec makes of the alpha receipt with the forged digest. *)
Definition forged_parsed (c : Z) : Receipt :=
  {| hardware_identity := fromhex_literal (unmarked alpha_hw);
     firmware_hash := fromhex_literal (unmarked alpha_fw);
     execution_hash := fromhex_literal (unmarked sample_ex);
     counter := c;
     receipt_digest := fromhex_literal (str_mul "ab" 32) |}.

(** A valid receipt of the beta node with counter [c], as the codec reads
    it and as it is sent. *)
Definition beta_parsed (c : Z) : Receipt :=
  {| hardware_identity := fromhex_literal (unmarked beta_hw);
     firmware_hash := fromhex_literal (unmarked alpha_fw);
     execution_hash := fromhex_literal (unmarked sample_ex);
     counter := c;
     receipt_digest :=
       canonical_digest NEXUS_RCT_DOMAIN
         (fromhex_literal (unmarked beta_hw))
         (fromhex_literal (unmarked alpha_fw))
         (fromhex_literal (unmarked sample_ex)) c |}.

Definition beta_receipt (c : Z) : result json :=
  Ok (receipt_json beta_hw alpha_fw sample_ex
        ("0x" +:+ hex (receipt_digest (beta_parsed c))) (JInt c)).

(** The fresh verifier after it accepted the alpha receipt with the
    greatest counter. *)
Definition exhausted : world :=
  snd (verify_attestation (rt := cpython) (alpha_receipt (2 ^ 64 - 1)) fresh).

(** Calls between an acceptance and a resubmission. *)
Definition later_calls : list call :=
  [ Call_add_authorized_node beta_hw "Beta_Node";
    Call_add_approved_firmware rogue_fw;
    Call_verify_attestation (alpha_receipt 9) ].

(** The receipt [generate_test_receipt] returns by default, with counter 1. *)
Definition default_receipt : gmap string json :=
  <["hardware_identity" := JStr alpha_hw]>
  (<["firmware_hash" := JStr alpha_fw]>
  (<["execution_hash" := JStr sample_ex]>
  (<["receipt_digest" :=
       JStr "0x31e303e601e627d532b412bf01c25d44d5a01a087964210de5d718f9a0cdc70c"]>
  (<["counter" := JInt 1]> ∅)))).

(** The verifier of the end-to-end example, set up with the 0x marker. *)
Definition onboarded : world :=
  snd (add_approved_firmware (rt := cpython) ("0x" +:+ hex example_fw)
         (snd (add_authorized_node (rt := cpython) ("0x" +:+ hex example_hw)
                 "Example_Node" fresh))).

(** A hex text of 64 characters that holds 31 bytes and two spaces. *)
Definition spaced_hex : string := str_mul "aa" 31 +:+ "  ".

End Samples.

(** * Proofs *)
Import Py nexus_verifier Spec Samples.

(** ** Bytes and their encodings *)
Section bytes_facts.

Lemma byte_to_Z_to_byte (z : Z) : byte_to_Z (Z_to_byte z) = z mod 256.
Proof.
  unfold byte_to_Z, Z_to_byte.
  change 0xFF with (Z.ones 8). rewrite Z.land_ones by lia.
  change (2 ^ 8) with 256.
  assert (Hb : 0 <= z mod 256 < 256) by (apply Z.mod_pos_bound; lia).
  destruct (Byte.of_N (Z.to_N (z mod 256))) as [b|] eqn:E.
  - apply Byte.to_of_N in E. rewrite E. lia.
  - apply Byte.of_N_None_iff in E. lia.
Qed.

Lemma byte_to_Z_range (b : byte) : 0 <= byte_to_Z b < 256.
Proof. unfold byte_to_Z. pose proof (Byte.to_N_bounded b). lia. Qed.

Lemma Z_to_byte_to_Z (b : byte) : Z_to_byte (byte_to_Z b) = b.
Proof. destruct b; reflexivity. Qed.

Lemma be_bytes_length (len : nat) (n : Z) : List.length (be_bytes len n) = len.
Proof. induction len as [|k IH]; simpl; [reflexivity | now rewrite IH]. Qed.

Lemma be_bytes_u64 (c : Z) : be_bytes 8 c = counter_big_endian_u64 c.
Proof.
  unfold counter_big_endian_u64. cbn [be_bytes map].
  rewrite !Z.shiftr_div_pow2 by lia. reflexivity.
Qed.

Lemma from_bytes_big_acc (b : bytes) (acc : Z) :
  fold_left (fun a x => 256 * a + byte_to_Z x) b acc
  = acc * 256 ^ Z.of_nat (List.length b) + from_bytes_big b.
Proof.
  unfold from_bytes_big. revert acc.
  induction b as [|x b IH]; intros acc.
  - simpl. lia.
  - cbn [fold_left List.length]. rewrite IH. rewrite (IH (256 * 0 + byte_to_Z x)).
    rewrite Nat2Z.inj_succ, Z.pow_succ_r by lia. ring.
Qed.

Lemma from_bytes_be_bytes (len : nat) (n : Z) :
  0 <= n -> from_bytes_big (be_bytes len n) = n mod 256 ^ Z.of_nat len.
Proof.
  intros Hn. induction len as [|k IH].
  - simpl. now rewrite Z.mod_1_r.
  - cbn [be_bytes]. unfold from_bytes_big. cbn [fold_left].
    rewrite from_bytes_big_acc, be_bytes_length, IH, byte_to_Z_to_byte.
    rewrite Z.shiftr_div_pow2 by lia.
    replace (2 ^ (8 * Z.of_nat k)) with (256 ^ Z.of_nat k)
      by (change 256 with (2 ^ 8); rewrite <- Z.pow_mul_r; [reflexivity | lia | lia]).
    rewrite Nat2Z.inj_succ, Z.pow_succ_r by lia.
    assert (Hp : 0 < 256 ^ Z.of_nat k) by (apply Z.pow_pos_nonneg; lia).
    rewrite (Z.mul_comm 256 (256 ^ Z.of_nat k)).
    rewrite (Z.rem_mul_r n (256 ^ Z.of_nat k) 256) by lia.
    ring.
Qed.

(** The eight bytes of a counter read back as the counter. *)
Lemma counter_big_endian_u64_spec (c : Z) :
  0 <= c < 2 ^ 64 ->
  List.length (counter_big_endian_u64 c) = 8%nat
  /\ from_bytes_big (counter_big_endian_u64 c) = c.
Proof.
  intros Hc. rewrite <- be_bytes_u64. split.
  - apply be_bytes_length.
  - rewrite from_bytes_be_bytes by lia.
    change (256 ^ Z.of_nat 8) with (2 ^ 64). apply Z.mod_small. lia.
Qed.

End bytes_facts.

(** ** Hex text *)
Section hex_facts.

Lemma hex_length (b : bytes) : String.length (hex b) = (2 * List.length b)%nat.
Proof. induction b as [|x b IH]; simpl; [reflexivity | rewrite IH; lia]. Qed.

Lemma fromhex_hex_cons (x : byte) (r : string) :
  fromhex (String (hexdigit (Byte.to_N x / 16))
             (String (hexdigit (Byte.to_N x mod 16)) r))
  = cons x <$> fromhex r.
Proof. destruct x; reflexivity. Qed.

(** Decoding the hex text of bytes gives the bytes back. *)
Lemma fromhex_hex (b : bytes) : fromhex (hex b) = Some b.
Proof.
  induction b as [|x b IH]; [reflexivity |].
  cbn [hex]. rewrite fromhex_hex_cons, IH. reflexivity.
Qed.

Lemma no_x_hex (b : bytes) : no_x (hex b) = true.
Proof.
  induction b as [|x b IH]; [reflexivity |].
  cbn [hex no_x]. rewrite IH. destruct x; reflexivity.
Qed.

Lemma replace_0x_no_x (s : string) : no_x s = true -> replace_0x s = s.
Proof.
  induction s as [|c r IH]; [reflexivity |].
  cbn [no_x]. intros [Hc Hr]%andb_true_iff.
  cbn [replace_0x]. destruct r as [|d r']; [reflexivity |].
  cbn [no_x] in Hr. apply andb_true_iff in Hr as [Hd Hr'].
  apply negb_true_iff in Hd. rewrite Hd, andb_false_r.
  f_equal. apply IH. cbn [no_x]. now rewrite Hd, Hr'.
Qed.

Lemma replace_0x_hex (b : bytes) : replace_0x (hex b) = hex b.
Proof. apply replace_0x_no_x, no_x_hex. Qed.

End hex_facts.

(** ** The hash *)
Section keccak_facts.

Lemma grid_length (f : nat -> nat -> Z) : List.length (Keccak.grid f) = 25%nat.
Proof. unfold Keccak.grid. now rewrite length_map, length_seq. Qed.

Lemma round_length (A : list Z) (rc : Z) : List.length (Keccak.round A rc) = 25%nat.
Proof.
  unfold Keccak.round, Keccak.chi.
  pose proof (grid_length (fun x y =>
    Z.lxor (Keccak.lane (Keccak.rho_pi (Keccak.theta A)) x y)
      (Z.land (Z.lxor (Keccak.lane (Keccak.rho_pi (Keccak.theta A)) (x + 1) y) Keccak.mask64)
         (Keccak.lane (Keccak.rho_pi (Keccak.theta A)) (x + 2) y)))) as H.
  destruct (Keccak.grid _) as [|a l]; [discriminate H | exact H].
Qed.

Lemma rounds_length (rcs : list Z) (A : list Z) :
  List.length A = 25%nat -> List.length (fold_left Keccak.round rcs A) = 25%nat.
Proof.
  revert A. induction rcs as [|rc rcs IH]; intros A HA; [exact HA |].
  cbn [fold_left]. apply IH, round_length.
Qed.

Lemma absorb_length (n : nat) (A data : list Z) :
  List.length A = 25%nat -> List.length (Keccak.absorb n A data) = 25%nat.
Proof.
  revert A data. induction n as [|k IH]; intros A data HA; [exact HA |].
  cbn [Keccak.absorb]. apply IH. unfold Keccak.keccak_f.
  destruct Keccak.RC as [|rc rcs] eqn:E; [discriminate E |].
  cbn [fold_left]. apply rounds_length, round_length.
Qed.

Lemma le8_concat_length (l : list Z) :
  List.length (List.concat (map Keccak.Z_to_le8 l)) = (8 * List.length l)%nat.
Proof.
  induction l as [|z l IH]; [reflexivity |].
  cbn [map List.concat List.length]. rewrite length_app, IH.
  unfold Keccak.Z_to_le8. rewrite length_map, length_seq. lia.
Qed.

(** A Keccak-256 digest is 32 bytes long. *)
Lemma keccak_length (material : bytes) : List.length (keccak material) = 32%nat.
Proof.
  unfold keccak, Keccak.keccak256, Keccak.sponge256.
  rewrite le8_concat_length, length_firstn, absorb_length.
  - reflexivity.
  - apply repeat_length.
Qed.

(** The hash is Keccak-256 as Ethereum uses it, and not NIST SHA3-256:
    the digests of the empty message. *)
Lemma keccak_empty :
  hex (keccak []) = "c5d2460186f7233c927e7db2dcc703c0e500b653ca82273b7bfad8045d85a470"
  /\ hex (Keccak.sha3_256 []) = "a7ffc6f8bf1ed76651c14756a061d662f580ff4de43b49fa82d80a4b80f8434a".
Proof. split; vm_compute; reflexivity. Qed.

End keccak_facts.

(** ** Results *)
Section result_facts.
Context {A B : Type}.

Lemma bind_Ok (m : result A) (f : A -> result B) (b : B) :
  m ≫= f = Ok b -> exists a, m = Ok a /\ f a = Ok b.
Proof. destruct m as [a|e]; [eauto | discriminate]. Qed.

Lemma assert_Ok (cond : bool) (msg : string) (u : unit) :
  assert_ cond msg = Ok u -> cond = true.
Proof. destruct cond; [reflexivity | discriminate]. Qed.

Lemma try_except_Ok (body : result A) (classes : list exn_class)
    (handler : exn -> result A) (a : A) :
  (forall e, handler e <> Ok a) ->
  try_except body classes handler = Ok a -> body = Ok a.
Proof.
  intros Hh. destruct body as [a'|e]; cbn; [trivial |].
  destruct (existsb _ _); [intros H; now apply Hh in H | discriminate].
Qed.

End result_facts.

(** ** The codec and the four checks *)

Ltac bind_inv H :=
  let a := fresh "a" in
  let Ha := fresh "Ha" in
  apply bind_Ok in H as (a & Ha & H).

Lemma bind_run {A B} (m : M A) (k : A -> M B) (w : world) :
  (m ≫= k) w
  = match m w with
    | (Ok a, w') => k a w'
    | (Raise e, w') => (Raise e, w')
    end.
Proof. reflexivity. Qed.

Ltac verify_done :=
  rewrite ?bind_run; cbv beta;
  cbn [negb returned rejected store_after issubclass exn_type exn_str
       self trace mret M_ret];
  rewrite <- ?app_assoc; reflexivity.

Section parse_facts.
Context `{rt : PyRuntime}.

Lemma parse_ok_inv (json_blob : result json) (r : Receipt) :
  _parse_receipt json_blob = Ok r ->
  List.length (hardware_identity r) = 32%nat
  /\ List.length (firmware_hash r) = 32%nat
  /\ List.length (execution_hash r) = 32%nat
  /\ List.length (receipt_digest r) = 32%nat
  /\ 0 <= counter r <= 2 ^ 64 - 1.
Proof.
  unfold _parse_receipt. intros H.
  apply try_except_Ok in H; [| discriminate].
  do 15 bind_inv H.
  injection H as <-. cbn [hardware_identity firmware_hash execution_hash receipt_digest counter].
  apply assert_Ok, Nat.eqb_eq in Ha2, Ha7, Ha10.
  apply assert_Ok, Z.leb_le in Ha12, Ha13.
  repeat split; try assumption.
  destruct (truthy a3).
  - do 3 bind_inv Ha4. injection Ha4 as <-.
    match goal with H : assert_ _ _ = Ok _ |- _ => now apply assert_Ok, Nat.eqb_eq in H end.
  - injection Ha4 as <-. reflexivity.
Qed.

Lemma to_bytes_u64 (c : Z) :
  0 <= c <= 2 ^ 64 - 1 -> to_bytes c 8 = Ok (counter_big_endian_u64 c).
Proof.
  intros Hc. unfold to_bytes.
  destruct (Z.ltb_spec c 0); [lia |].
  change (256 ^ Z.of_nat 8) with (2 ^ 64).
  destruct (Z.leb_spec (2 ^ 64) c); [lia |].
  f_equal. 
  unfold counter_big_endian_u64. cbn [be_bytes map].
  rewrite !Z.shiftr_div_pow2 by lia. reflexivity.
Qed.

Lemma check_identity_run (r : Receipt) (w : world) :
  _check_identity r w
  = match authorized_nodes (self w) !! hardware_identity r with
    | Some name =>
        (Ok tt, World (self w)
                  (trace w ++ [Print ("[1/4] ✓ Identity Check Passed: " +:+ name)]))
    | None => (Raise (Exn Exception (text_unauthorized r)), w)
    end.
Proof.
  unfold _check_identity, read. rewrite bind_run.
  destruct (authorized_nodes (self w) !! hardware_identity r); reflexivity.
Qed.

Lemma check_firmware_run (r : Receipt) (w : world) :
  _check_firmware r w
  = if bool_decide (firmware_hash r ∈ approved_firmware (self w)) then
      (Ok tt, World (self w)
                (trace w ++ [Print ("[2/4] ✓ Firmware Check Passed: "
                                      +:+ str_take 16 (hex (firmware_hash r)) +:+ "...")]))
    else (Raise (Exn Exception (text_unapproved r)), w).
Proof.
  unfold _check_firmware, read. rewrite bind_run.
  destruct (bool_decide _); reflexivity.
Qed.

Lemma check_monotonicity_run (r : Receipt) (w : world) :
  _check_monotonicity r w
  = if counter r <=? last_counter (self w) (hardware_identity r) then
      (Raise (Exn Exception (text_replay (self w) r)), w)
    else
      (Ok tt, World (self w)
                (trace w ++ [Print ("[3/4] ✓ Monotonicity Check Passed: "
                                      +:+ str_int (counter r) +:+ " > "
                                      +:+ str_int (last_counter (self w) (hardware_identity r)))])).
Proof.
  unfold _check_monotonicity, read. rewrite bind_run.
  destruct (_ <=? _); reflexivity.
Qed.

Lemma check_digest_run (r : Receipt) (w : world) :
  0 <= counter r <= 2 ^ 64 - 1 ->
  _check_digest r w
  = let w1 := World (self w)
                (trace w ++ [Keccak (receipt_material r (counter_big_endian_u64 (counter r)))]) in
    if bool_decide (receipt_digest r = receipt_canonical_digest r) then
      (Ok tt, World (self w)
                (trace w1 ++ [Print "[4/4] ✓ Digest Reconstruction Passed";
                              Print ("      Verified: "
                                       +:+ str_take 32 (hex (receipt_canonical_digest r))
                                       +:+ "...")]))
    else (Raise (Exn Exception (text_mismatch r)), w1).
Proof.
  intros Hc. unfold _check_digest, keccak_call, lift.
  rewrite bind_run, (to_bytes_u64 _ Hc). rewrite !bind_run. cbn [emit mret M_ret].
  change (keccak (receipt_material r (counter_big_endian_u64 (counter r))))
    with (receipt_canonical_digest r).
  destruct (decide (receipt_digest r = receipt_canonical_digest r)) as [E|E].
  - rewrite (bool_decide_eq_true_2 _ E), bool_decide_eq_false_2 by (intros N; now apply N).
    rewrite bind_run. unfold print, emit. cbn [self trace]. rewrite <- !app_assoc. reflexivity.
  - rewrite (bool_decide_eq_false_2 _ E), bool_decide_eq_true_2 by (intros N; now apply E).
    reflexivity.
Qed.

(** The run of [verify_attestation] on a receipt the codec accepted: what
    it returns, the store it leaves and what it prints and hashes. *)
Lemma verify_attestation_parsed (json_blob : result json) (r : Receipt) (w : world) :
  _parse_receipt json_blob = Ok r ->
  verify_attestation json_blob w
  = (Ok (returned (self w) r (decide_receipt (self w) r)),
     World (store_after (self w) r (decide_receipt (self w) r))
           (trace w ++ banner r ++ narration (self w) r (decide_receipt (self w) r))).
Proof.
  intros Hp. pose proof (parse_ok_inv _ _ Hp) as (_ & _ & _ & _ & Hc).
  unfold verify_attestation, try_except_M, decide_receipt.
  rewrite bind_run. unfold lift at 1. rewrite Hp.
  unfold print, emit, update. rewrite !bind_run. cbn [self trace].
  rewrite check_identity_run. cbn [self trace].
  unfold narration, identity_passed.
  destruct (authorized_nodes (self w) !! hardware_identity r) as [name|] eqn:Ha.
  2: { rewrite bool_decide_eq_false_2
         by (rewrite elem_of_dom, Ha; apply is_Some_None).
       verify_done. }
  rewrite bool_decide_eq_true_2 by (rewrite elem_of_dom, Ha; eauto).
  cbn [negb]. rewrite bind_run, check_firmware_run. cbn [self trace].
  destruct (bool_decide (firmware_hash r ∈ approved_firmware (self w))).
  2: verify_done.
  cbn [negb]. rewrite bind_run, check_monotonicity_run. cbn [self trace].
  destruct (counter r <=? last_counter (self w) (hardware_identity r)).
  1: verify_done.
  rewrite bind_run, (check_digest_run _ _ Hc). cbn [self trace].
  destruct (bool_decide (receipt_digest r = receipt_canonical_digest r)).
  2: verify_done.
  verify_done.
Qed.

(** The run on a receipt the codec refused, or that made it raise. *)
Lemma verify_attestation_unparsed (json_blob : result json) (e : exn) (w : world) :
  _parse_receipt json_blob = Raise e ->
  verify_attestation json_blob w
  = (Ok (rejected (exn_str e)),
     World (self w) (trace w ++ [verdict_line (rejected (exn_str e))])).
Proof.
  intros Hp. unfold verify_attestation, try_except_M.
  rewrite bind_run. unfold lift at 1. rewrite Hp.
  destruct e as [c s]. destruct c; reflexivity.
Qed.

(** The store after a verification. *)
Lemma verify_attestation_store (json_blob : result json) (w : world) :
  self (snd (verify_attestation json_blob w))
  = match _parse_receipt json_blob with
    | Ok r => store_after (self w) r (decide_receipt (self w) r)
    | Raise _ => self w
    end.
Proof.
  destruct (_parse_receipt json_blob) as [r|e] eqn:Hp.
  - now rewrite (verify_attestation_parsed _ _ _ Hp).
  - now rewrite (verify_attestation_unparsed _ _ _ Hp).
Qed.



(** The hashes of a trace, by parts. *)
Lemma keccak_calls_app (t1 t2 : list event) :
  keccak_calls (t1 ++ t2) = keccak_calls t1 ++ keccak_calls t2.
Proof.
  unfold keccak_calls. induction t1 as [|e t1 IH]; [reflexivity |].
  cbn [app omap list_omap]. fold (@omap list _ _ _
    (fun e => match e with Keccak m => Some m | Print _ => None end)).
  rewrite IH. now destruct e.
Qed.

Lemma keccak_calls_banner (r : Receipt) : keccak_calls (banner r) = [].
Proof. reflexivity. Qed.

Lemma last_counter_recorded (v : NexusVerifier) (hw : bytes) (c : Z) :
  last_counter (record_counter hw c v) hw = c.
Proof. unfold last_counter, record_counter. cbn. now rewrite lookup_insert_eq. Qed.

End parse_facts.

Ltac lookup_literal :=
  repeat first
    [ rewrite lookup_insert_eq
    | rewrite lookup_insert_ne by discriminate
    | rewrite lookup_empty ].

Section receipt_json_facts.
Context `{rt : PyRuntime}.

Lemma strip_0x_marked (s : string) : strip_0x (JStr ("0x" +:+ s)) = Ok s.
Proof. reflexivity. Qed.

Lemma bytes_fromhex_hex (b : bytes) : bytes_fromhex (hex b) = Ok b.
Proof. unfold bytes_fromhex. now rewrite fromhex_hex. Qed.

(** The codec reads back a receipt written with its fields in hex. *)
Lemma parse_receipt_json (hw fw ex dg : bytes) (c : Z) :
  List.length hw = 32%nat -> List.length fw = 32%nat ->
  List.length ex = 32%nat -> List.length dg = 32%nat ->
  0 <= c <= 2 ^ 64 - 1 ->
  _parse_receipt
    (Ok (receipt_json ("0x" +:+ hex hw) ("0x" +:+ hex fw) ("0x" +:+ hex ex)
           ("0x" +:+ hex dg) (JInt c)))
  = Ok {| hardware_identity := hw; firmware_hash := fw; execution_hash := ex;
          counter := c; receipt_digest := dg |}.
Proof.
  intros Hhw Hfw Hex Hdg Hc.
  unfold _parse_receipt, receipt_json.
  cbn [mbind result_bind getitem get]. lookup_literal.
  cbn [mbind result_bind mret result_ret from_option id].
  rewrite !strip_0x_marked.
  repeat (cbn [mbind result_bind mret result_ret];
          rewrite ?bytes_fromhex_hex, ?Hhw, ?Hfw, ?Hex, ?Hdg;
          cbn [assert_ Nat.eqb int truthy negb String.eqb String.append]).
  change ("0x" +:+ hex fw =? "")%string with false.
  destruct (Z.leb_spec 0 c); [| lia].
  destruct (Z.leb_spec c (2 ^ 64 - 1)); [| lia].
  reflexivity.
Qed.

End receipt_json_facts.

(** ** Malformed and defaulted records *)
Section codec_facts.
Context `{rt : PyRuntime}.

Lemma strip_0x_str (s : string) : strip_0x (JStr s) = Ok (unmarked s).
Proof. reflexivity. Qed.

Lemma bytes_fromhex_case (s : string) :
  bytes_fromhex s
  = match fromhex s with
    | Some b => Ok b
    | None => Raise (Exn ValueError (error_text (BadHex s)))
    end.
Proof. reflexivity. Qed.

Ltac refuse := cbn; eexists; reflexivity.

Ltac hex_field s b :=
  rewrite (strip_0x_str s); cbn [mbind result_bind];
  rewrite (bytes_fromhex_case (unmarked s));
  destruct (fromhex (unmarked s)) as [b|]; [| refuse];
  cbn [mbind result_bind];
  destruct (Nat.eqb (List.length b) 32); [| refuse];
  cbn [assert_ mbind result_bind negb orb].

Lemma parse_well_typed (json_blob : result json) :
  well_typed json_blob = true ->
  if malformed json_blob then refused (_parse_receipt json_blob)
  else exists r, _parse_receipt json_blob = Ok r.
Proof.
  unfold refused.
  destruct json_blob as [data|e].
  2: { cbn [well_typed malformed]. intros He%bool_decide_eq_true.
       destruct e as [c s]. cbn in He. subst c. eexists. reflexivity. }
  destruct data as [| | | | | |d]; try discriminate.
  unfold well_typed, malformed, _parse_receipt.
  cbn [mbind result_bind getitem get].
  intros Hwt.
  destruct (d !! "hardware_identity") as [[| | | |s1| |]|]; cbn [is_str andb] in Hwt;
    try discriminate Hwt; [| refuse].
  cbn [mbind result_bind bad_required_hex]. hex_field s1 b1.
  destruct (d !! "firmware_hash") as [[| | | |s2| |]|]; cbn [is_str andb] in Hwt;
    try discriminate Hwt;
    cbn [from_option id truthy bad_optional_hex bad_required_hex].
  1: destruct (String.eqb s2 EmptyString); cbn [negb andb orb]; [| hex_field s2 b2].
  all: cbn [mret result_ret mbind result_bind].
  all: destruct (d !! "execution_hash") as [[| | | |s3| |]|]; cbn [is_str andb] in Hwt;
         try discriminate Hwt; [| refuse];
       cbn [mbind result_bind bad_required_hex]; hex_field s3 b3.
  all: destruct (d !! "receipt_digest") as [[| | | |s4| |]|]; cbn [is_str andb] in Hwt;
         try discriminate Hwt; [| refuse];
       cbn [mbind result_bind bad_required_hex]; hex_field s4 b4.
  all: destruct (d !! "counter") as [[| |n| | | |]|]; cbn [is_int] in Hwt;
         try discriminate Hwt; [| refuse];
       cbn [mbind result_bind int bad_counter]; rewrite !Z.ltb_antisym;
       destruct (0 <=? n); [| refuse];
       destruct (n <=? 2 ^ 64 - 1); [| refuse];
       cbn; eexists; reflexivity.
Qed.

(** The firmware hash the codec writes into the receipt when the record
    has none, or an empty, null, zero or false one. *)
Lemma parse_firmware_defaulted (d : gmap string json) (r : Receipt) :
  truthy (default JNull (d !! "firmware_hash")) = false ->
  _parse_receipt (Ok (JDict d)) = Ok r ->
  firmware_hash r = bytes_zero 32.
Proof.
  intros Hf H. unfold _parse_receipt in H.
  apply try_except_Ok in H; [| discriminate].
  cbn [mbind result_bind] in H.
  do 3 bind_inv H.
  apply bind_Ok in H as (fw0 & Hget & H). cbn [get] in Hget. injection Hget as <-.
  rewrite Hf in H. cbn [mbind result_bind mret result_ret] in H.
  repeat bind_inv H. injection H as <-. reflexivity.
Qed.

(** With the placeholder written out, the record parses the same. *)
Lemma parse_firmware_placeholder (d : gmap string json) :
  truthy (default JNull (d !! "firmware_hash")) = false ->
  _parse_receipt (Ok (JDict d))
  = _parse_receipt (Ok (JDict (<["firmware_hash" := JStr (hex (bytes_zero 32))]> d))).
Proof.
  intros Hf. unfold _parse_receipt. cbn [mbind result_bind getitem get].
  lookup_literal. rewrite Hf. reflexivity.
Qed.

End codec_facts.

Ltac read_message :=
  lazy beta iota zeta
       delta [read_outcome reads_malformed returned rejected msg_valid fst snd negb
              text_unauthorized text_unapproved text_replay text_mismatch
              String.append startswith Ascii.eqb Bool.eqb andb].

(** The caller can read every outcome off the returned pair. *)
Lemma read_outcome_returned (v : NexusVerifier) (r : Receipt) (o : outcome) :
  read_outcome (returned v r o) = Some o.
Proof. destruct o as [|[]]; read_message; reflexivity. Qed.

Lemma reads_malformed_returned (v : NexusVerifier) (r : Receipt) (o : outcome) :
  reads_malformed (returned v r o) = false.
Proof. destruct o as [|[]]; read_message; reflexivity. Qed.

(** What an accepted receipt went through. *)
Lemma decide_accept_inv (v : NexusVerifier) (r : Receipt) :
  decide_receipt v r = Accept ->
  hardware_identity r ∈ dom (authorized_nodes v)
  /\ firmware_hash r ∈ approved_firmware v
  /\ last_counter v (hardware_identity r) < counter r
  /\ receipt_digest r = receipt_canonical_digest r.
Proof.
  unfold decide_receipt.
  destruct (decide (hardware_identity r ∈ dom (authorized_nodes v))) as [H1|H1].
  2: { now rewrite (bool_decide_eq_false_2 _ H1). }
  rewrite (bool_decide_eq_true_2 _ H1). cbn [negb].
  destruct (decide (firmware_hash r ∈ approved_firmware v)) as [H2|H2].
  2: { now rewrite (bool_decide_eq_false_2 _ H2). }
  rewrite (bool_decide_eq_true_2 _ H2). cbn [negb].
  destruct (Z.leb_spec (counter r) (last_counter v (hardware_identity r))) as [H3|H3];
    [discriminate |].
  destruct (decide (receipt_digest r = receipt_canonical_digest r)) as [H4|H4].
  2: { now rewrite (bool_decide_eq_false_2 _ H4). }
  intros _. repeat split; assumption.
Qed.

(** ** Packed records *)
Section packing_facts.
Context `{rt : PyRuntime}.

Lemma u64be_ok (x : Z) :
  0 <= x <= 2 ^ 64 - 1 ->
  benchmark_receipts._u64be x = Ok (counter_big_endian_u64 x).
Proof.
  intros Hx. unfold benchmark_receipts._u64be.
  destruct (Z.ltb_spec x 0); [lia |].
  destruct (Z.leb_spec (2 ^ 64) x); [lia |].
  cbn [orb]. now apply to_bytes_u64.
Qed.

Lemma record_v1_length (hw fw ex claimed : bytes) (c : Z) :
  List.length hw = 32%nat -> List.length fw = 32%nat ->
  List.length ex = 32%nat -> List.length claimed = 32%nat ->
  List.length (record_v1 hw fw ex c claimed) = 137%nat.
Proof.
  intros Hhw Hfw Hex Hcl. unfold record_v1.
  rewrite !length_app, Hhw, Hfw, Hex, Hcl. reflexivity.
Qed.

Lemma pack_v1_ok (chain_id : Z) (hw fw ex claimed : bytes) (c : Z) :
  List.length hw = 32%nat -> List.length fw = 32%nat ->
  List.length ex = 32%nat -> List.length claimed = 32%nat ->
  0 <= c <= 2 ^ 64 - 1 ->
  benchmark_receipts.pack_v1 chain_id hw fw ex c claimed
  = Ok (record_v1 hw fw ex c claimed).
Proof.
  intros Hhw Hfw Hex Hcl Hc. unfold benchmark_receipts.pack_v1.
  rewrite (u64be_ok c Hc). cbn [mbind result_bind].
  change ([x01] ++ hw ++ fw ++ ex ++ counter_big_endian_u64 c ++ claimed)
    with (record_v1 hw fw ex c claimed).
  rewrite (record_v1_length hw fw ex claimed c Hhw Hfw Hex Hcl). reflexivity.
Qed.

Lemma batch_loop_ok (chain_id : Z) (hw fw : bytes) (start : Z)
    (indices : list Z) (out : bytes) :
  List.length hw = 32%nat -> List.length fw = 32%nat ->
  0 <= chain_id <= 2 ^ 64 - 1 ->
  Forall (fun i => 0 <= start + i <= 2 ^ 64 - 1) indices ->
  benchmark_receipts.batch_loop chain_id hw fw start indices out
  = Ok (out ++ List.concat (map (fun i => batch_record chain_id hw fw (start + i)) indices)).
Proof.
  intros Hhw Hfw Hchain Hall. revert out.
  induction Hall as [|i rest Hi _ IH]; intros out.
  - cbn. now rewrite app_nil_r.
  - cbn [benchmark_receipts.batch_loop map List.concat].
    unfold benchmark_receipts.exec_hash_for, benchmark_receipts.compute_digest.
    rewrite (u64be_ok _ Hi), (u64be_ok _ Hchain).
    cbn [mbind result_bind mret result_ret].
    rewrite pack_v1_ok by (try assumption; apply keccak_length).
    cbn [mbind result_bind]. rewrite IH, <- app_assoc. reflexivity.
Qed.

Lemma range_bounds (start n : Z) :
  0 <= start -> start + n <= 2 ^ 64 ->
  Forall (fun i => 0 <= start + i <= 2 ^ 64 - 1) (benchmark_receipts.range n).
Proof.
  intros Hs Hn. unfold benchmark_receipts.range.
  apply Forall_forall. intros i Hi%list_elem_of_In.
  apply in_map_iff in Hi as (k & <- & Hk). apply in_seq in Hk. lia.
Qed.

Lemma batch_records_length (chain_id : Z) (hw fw : bytes) (cs : list Z) :
  List.length hw = 32%nat -> List.length fw = 32%nat ->
  List.length (List.concat (map (batch_record chain_id hw fw) cs))
  = (137 * List.length cs)%nat.
Proof.
  intros Hhw Hfw. induction cs as [|c cs IH]; [reflexivity |].
  cbn [map List.concat List.length]. rewrite length_app, IH.
  unfold batch_record. rewrite record_v1_length by (try assumption; apply keccak_length).
  lia.
Qed.

End packing_facts.

(** ** Calls on a verifier *)
Section call_facts.
Context `{rt : PyRuntime}.

Lemma add_authorized_node_store (h n : string) (w : world) :
  self (snd (add_authorized_node h n w))
  = match fromhex (replace_0x h) with
    | Some hw_id =>
        {| authorized_nodes := <[hw_id := n]> (authorized_nodes (self w));
           counter_db := counter_db (self w);
           approved_firmware := approved_firmware (self w) |}
    | None => self w
    end.
Proof.
  unfold add_authorized_node, lift, bytes_fromhex. rewrite bind_run.
  destruct (fromhex (replace_0x h)); reflexivity.
Qed.

Lemma add_approved_firmware_store (h : string) (w : world) :
  self (snd (add_approved_firmware h w))
  = match fromhex (replace_0x h) with
    | Some fw_hash =>
        {| authorized_nodes := authorized_nodes (self w);
           counter_db := counter_db (self w);
           approved_firmware := {[ fw_hash ]} ∪ approved_firmware (self w) |}
    | None => self w
    end.
Proof.
  unfold add_approved_firmware, lift, bytes_fromhex. rewrite bind_run.
  destruct (fromhex (replace_0x h)); reflexivity.
Qed.

(** No call takes a node off the allowlist or a firmware off the approved
    set. *)
Lemma after_call_grows (w : world) (c : call) :
  dom (authorized_nodes (self w)) ⊆ dom (authorized_nodes (self (after_call w c)))
  /\ approved_firmware (self w) ⊆ approved_firmware (self (after_call w c)).
Proof.
  destruct c as [h n|h|b]; cbn [after_call].
  - rewrite add_authorized_node_store.
    destruct (fromhex (replace_0x h)); cbn [authorized_nodes approved_firmware];
      [rewrite dom_insert_L |]; set_solver.
  - rewrite add_approved_firmware_store.
    destruct (fromhex (replace_0x h)); cbn [authorized_nodes approved_firmware]; set_solver.
  - rewrite verify_attestation_store.
    destruct (_parse_receipt b) as [r|e]; [| set_solver].
    destruct (decide_receipt (self w) r); cbn [store_after record_counter
      authorized_nodes approved_firmware]; set_solver.
Qed.

(** Counters are kept for allowlisted hardware only: every call keeps it so. *)
Lemma after_call_invariant (w : world) (c : call) :
  dom (counter_db (self w)) ⊆ dom (authorized_nodes (self w)) ->
  dom (counter_db (self (after_call w c)))
    ⊆ dom (authorized_nodes (self (after_call w c))).
Proof.
  intros Hinv. destruct c as [h n|h|b]; cbn [after_call].
  - rewrite add_authorized_node_store.
    destruct (fromhex (replace_0x h)); cbn [authorized_nodes counter_db];
      [rewrite dom_insert_L |]; set_solver.
  - rewrite add_approved_firmware_store.
    destruct (fromhex (replace_0x h)); cbn [authorized_nodes counter_db]; set_solver.
  - rewrite verify_attestation_store.
    destruct (_parse_receipt b) as [r|e]; [| exact Hinv].
    destruct (decide_receipt (self w) r) eqn:Ho; [| exact Hinv].
    apply decide_accept_inv in Ho as (Hhw & _).
    cbn [store_after record_counter authorized_nodes counter_db].
    rewrite dom_insert_L.
    intros x [->%elem_of_singleton|Hx]%elem_of_union; [exact Hhw | now apply Hinv].
Qed.

Lemma after_calls_invariant (cs : list call) (w : world) :
  dom (counter_db (self w)) ⊆ dom (authorized_nodes (self w)) ->
  dom (counter_db (self (after_calls w cs)))
    ⊆ dom (authorized_nodes (self (after_calls w cs))).
Proof.
  revert w. induction cs as [|c cs IH]; intros w Hinv; [exact Hinv |].
  cbn [after_calls fold_left]. apply IH, after_call_invariant, Hinv.
Qed.

End call_facts.

(** * The claims *)
Section claims.
Context `{rt : PyRuntime}.

(** C1: a receipt whose hardware identity is on the allowlist, whose
    firmware hash is approved, whose counter is above the last counter of its
    hardware identity (0 when never seen) and whose digest is the canonical
    digest of its other four fields is accepted by [verify_attestation], and
    afterwards the last counter of that identity is the receipt's counter. *)
Theorem valid_receipt_accepted (json_blob : result json) (r : Receipt) (w : world) :
  _parse_receipt json_blob = Ok r ->
  hardware_identity r ∈ dom (authorized_nodes (self w)) ->
  firmware_hash r ∈ approved_firmware (self w) ->
  last_counter (self w) (hardware_identity r) < counter r ->
  receipt_digest r = receipt_canonical_digest r ->
  exists w',
    verify_attestation json_blob w = (Ok (true, msg_valid), w')
    /\ self w' = record_counter (hardware_identity r) (counter r) (self w)
    /\ last_counter (self w') (hardware_identity r) = counter r.
Proof.
  intros Hp Hhw Hfw Hc Hd.
  assert (Ho : decide_receipt (self w) r = Accept).
  { unfold decide_receipt.
    rewrite (bool_decide_eq_true_2 _ Hhw), (bool_decide_eq_true_2 _ Hfw),
      (bool_decide_eq_true_2 _ Hd).
    cbn [negb]. destruct (Z.leb_spec (counter r) (last_counter (self w) (hardware_identity r)));
      [lia | reflexivity]. }
  rewrite (verify_attestation_parsed _ _ _ Hp), Ho.
  eexists. split; [reflexivity |]. cbn [self store_after]. split; [reflexivity |].
  apply last_counter_recorded.
Qed.

(** C2: a receipt that passes the identity and the firmware check and
    whose counter is at most the last counter of its hardware identity is
    rejected as a replay, whatever its digest: equality is rejected too. In
    particular a receipt that was accepted is rejected as a replay when it is
    sent again. *)
Theorem replayed_counter_rejected (json_blob : result json) (r : Receipt) (w : world) :
  _parse_receipt json_blob = Ok r ->
  hardware_identity r ∈ dom (authorized_nodes (self w)) ->
  firmware_hash r ∈ approved_firmware (self w) ->
  counter r <= last_counter (self w) (hardware_identity r) ->
  (exists w',
     verify_attestation json_blob w = (Ok (rejected (text_replay (self w) r)), w')
     /\ read_outcome (rejected (text_replay (self w) r)) = Some (Rejected ReplayDetected)
     /\ self w' = self w)
  /\ forall w0 message w1,
       verify_attestation json_blob w0 = (Ok (true, message), w1) ->
       exists w2,
         verify_attestation json_blob w1
         = (Ok (rejected (text_replay (self w1) r)), w2)
         /\ last_counter (self w1) (hardware_identity r) = counter r.
Proof.
  intros Hp Hhw Hfw Hc. split.
  - assert (Ho : decide_receipt (self w) r = Rejected ReplayDetected).
    { unfold decide_receipt.
      rewrite (bool_decide_eq_true_2 _ Hhw), (bool_decide_eq_true_2 _ Hfw).
      cbn [negb].
      destruct (Z.leb_spec (counter r) (last_counter (self w) (hardware_identity r)));
        [reflexivity | lia]. }
    rewrite (verify_attestation_parsed _ _ _ Hp), Ho.
    eexists. split; [reflexivity |]. split; reflexivity.
  - intros w0 message w1 Hv.
    rewrite (verify_attestation_parsed _ _ _ Hp) in Hv.
    destruct (decide_receipt (self w0) r) as [|why] eqn:Ho;
      [| destruct why; discriminate Hv].
    apply decide_accept_inv in Ho as (Hhw0 & Hfw0 & _).
    injection Hv as _ <-. cbn [self store_after].
    assert (Hl : last_counter (record_counter (hardware_identity r) (counter r) (self w0))
                   (hardware_identity r) = counter r)
      by apply last_counter_recorded.
    rewrite (verify_attestation_parsed _ _ _ Hp). cbn [self].
    assert (Ho : decide_receipt
                   (record_counter (hardware_identity r) (counter r) (self w0)) r
                 = Rejected ReplayDetected).
    { unfold decide_receipt. cbn [record_counter authorized_nodes approved_firmware].
      rewrite (bool_decide_eq_true_2 _ Hhw0), (bool_decide_eq_true_2 _ Hfw0).
      cbn [negb]. fold (record_counter (hardware_identity r) (counter r) (self w0)).
      rewrite Hl, Z.leb_refl. reflexivity. }
    rewrite Ho. eexists. split; [reflexivity | exact Hl].
Qed.

(** C4: [verify_attestation] leaves the store as it is when it does not
    accept, and when it accepts it changes the counter of the receipt's
    hardware identity only: the allowlist, the approved firmware and every
    other counter stay. *)
Theorem verification_frame (json_blob : result json) (w : world) :
  let w' := snd (verify_attestation json_blob w) in
  authorized_nodes (self w') = authorized_nodes (self w)
  /\ approved_firmware (self w') = approved_firmware (self w)
  /\ match fst (verify_attestation json_blob w) with
     | Ok (true, _) =>
         exists r,
           _parse_receipt json_blob = Ok r
           /\ counter_db (self w')
              = <[hardware_identity r := counter r]> (counter_db (self w))
           /\ forall other, other <> hardware_identity r ->
                counter_db (self w') !! other = counter_db (self w) !! other
     | _ => self w' = self w
     end.
Proof.
  cbv zeta. destruct (_parse_receipt json_blob) as [r|e] eqn:Hp.
  - rewrite (verify_attestation_parsed _ _ _ Hp). cbn [fst snd self].
    destruct (decide_receipt (self w) r) as [|[]]; cbn [store_after returned rejected];
      repeat split.
    exists r. split; [reflexivity |]. split; [reflexivity |].
    intros other Ho. cbn [record_counter counter_db]. now rewrite lookup_insert_ne.
  - rewrite (verify_attestation_unparsed _ _ _ Hp). cbn [fst snd self rejected].
    repeat split.
Qed.

(** C5: a parsed receipt whose hardware identity is not on the allowlist
    is rejected at the identity check, whatever its other fields; nothing is
    hashed for it and no later check leaves a line. *)
Theorem unauthorized_rejected_unhashed (json_blob : result json) (r : Receipt) (w : world) :
  _parse_receipt json_blob = Ok r ->
  hardware_identity r ∉ dom (authorized_nodes (self w)) ->
  exists w',
    verify_attestation json_blob w = (Ok (rejected (text_unauthorized r)), w')
    /\ read_outcome (rejected (text_unauthorized r)) = Some (Rejected UnauthorizedHardware)
    /\ self w' = self w
    /\ trace w' = trace w ++ banner r ++ [verdict_line (rejected (text_unauthorized r))]
    /\ keccak_calls (trace w') = keccak_calls (trace w).
Proof.
  intros Hp Hhw.
  assert (Ho : decide_receipt (self w) r = Rejected UnauthorizedHardware).
  { unfold decide_receipt. now rewrite (bool_decide_eq_false_2 _ Hhw). }
  rewrite (verify_attestation_parsed _ _ _ Hp), Ho.
  eexists. split; [reflexivity |]. cbn [self trace store_after narration returned app].
  do 3 (split; [reflexivity |]).
  rewrite !keccak_calls_app, keccak_calls_banner. cbn. now rewrite app_nil_r.
Qed.

(** C3: for 32-byte fields and a 64-bit counter, the digest the verifier
    recomputes is the 32-byte Keccak-256 (Ethereum's, not NIST SHA3-256) of
    domain tag, hardware identity, firmware hash, execution hash and the
    counter as 8 big-endian bytes, in this order; the digest check hashes
    exactly this material and passes exactly when the claimed digest equals
    it; the receipt generator computes the same digest. *)
Theorem digest_is_canonical (hw fw ex claimed : bytes) (c : Z) (w : world) :
  List.length hw = 32%nat ->
  List.length fw = 32%nat ->
  List.length ex = 32%nat ->
  0 <= c <= 2 ^ 64 - 1 ->
  let r := {| hardware_identity := hw; firmware_hash := fw; execution_hash := ex;
              counter := c; receipt_digest := claimed |} in
  let digest := canonical_digest NEXUS_RCT_DOMAIN hw fw ex c in
  (* the counter, as the code and as the specification encode it *)
  to_bytes c 8 = Ok (counter_big_endian_u64 c)
  /\ List.length (counter_big_endian_u64 c) = 8%nat
  /\ from_bytes_big (counter_big_endian_u64 c) = c
  (* the digest *)
  /\ NEXUS_RCT_DOMAIN = list_byte_of_string "NEXUS_RCT_V1"
  /\ digest = Keccak.keccak256
                (NEXUS_RCT_DOMAIN ++ hw ++ fw ++ ex ++ counter_big_endian_u64 c)
  /\ List.length digest = 32%nat
  /\ hex (Keccak.keccak256 [])
     = "c5d2460186f7233c927e7db2dcc703c0e500b653ca82273b7bfad8045d85a470"
  /\ Keccak.keccak256 [] <> Keccak.sha3_256 []
  (* the check *)
  /\ keccak_calls (trace (snd (_check_digest r w)))
     = keccak_calls (trace w)
         ++ [NEXUS_RCT_DOMAIN ++ hw ++ fw ++ ex ++ counter_big_endian_u64 c]
  /\ (fst (_check_digest r w) = Ok tt <-> claimed = digest)
  (* the generator *)
  /\ exists receipt,
       generate_test_receipt.generate_test_receipt
         (Some (hex hw)) (Some (hex fw)) (Some (hex ex)) c = Ok receipt
       /\ receipt !! "receipt_digest" = Some (JStr ("0x" +:+ hex digest))
       /\ _parse_receipt (Ok (JDict receipt))
          = Ok {| hardware_identity := hw; firmware_hash := fw; execution_hash := ex;
                  counter := c; receipt_digest := digest |}.
Proof.
  intros Hhw Hfw Hex Hc r digest.
  destruct (counter_big_endian_u64_spec c) as [Hlen Hval]; [lia |].
  split; [now apply to_bytes_u64 |].
  split; [exact Hlen |]. split; [exact Hval |].
  split; [reflexivity |]. split; [reflexivity |].
  split; [apply keccak_length |].
  split; [vm_compute; reflexivity |].
  split; [vm_compute; discriminate |].
  rewrite (check_digest_run r w Hc). cbv zeta.
  change (receipt_canonical_digest r) with digest.
  change (receipt_digest r) with claimed.
  split; [| split].
  - destruct (bool_decide (claimed = digest)); cbn [snd trace];
      rewrite !keccak_calls_app; cbn; now rewrite ?app_nil_r.
  - destruct (decide (claimed = digest)) as [E|E].
    + rewrite (bool_decide_eq_true_2 _ E). now split.
    + rewrite (bool_decide_eq_false_2 _ E). cbn [fst]. split; [discriminate | contradiction].
  - unfold generate_test_receipt.generate_test_receipt.
    cbn [from_option id]. rewrite !replace_0x_hex, !hex_length, Hhw, Hfw, Hex.
    change (2 * 32 =? 64)%nat with true.
    replace ((0 <=? c) && (c <? 2 ^ 64)) with true
      by (symmetry; apply andb_true_iff; split; [apply Z.leb_le | apply Z.ltb_lt]; lia).
    cbn [assert_ mbind result_bind]. rewrite !bytes_fromhex_hex, (to_bytes_u64 c Hc).
    cbn [mbind result_bind mret result_ret].
    eexists. split; [reflexivity |]. split.
    + lookup_literal. reflexivity.
    + apply parse_receipt_json; try assumption. apply keccak_length.
Qed.

(** C6 (amended): when the record has no firmware_hash, the codec does not
    surface the absence. It yields exactly what it yields for the same
    record carrying 32 zero bytes as firmware_hash: every receipt it returns
    has the 32 zero bytes as its firmware hash, and the firmware check then
    compares them against the approved-firmware set like any other value. *)
Theorem absent_firmware_defaulted (d : gmap string json) (w : world) :
  d !! "firmware_hash" = None ->
  _parse_receipt (Ok (JDict d))
  = _parse_receipt (Ok (JDict (<["firmware_hash" := JStr (hex (bytes_zero 32))]> d)))
  /\ (forall r, _parse_receipt (Ok (JDict d)) = Ok r ->
        firmware_hash r = bytes_zero 32
        /\ (bytes_zero 32 ∉ approved_firmware (self w) ->
            hardware_identity r ∈ dom (authorized_nodes (self w)) ->
            fst (verify_attestation (Ok (JDict d)) w) = Ok (rejected (text_unapproved r)))).
Proof.
  intros Habsent.
  assert (Hf : truthy (default JNull (d !! "firmware_hash")) = false)
    by now rewrite Habsent.
  split; [now apply parse_firmware_placeholder |].
  intros r Hp. pose proof (parse_firmware_defaulted d r Hf Hp) as Hfw.
  split; [exact Hfw |]. intros Hno Hhw.
  rewrite (verify_attestation_parsed _ _ _ Hp). cbn [fst]. do 2 f_equal.
  unfold decide_receipt.
  rewrite (bool_decide_eq_true_2 _ Hhw), Hfw, (bool_decide_eq_false_2 _ Hno).
  reflexivity.
Qed.

(** C7 (amended): for a well-typed input (text [json.loads] refuses, or an
    object whose hex fields are strings and whose counter is an integer,
    where present) the codec refuses the record, with its "Invalid receipt
    format" exception, exactly when the text is not JSON, or one of
    hardware_identity, execution_hash, receipt_digest is absent, is not hex
    or does not decode to 32 bytes, or firmware_hash is present, not empty,
    and is not hex or does not decode to 32 bytes, or the counter is absent,
    negative or above 2^64 - 1; otherwise it returns a receipt. And whatever
    the input, [verify_attestation] returns a pair to its caller and raises
    nothing; when the codec raised, the pair is a rejection with the text of
    the exception and the store is unchanged. *)
Theorem malformed_receipts_refused (json_blob : result json) :
  (well_typed json_blob = true ->
     (malformed json_blob = true <-> refused (_parse_receipt json_blob))
     /\ (malformed json_blob = false <-> exists r, _parse_receipt json_blob = Ok r))
  /\ forall w, exists success message w',
       verify_attestation json_blob w = (Ok (success, message), w')
       /\ forall e, _parse_receipt json_blob = Raise e ->
            (success, message) = rejected (exn_str e) /\ self w' = self w.
Proof.
  split.
  - intros Hwt. pose proof (parse_well_typed json_blob Hwt) as H.
    destruct (malformed json_blob); split; split; intros H'; try reflexivity;
      try discriminate H'; try exact H.
    + destruct H as [text Ht], H' as [r Hr]. rewrite Ht in Hr. discriminate Hr.
    + destruct H as [r Hr], H' as [text Ht]. rewrite Hr in Ht. discriminate Ht.
  - intros w. destruct (_parse_receipt json_blob) as [r|e] eqn:Hp.
    + rewrite (verify_attestation_parsed _ _ _ Hp).
      destruct (returned (self w) r (decide_receipt (self w) r)) as [success message].
      do 3 eexists. split; [reflexivity | discriminate].
    + rewrite (verify_attestation_unparsed _ _ _ Hp).
      do 3 eexists. split; [reflexivity |].
      intros e' [= <-]. split; reflexivity.
Qed.

(** C8 (amended): each of the four policy rejections comes back as
    [(False, message)] with a message that starts with words of its own, so
    the caller can tell the four apart, from an acceptance and from a
    malformed receipt, by the message. The message of an unauthorized
    identity carries the first 16 hex digits of the hardware identity, that
    of an unapproved firmware the first 16 hex digits of the firmware hash,
    that of a replay the counter and the last counter, that of a digest
    mismatch the two digests; the message of a malformed receipt carries the
    text of the codec's exception. *)
Theorem rejections_told_by_message (json_blob : result json) (r : Receipt) (w : world) :
  _parse_receipt json_blob = Ok r ->
  let v := self w in
  let o := decide_receipt v r in
  fst (verify_attestation json_blob w) = Ok (returned v r o)
  /\ read_outcome (returned v r o) = Some o
  /\ reads_malformed (returned v r o) = false
  /\ returned v r (Rejected UnauthorizedHardware)
     = (false, "❌ REJECTED: Unauthorized hardware identity: "
                 +:+ str_take 16 (hex (hardware_identity r)) +:+ "...")
  /\ returned v r (Rejected UnapprovedFirmware)
     = (false, "❌ REJECTED: Firmware not approved by governance: "
                 +:+ str_take 16 (hex (firmware_hash r)) +:+ "...")
  /\ returned v r (Rejected ReplayDetected)
     = (false, "❌ REJECTED: Replay attack detected: counter "
                 +:+ str_int (counter r) +:+ " ≤ last seen "
                 +:+ str_int (last_counter v (hardware_identity r)))
  /\ returned v r (Rejected DigestMismatch)
     = (false, "❌ REJECTED: Receipt digest mismatch!" +:+ nl
                 +:+ "  Expected: " +:+ hex (receipt_canonical_digest r) +:+ nl
                 +:+ "  Received: " +:+ hex (receipt_digest r))
  /\ forall other text w0,
       _parse_receipt other = Raise (Exn Exception ("Invalid receipt format: " +:+ text)) ->
       fst (verify_attestation other w0)
       = Ok (false, "❌ REJECTED: Invalid receipt format: " +:+ text)
       /\ reads_malformed (false, "❌ REJECTED: Invalid receipt format: " +:+ text) = true
       /\ read_outcome (false, "❌ REJECTED: Invalid receipt format: " +:+ text) = None.
Proof.
  intros Hp v o.
  split; [now rewrite (verify_attestation_parsed _ _ _ Hp) |].
  split; [apply read_outcome_returned |].
  split; [apply reads_malformed_returned |].
  do 4 (split; [reflexivity |]).
  intros other text w0 Ho.
  rewrite (verify_attestation_unparsed _ _ _ Ho).
  split; [reflexivity |]. split; read_message; reflexivity.
Qed.

(** C9: for 32-byte fields and a 64-bit counter, [pack_v1] returns the
    version byte 0x01, the hardware identity, the firmware hash, the
    execution hash, the counter as 8 big-endian bytes and the claimed digest,
    in this order: 137 bytes. A packed batch of n records is the records of
    the counters start, start + 1, ... one after the other with nothing in
    between: 137 * n bytes (no record and no byte when n is negative). *)
Theorem packed_v1_layout (chain_id : Z) (hw fw ex claimed : bytes) (c start n : Z) :
  List.length hw = 32%nat ->
  List.length fw = 32%nat ->
  List.length ex = 32%nat ->
  List.length claimed = 32%nat ->
  0 <= c <= 2 ^ 64 - 1 ->
  0 <= chain_id <= 2 ^ 64 - 1 ->
  0 <= start -> start + n <= 2 ^ 64 ->
  benchmark_receipts.pack_v1 chain_id hw fw ex c claimed
  = Ok ([x01] ++ hw ++ fw ++ ex ++ counter_big_endian_u64 c ++ claimed)
  /\ List.length (counter_big_endian_u64 c) = 8%nat
  /\ from_bytes_big (counter_big_endian_u64 c) = c
  /\ List.length ([x01] ++ hw ++ fw ++ ex ++ counter_big_endian_u64 c ++ claimed)
     = benchmark_receipts.PACKED_V1_LEN
  /\ benchmark_receipts.PACKED_V1_LEN = 137%nat
  /\ exists packed,
       benchmark_receipts.make_packed_batch chain_id hw fw start n = Ok packed
       /\ packed
          = List.concat (map (fun i => batch_record chain_id hw fw (start + i))
                           (benchmark_receipts.range n))
       /\ List.length (benchmark_receipts.range n) = Z.to_nat n
       /\ List.length packed = (137 * Z.to_nat n)%nat.
Proof.
  intros Hhw Hfw Hex Hcl Hc Hchain Hs Hsn.
  destruct (counter_big_endian_u64_spec c) as [Hlen Hval]; [lia |].
  split; [now apply pack_v1_ok |].
  split; [exact Hlen |]. split; [exact Hval |].
  split; [now apply (record_v1_length hw fw ex claimed c) |].
  split; [reflexivity |].
  unfold benchmark_receipts.make_packed_batch.
  rewrite (batch_loop_ok chain_id hw fw start _ [] Hhw Hfw Hchain (range_bounds start n Hs Hsn)).
  eexists. split; [reflexivity |]. cbn [app]. split; [reflexivity |].
  assert (Hr : List.length (benchmark_receipts.range n) = Z.to_nat n)
    by (unfold benchmark_receipts.range; now rewrite length_map, length_seq).
  split; [exact Hr |].
  rewrite <- Hr, <- (length_map (Z.add start) (benchmark_receipts.range n)).
  rewrite <- (batch_records_length chain_id hw fw _ Hhw Hfw), map_map. reflexivity.
Qed.

(** C10: from a freshly constructed verifier, after any sequence of
    [add_authorized_node], [add_approved_firmware] and [verify_attestation]
    calls, every hardware identity with a counter is on the allowlist: a
    counter is recorded only for hardware that is on the allowlist when the
    receipt is accepted, and no call takes an entry off the allowlist. *)
Theorem counters_only_for_allowlisted (calls : list call) (printed : list event) :
  let w := after_calls (World __init__ printed) calls in
  dom (counter_db (self w)) ⊆ dom (authorized_nodes (self w))
  /\ (forall w0 c,
        dom (authorized_nodes (self w0)) ⊆ dom (authorized_nodes (self (after_call w0 c))))
  /\ (forall w0 json_blob message w1,
        verify_attestation json_blob w0 = (Ok (true, message), w1) ->
        exists r,
          _parse_receipt json_blob = Ok r
          /\ hardware_identity r ∈ dom (authorized_nodes (self w0))
          /\ counter_db (self w1)
             = <[hardware_identity r := counter r]> (counter_db (self w0))).
Proof.
  cbv zeta. split; [| split].
  - apply after_calls_invariant. cbn [self __init__ counter_db].
    rewrite dom_empty_L. apply empty_subseteq.
  - intros w0 c. apply after_call_grows.
  - intros w0 json_blob message w1 Hv.
    destruct (_parse_receipt json_blob) as [r|e] eqn:Hp.
    + rewrite (verify_attestation_parsed _ _ _ Hp) in Hv.
      destruct (decide_receipt (self w0) r) as [|why] eqn:Ho.
      * apply decide_accept_inv in Ho as (Hhw & _).
        injection Hv as _ <-. exists r. repeat split; assumption.
      * destruct why; discriminate Hv.
    + rewrite (verify_attestation_unparsed _ _ _ Hp) in Hv. discriminate Hv.
Qed.

End claims.

(** * The claims on sample data *)

(** Closed goals are settled by evaluation. *)
Ltac by_computation :=
  repeat match goal with |- _ /\ _ => split end; vm_compute; reflexivity.

(** C1 on the alpha receipt with counter 5, sent to a fresh verifier. *)
Lemma valid_receipt_accepted_witness :
  exists w',
    verify_attestation (rt := cpython) (alpha_receipt 5) fresh = (Ok (true, msg_valid), w')
    /\ self w' = record_counter (hardware_identity (alpha_parsed 5)) 5 (self fresh)
    /\ last_counter (self w') (hardware_identity (alpha_parsed 5)) = 5.
Proof.
  apply (valid_receipt_accepted (rt := cpython) (alpha_receipt 5) (alpha_parsed 5) fresh).
  - vm_compute; reflexivity.
  - apply (bool_decide_unpack _); vm_compute; exact I.
  - apply (bool_decide_unpack _); vm_compute; exact I.
  - vm_compute; reflexivity.
  - reflexivity.
Defined.

(** C2 on the exact resubmission of that receipt, digest and all. *)
Lemma replayed_counter_rejected_witness :
  exists w',
    verify_attestation (rt := cpython) (alpha_receipt 5) after_five
    = (Ok (rejected (text_replay (self after_five) (alpha_parsed 5))), w')
    /\ read_outcome (rejected (text_replay (self after_five) (alpha_parsed 5)))
       = Some (Rejected ReplayDetected)
    /\ self w' = self after_five.
Proof.
  apply (replayed_counter_rejected (rt := cpython) (alpha_receipt 5) (alpha_parsed 5) after_five).
  - vm_compute; reflexivity.
  - apply (bool_decide_unpack _); vm_compute; exact I.
  - apply (bool_decide_unpack _); vm_compute; exact I.
  - vm_compute; discriminate.
Defined.

(** The answer to that resubmission, as the caller reads it. *)
Example resubmission_message :
  fst (verify_attestation (rt := cpython) (alpha_receipt 5) after_five)
  = Ok (false, "❌ REJECTED: Replay attack detected: counter 5 ≤ last seen 5").
Proof. vm_compute; reflexivity. Qed.

(** C3 on the fields of the end-to-end example, with counter 1. *)
Lemma digest_is_canonical_witness :
  fst (_check_digest (rt := cpython)
         {| hardware_identity := example_hw; firmware_hash := example_fw;
            execution_hash := example_ex; counter := 1;
            receipt_digest := canonical_digest NEXUS_RCT_DOMAIN
                                example_hw example_fw example_ex 1 |}
         fresh) = Ok tt
  /\ List.length (canonical_digest NEXUS_RCT_DOMAIN example_hw example_fw example_ex 1)
     = 32%nat.
Proof.
  destruct (digest_is_canonical (rt := cpython) example_hw example_fw example_ex
              (canonical_digest NEXUS_RCT_DOMAIN example_hw example_fw example_ex 1)
              1 fresh)
    as (_ & _ & _ & _ & _ & Hlen & _ & _ & _ & Hiff & _).
  - reflexivity.
  - reflexivity.
  - reflexivity.
  - lia.
  - split; [apply Hiff; reflexivity | exact Hlen].
Defined.

(** C5 on a receipt of a node nobody authorized. *)
Lemma unauthorized_rejected_unhashed_witness :
  exists w',
    verify_attestation (rt := cpython) stranger_receipt fresh
    = (Ok (rejected (text_unauthorized stranger_parsed)), w')
    /\ read_outcome (rejected (text_unauthorized stranger_parsed))
       = Some (Rejected UnauthorizedHardware)
    /\ self w' = self fresh
    /\ trace w' = trace fresh ++ banner stranger_parsed
                    ++ [verdict_line (rejected (text_unauthorized stranger_parsed))]
    /\ keccak_calls (trace w') = keccak_calls (trace fresh).
Proof.
  apply (unauthorized_rejected_unhashed (rt := cpython) stranger_receipt stranger_parsed fresh).
  - vm_compute; reflexivity.
  - apply (bool_decide_unpack _); vm_compute; exact I.
Defined.

(** C6: the alpha receipt without its firmware hash parses, and the receipt
    carries 32 zero bytes as firmware hash; the verifier answers as for any
    unapproved firmware. *)
Lemma absent_firmware_not_surfaced :
  no_firmware !! "firmware_hash" = None
  /\ _parse_receipt (rt := cpython) (Ok (JDict no_firmware))
     = Ok {| hardware_identity := fromhex_literal (unmarked alpha_hw);
             firmware_hash := bytes_zero 32;
             execution_hash := fromhex_literal (unmarked sample_ex);
             counter := 7;
             receipt_digest := fromhex_literal (str_mul "ab" 32) |}
  /\ fst (verify_attestation (rt := cpython) (Ok (JDict no_firmware)) fresh)
     = Ok (false, "❌ REJECTED: Firmware not approved by governance: 0000000000000000...").
Proof. by_computation. Qed.

(** C6 (amended) on that record. *)
Lemma absent_firmware_defaulted_witness :
  _parse_receipt (rt := cpython) (Ok (JDict no_firmware))
  = _parse_receipt (rt := cpython)
      (Ok (JDict (<["firmware_hash" := JStr (hex (bytes_zero 32))]> no_firmware))).
Proof.
  apply (absent_firmware_defaulted (rt := cpython) no_firmware fresh).
  vm_compute; reflexivity.
Defined.

(** C7: the alpha receipt without its execution hash meets none of the
    listed conditions and is refused; with an empty firmware hash, a hex
    field that decodes to 0 bytes, it is parsed. *)
Lemma malformed_not_as_listed :
  (malformed_as_specified no_execution_hash = false
   /\ _parse_receipt (rt := cpython) no_execution_hash
      = Raise (Exn Exception "Invalid receipt format: 'execution_hash'"))
  /\ (malformed_as_specified empty_firmware = true
      /\ _parse_receipt (rt := cpython) empty_firmware
         = Ok {| hardware_identity := fromhex_literal (unmarked alpha_hw);
                 firmware_hash := bytes_zero 32;
                 execution_hash := fromhex_literal (unmarked sample_ex);
                 counter := 7;
                 receipt_digest := fromhex_literal (str_mul "ab" 32) |}).
Proof. by_computation. Qed.

(** C7 (amended) on the alpha receipt with counter 5, which is well typed
    and not malformed. *)
Lemma malformed_receipts_refused_witness :
  exists r, _parse_receipt (rt := cpython) (alpha_receipt 5) = Ok r.
Proof.
  destruct (malformed_receipts_refused (rt := cpython) (alpha_receipt 5)) as [H _].
  destruct H as [_ [Hok _]]; [vm_compute; reflexivity |].
  apply Hok. vm_compute; reflexivity.
Defined.

(** C8: two receipts with the rogue firmware, from two authorized nodes and
    with two counters, get the same answer: it names neither the hardware
    identity nor the counter. *)
Lemma rejection_without_identity_or_counter :
  _parse_receipt (rt := cpython) (rogue_receipt alpha_hw 1) = Ok (rogue_parsed alpha_hw 1)
  /\ _parse_receipt (rt := cpython) (rogue_receipt beta_hw 2) = Ok (rogue_parsed beta_hw 2)
  /\ hardware_identity (rogue_parsed alpha_hw 1) <> hardware_identity (rogue_parsed beta_hw 2)
  /\ counter (rogue_parsed alpha_hw 1) <> counter (rogue_parsed beta_hw 2)
  /\ fst (verify_attestation (rt := cpython) (rogue_receipt alpha_hw 1) two_nodes)
     = Ok (false, "❌ REJECTED: Firmware not approved by governance: 6666666666666666...")
  /\ fst (verify_attestation (rt := cpython) (rogue_receipt beta_hw 2) two_nodes)
     = Ok (false, "❌ REJECTED: Firmware not approved by governance: 6666666666666666...").
Proof.
  split; [vm_compute; reflexivity |]. split; [vm_compute; reflexivity |].
  split; [vm_compute; discriminate |]. split; [vm_compute; discriminate |].
  split; vm_compute; reflexivity.
Qed.

(** C8 (amended) on the first of them. *)
Lemma rejections_told_by_message_witness :
  fst (verify_attestation (rt := cpython) (rogue_receipt alpha_hw 1) two_nodes)
  = Ok (returned (self two_nodes) (rogue_parsed alpha_hw 1) (Rejected UnapprovedFirmware))
  /\ read_outcome
       (returned (self two_nodes) (rogue_parsed alpha_hw 1) (Rejected UnapprovedFirmware))
     = Some (Rejected UnapprovedFirmware).
Proof.
  destruct (rejections_told_by_message (rt := cpython) (rogue_receipt alpha_hw 1)
              (rogue_parsed alpha_hw 1) two_nodes) as (Hv & Hr & _).
  - vm_compute; reflexivity.
  - assert (Ho : decide_receipt (self two_nodes) (rogue_parsed alpha_hw 1)
                 = Rejected UnapprovedFirmware) by (vm_compute; reflexivity).
    rewrite Ho in Hv, Hr. split; assumption.
Defined.

(** C9 on the benchmark's defaults: 50 records from counter 1 on. *)
Lemma packed_v1_layout_witness :
  exists packed,
    benchmark_receipts.make_packed_batch (rt := cpython)
      benchmark_receipts.CHAIN_ID_DEFAULT example_hw example_fw 1 50 = Ok packed
    /\ List.length packed = (137 * 50)%nat.
Proof.
  destruct (packed_v1_layout (rt := cpython) benchmark_receipts.CHAIN_ID_DEFAULT
              example_hw example_fw example_ex (bytes_zero 32) 1 1 50)
    as (_ & _ & _ & _ & _ & packed & Hb & _ & _ & Hl).
  - reflexivity.
  - reflexivity.
  - reflexivity.
  - reflexivity.
  - lia.
  - unfold benchmark_receipts.CHAIN_ID_DEFAULT. lia.
  - lia.
  - lia.
  - exists packed. split; [exact Hb | exact Hl].
Defined.

(** The example script of [nexus_verifier.py]: its first receipt fails the
    digest check, so nothing is recorded, and the receipt of its first test,
    with the same counter 5 and the right digest, is accepted. *)
Example script_first_receipt :
  (exists message,
     fst (verify_attestation (rt := cpython) script_receipt fresh) = Ok (false, message)
     /\ read_outcome (false, message) = Some (Rejected DigestMismatch))
  /\ self after_script_receipt = self fresh
  /\ fst (verify_attestation (rt := cpython) (alpha_receipt 5) after_script_receipt)
     = Ok (true, msg_valid).
Proof.
  split; [| by_computation].
  eexists. split; vm_compute; reflexivity.
Qed.

(** The digest [generate_test_receipt] gives its default receipt, with
    counter 1. *)
Example default_receipt_digest :
  generate_test_receipt.generate_test_receipt (rt := cpython) None None None 1
  = Ok (<["hardware_identity" := JStr alpha_hw]>
       (<["firmware_hash" := JStr alpha_fw]>
       (<["execution_hash" := JStr sample_ex]>
       (<["receipt_digest" :=
            JStr "0x31e303e601e627d532b412bf01c25d44d5a01a087964210de5d718f9a0cdc70c"]>
       (<["counter" := JInt 1]> ∅))))).
Proof. vm_compute; reflexivity. Qed.

(** The end-to-end example: the receipt is accepted and its counter
    recorded; sent again, it is a replay. *)
Example end_to_end :
  fst (verify_attestation (rt := cpython) example_receipt example_world)
  = Ok (true, msg_valid)
  /\ last_counter
       (self (snd (verify_attestation (rt := cpython) example_receipt example_world)))
       example_hw = 1
  /\ fst (verify_attestation (rt := cpython) example_receipt
            (snd (verify_attestation (rt := cpython) example_receipt example_world)))
     = Ok (false, "❌ REJECTED: Replay attack detected: counter 1 ≤ last seen 1").
Proof. by_computation. Qed.

(** Inputs that are not well typed: a JSON array makes the codec raise a
    [TypeError], which its [except] clause does not name, and
    [verify_attestation] returns the interpreter's text; a counter of -0.5 is
    truncated to 0 by [int] and parsed. *)
Example ill_typed_inputs :
  _parse_receipt (rt := cpython) (Ok (JList []))
  = Raise (Exn TypeError "list indices must be integers or slices, not str")
  /\ fst (verify_attestation (rt := cpython) (Ok (JList [])) fresh)
     = Ok (false, "❌ REJECTED: list indices must be integers or slices, not str")
  /\ exists r,
       _parse_receipt (rt := cpython)
         (Ok (receipt_json alpha_hw alpha_fw sample_ex alpha_fw minus_half)) = Ok r
       /\ counter r = 0.
Proof.
  split; [by_computation |]. split; [by_computation |].
  eexists. split; vm_compute; reflexivity.
Qed.

(** * Further properties of the code

    What follows is read off the code alone: the verifier along sequences
    of calls, the registry, the codec, the generator, the benchmark's
    packing, the material of the proof script, and the persistence of the
    counters. *)
Import benchmark_receipts.

(** ** Hex text, continued *)
Section hex_text_facts.

Lemma isspace_not_x (c : ascii) : isspace c = true -> Ascii.eqb c "x" = false.
Proof.
  intros H. destruct (Ascii.eqb_spec c "x") as [->|]; [discriminate H | reflexivity].
Qed.

Lemma hexval_not_x (c : ascii) (n : N) : hexval c = Some n -> Ascii.eqb c "x" = false.
Proof.
  intros H. destruct (Ascii.eqb_spec c "x") as [->|]; [discriminate H | reflexivity].
Qed.

(** Induction on a text by its length. *)
Lemma string_length_ind (P : string -> Prop) :
  (forall s, (forall t, (String.length t < String.length s)%nat -> P t) -> P s) ->
  forall s, P s.
Proof.
  intros IH s. 
  assert (H : forall n t, (String.length t < n)%nat -> P t).
  { induction n as [|n IHn]; intros t Ht; [lia |].
    apply IH. intros u Hu. apply IHn. lia. }
  apply (H (S (String.length s))). lia.
Qed.

(** What [bytes.fromhex] decodes holds no x. *)
Lemma fromhex_no_x (s : string) (b : bytes) : fromhex s = Some b -> no_x s = true.
Proof.
  revert b. induction s as [s IH] using string_length_ind. intros b.
  destruct s as [|c r]; [reflexivity |].
  cbn [fromhex no_x]. destruct (isspace c) eqn:Hs.
  - intros H. rewrite (isspace_not_x c Hs). cbn [negb andb].
    apply (IH r) in H; [exact H | cbn; lia].
  - destruct (hexval c) as [top|] eqn:Hc; [| discriminate].
    destruct r as [|d r']; [discriminate |].
    destruct (hexval d) as [bot|] eqn:Hd; [| discriminate].
    destruct (fromhex r') as [b'|] eqn:Hr; [| discriminate]. intros _.
    rewrite (hexval_not_x c top Hc). cbn [no_x]. rewrite (hexval_not_x d bot Hd).
    cbn [negb andb]. apply (IH r' ltac:(cbn; lia) b' Hr).
Qed.

Lemma startswith_0x (s : string) :
  startswith s "0x" = true -> s = "0x" +:+ str_drop 2 s.
Proof.
  destruct s as [|a [|b s]]; cbn [startswith str_drop]; try discriminate.
  - now rewrite andb_false_r.
  - intros [Ha Hb]%andb_true_iff. rewrite andb_true_r in Hb.
    apply Ascii.eqb_eq in Ha, Hb. now subst.
Qed.

(** A text the codec decodes is decoded alike by the registry: removing
    every 0x and removing the leading 0x agree on it. *)
Lemma replace_0x_unmarked (s : string) (b : bytes) :
  fromhex (unmarked s) = Some b -> replace_0x s = unmarked s.
Proof.
  intros H. pose proof (fromhex_no_x _ _ H) as Hx. unfold unmarked in *.
  destruct (startswith s "0x") eqn:Hp.
  - transitivity (replace_0x ("0x" +:+ str_drop 2 s));
      [now rewrite <- (startswith_0x s Hp) |].
    change (replace_0x ("0x" +:+ str_drop 2 s)) with (replace_0x (str_drop 2 s)).
    now apply replace_0x_no_x.
  - now apply replace_0x_no_x.
Qed.

Lemma isspace_ascii (c : ascii) : isspace c = true -> continuation c = false.
Proof.
  unfold isspace, continuation. intros H.
  destruct (Nat.leb_spec 128 (nat_of_ascii c)) as [Hge|]; [| reflexivity].
  apply orb_true_iff in H as [H|H].
  - apply Nat.eqb_eq in H. lia.
  - apply andb_true_iff in H as [_ H]. apply Nat.leb_le in H. lia.
Qed.

Lemma hexval_ascii (c : ascii) (n : N) : hexval c = Some n -> continuation c = false.
Proof.
  unfold hexval, continuation, nat_of_ascii. intros H.
  destruct (Nat.leb_spec 128 (N.to_nat (N_of_ascii c))) as [Hge|]; [| reflexivity].
  exfalso. revert H.
  repeat match goal with
  | |- context [(?a <=? ?b)%N] => destruct (N.leb_spec a b)
  end; cbn [andb]; try discriminate; lia.
Qed.

(** A text [bytes.fromhex] decodes has one byte per character. *)
Lemma fromhex_len_str (s : string) (b : bytes) :
  fromhex s = Some b -> len_str s = String.length s.
Proof.
  revert b. induction s as [s IH] using string_length_ind. intros b.
  destruct s as [|c r]; [reflexivity |].
  cbn [fromhex len_str String.length]. destruct (isspace c) eqn:Hs.
  - intros H. rewrite (isspace_ascii c Hs). f_equal.
    apply (IH r ltac:(cbn; lia) b H).
  - destruct (hexval c) as [top|] eqn:Hc; [| discriminate].
    destruct r as [|d r']; [discriminate |].
    destruct (hexval d) as [bot|] eqn:Hd; [| discriminate].
    destruct (fromhex r') as [b'|] eqn:Hr; [| discriminate]. intros _.
    rewrite (hexval_ascii c top Hc). cbn [len_str String.length].
    rewrite (hexval_ascii d bot Hd). do 2 f_equal.
    apply (IH r' ltac:(cbn; lia) b' Hr).
Qed.

(** A decoded text has two characters or more per byte. *)
Lemma fromhex_length (s : string) (b : bytes) :
  fromhex s = Some b -> (2 * List.length b <= String.length s)%nat.
Proof.
  revert b. induction s as [s IH] using string_length_ind. intros b.
  destruct s as [|c r]; [now intros [= <-] |].
  cbn [fromhex String.length]. destruct (isspace c).
  - intros H. apply (IH r ltac:(cbn; lia)) in H. lia.
  - destruct (hexval c) as [top|]; [| discriminate].
    destruct r as [|d r']; [discriminate |].
    destruct (hexval d) as [bot|]; [| discriminate].
    destruct (fromhex r') as [b'|] eqn:Hr; [| discriminate]. intros [= <-].
    apply (IH r' ltac:(cbn; lia)) in Hr. cbn [List.length String.length]. lia.
Qed.

Lemma hex_inj : Inj (=) (=) hex.
Proof.
  intros a b E. assert (H : fromhex (hex a) = fromhex (hex b)) by now rewrite E.
  rewrite !fromhex_hex in H. now injection H.
Qed.

End hex_text_facts.

(** ** The verifier along calls *)
Section verifier_facts.
Context `{rt : PyRuntime}.

Lemma verify_attestation_fst (json_blob : result json) (w : world) :
  fst (verify_attestation json_blob w)
  = match _parse_receipt json_blob with
    | Ok r => Ok (returned (self w) r (decide_receipt (self w) r))
    | Raise e => Ok (rejected (exn_str e))
    end.
Proof.
  destruct (_parse_receipt json_blob) as [r|e] eqn:Hp.
  - now rewrite (verify_attestation_parsed _ _ _ Hp).
  - now rewrite (verify_attestation_unparsed _ _ _ Hp).
Qed.

Lemma returned_true (v : NexusVerifier) (r : Receipt) (o : outcome) (message : string) :
  returned v r o = (true, message) -> o = Accept /\ message = msg_valid.
Proof. destruct o as [|[]]; cbn; intros [= <-]; auto; discriminate. Qed.

Lemma verify_accept_inv (json_blob : result json) (w w' : world) (message : string) :
  verify_attestation json_blob w = (Ok (true, message), w') ->
  exists r, _parse_receipt json_blob = Ok r
            /\ decide_receipt (self w) r = Accept
            /\ message = msg_valid
            /\ self w' = record_counter (hardware_identity r) (counter r) (self w).
Proof.
  intros Hv. destruct (_parse_receipt json_blob) as [r|e] eqn:Hp.
  - rewrite (verify_attestation_parsed _ _ _ Hp) in Hv.
    injection Hv as Hret Hw. apply returned_true in Hret as [Ho ->].
    exists r. rewrite Ho in Hw. subst w'. auto.
  - rewrite (verify_attestation_unparsed _ _ _ Hp) in Hv. discriminate Hv.
Qed.

(** The decision, case by case. *)
Lemma decide_receipt_cases (v : NexusVerifier) (r : Receipt) :
  match decide_receipt v r with
  | Rejected UnauthorizedHardware => hardware_identity r ∉ dom (authorized_nodes v)
  | Rejected UnapprovedFirmware =>
      hardware_identity r ∈ dom (authorized_nodes v)
      /\ firmware_hash r ∉ approved_firmware v
  | Rejected ReplayDetected =>
      hardware_identity r ∈ dom (authorized_nodes v)
      /\ firmware_hash r ∈ approved_firmware v
      /\ counter r <= last_counter v (hardware_identity r)
  | Rejected DigestMismatch =>
      hardware_identity r ∈ dom (authorized_nodes v)
      /\ firmware_hash r ∈ approved_firmware v
      /\ last_counter v (hardware_identity r) < counter r
      /\ receipt_digest r <> receipt_canonical_digest r
  | Accept =>
      hardware_identity r ∈ dom (authorized_nodes v)
      /\ firmware_hash r ∈ approved_firmware v
      /\ last_counter v (hardware_identity r) < counter r
      /\ receipt_digest r = receipt_canonical_digest r
  end.
Proof.
  unfold decide_receipt.
  destruct (decide (hardware_identity r ∈ dom (authorized_nodes v))) as [H1|H1].
  2: { now rewrite (bool_decide_eq_false_2 _ H1). }
  rewrite (bool_decide_eq_true_2 _ H1). cbn [negb].
  destruct (decide (firmware_hash r ∈ approved_firmware v)) as [H2|H2].
  2: { now rewrite (bool_decide_eq_false_2 _ H2). }
  rewrite (bool_decide_eq_true_2 _ H2). cbn [negb].
  destruct (Z.leb_spec (counter r) (last_counter v (hardware_identity r))) as [H3|H3];
    [repeat split; assumption |].
  destruct (decide (receipt_digest r = receipt_canonical_digest r)) as [H4|H4].
  - rewrite (bool_decide_eq_true_2 _ H4). repeat split; assumption.
  - rewrite (bool_decide_eq_false_2 _ H4). repeat split; assumption.
Qed.

Lemma last_counter_after_call (w : world) (c : call) (hw : bytes) :
  last_counter (self w) hw <= last_counter (self (after_call w c)) hw.
Proof.
  destruct c as [h n|h|b]; cbn [after_call].
  - rewrite add_authorized_node_store.
    destruct (fromhex (replace_0x h)); unfold last_counter; cbn [counter_db]; lia.
  - rewrite add_approved_firmware_store.
    destruct (fromhex (replace_0x h)); unfold last_counter; cbn [counter_db]; lia.
  - rewrite verify_attestation_store.
    destruct (_parse_receipt b) as [r|e]; [| lia].
    pose proof (decide_receipt_cases (self w) r) as Hd.
    destruct (decide_receipt (self w) r); cbn [store_after]; [| lia].
    destruct Hd as (_ & _ & Hlt & _).
    destruct (decide (hw = hardware_identity r)) as [->|Hne].
    + rewrite last_counter_recorded. lia.
    + unfold last_counter, record_counter. cbn [counter_db].
      rewrite lookup_insert_ne by congruence. lia.
Qed.

Lemma last_counter_after_calls (cs : list call) (w : world) (hw : bytes) :
  last_counter (self w) hw <= last_counter (self (after_calls w cs)) hw.
Proof.
  revert w. induction cs as [|c cs IH]; intros w; [cbn; lia |].
  cbn [after_calls fold_left]. etransitivity; [apply last_counter_after_call |]. apply IH.
Qed.

(** A last counter within 64 bits stays within 64 bits. *)
Lemma last_counter_bounded_after_call (w : world) (c : call) (hw : bytes) :
  last_counter (self w) hw <= 2 ^ 64 - 1 ->
  last_counter (self (after_call w c)) hw <= 2 ^ 64 - 1.
Proof.
  intros Hb. destruct c as [h n|h|b]; cbn [after_call].
  - rewrite add_authorized_node_store.
    destruct (fromhex (replace_0x h)); unfold last_counter in *; cbn [counter_db]; lia.
  - rewrite add_approved_firmware_store.
    destruct (fromhex (replace_0x h)); unfold last_counter in *; cbn [counter_db]; lia.
  - rewrite verify_attestation_store.
    destruct (_parse_receipt b) as [r|e] eqn:Hp; [| exact Hb].
    destruct (decide_receipt (self w) r); cbn [store_after]; [| exact Hb].
    pose proof (parse_ok_inv _ _ Hp) as (_ & _ & _ & _ & Hc).
    destruct (decide (hw = hardware_identity r)) as [->|Hne].
    + rewrite last_counter_recorded. lia.
    + unfold last_counter in *. cbn [record_counter counter_db].
      rewrite lookup_insert_ne by congruence. exact Hb.
Qed.

Lemma last_counter_bounded_after_calls (cs : list call) (w : world) (hw : bytes) :
  last_counter (self w) hw <= 2 ^ 64 - 1 ->
  last_counter (self (after_calls w cs)) hw <= 2 ^ 64 - 1.
Proof.
  revert w. induction cs as [|c cs IH]; intros w Hb; [exact Hb |].
  cbn [after_calls fold_left]. apply IH, last_counter_bounded_after_call, Hb.
Qed.

Lemma after_calls_grows (cs : list call) (w : world) :
  dom (authorized_nodes (self w)) ⊆ dom (authorized_nodes (self (after_calls w cs)))
  /\ approved_firmware (self w) ⊆ approved_firmware (self (after_calls w cs)).
Proof.
  revert w. induction cs as [|c cs IH]; intros w; [split; reflexivity |].
  cbn [after_calls fold_left].
  destruct (after_call_grows w c) as [H1 H2].
  destruct (IH (after_call w c)) as [H3 H4].
  split; etransitivity; eassumption.
Qed.

Lemma counters_well_formed_after_call (w : world) (c : call) :
  counters_well_formed (self w) -> counters_well_formed (self (after_call w c)).
Proof.
  unfold counters_well_formed. intros Hinv.
  destruct c as [h n|h|b]; cbn [after_call].
  - rewrite add_authorized_node_store. destruct (fromhex (replace_0x h)); exact Hinv.
  - rewrite add_approved_firmware_store. destruct (fromhex (replace_0x h)); exact Hinv.
  - rewrite verify_attestation_store.
    destruct (_parse_receipt b) as [r|e] eqn:Hp; [| exact Hinv].
    pose proof (decide_receipt_cases (self w) r) as Hd.
    destruct (decide_receipt (self w) r); cbn [store_after]; [| exact Hinv].
    destruct Hd as (_ & _ & Hlt & _).
    pose proof (parse_ok_inv _ _ Hp) as (Hlen & _ & _ & _ & Hc).
    cbn [record_counter counter_db]. apply map_Forall_insert_2; [| exact Hinv].
    split; [exact Hlen |]. split; [| lia].
    unfold last_counter in Hlt.
    destruct (counter_db (self w) !! hardware_identity r) as [c0|] eqn:E; cbn in Hlt; [| lia].
    apply Hinv in E. lia.
Qed.

Lemma counters_well_formed_after_calls (cs : list call) (w : world) :
  counters_well_formed (self w) -> counters_well_formed (self (after_calls w cs)).
Proof.
  revert w. induction cs as [|c cs IH]; intros w Hinv; [exact Hinv |].
  cbn [after_calls fold_left]. apply IH, counters_well_formed_after_call, Hinv.
Qed.

Lemma decide_receipt_other_device (v : NexusVerifier) (r1 r2 : Receipt) (o : outcome) :
  hardware_identity r1 <> hardware_identity r2 ->
  decide_receipt (store_after v r1 o) r2 = decide_receipt v r2
  /\ forall o', returned (store_after v r1 o) r2 o' = returned v r2 o'.
Proof.
  intros Hne.
  assert (Hl : last_counter (store_after v r1 o) (hardware_identity r2)
               = last_counter v (hardware_identity r2)).
  { destruct o; [| reflexivity]. unfold last_counter. cbn [store_after record_counter counter_db].
    now rewrite lookup_insert_ne. }
  split.
  - unfold decide_receipt. rewrite Hl. now destruct o.
  - intros [|[]]; cbn [returned]; try reflexivity.
    unfold text_replay. now rewrite Hl.
Qed.

(** The codec reads five fields of the record and nothing else. *)
Lemma parse_reads_five_fields (d d' : gmap string json) :
  d !! "hardware_identity" = d' !! "hardware_identity" ->
  d !! "firmware_hash" = d' !! "firmware_hash" ->
  d !! "execution_hash" = d' !! "execution_hash" ->
  d !! "receipt_digest" = d' !! "receipt_digest" ->
  d !! "counter" = d' !! "counter" ->
  _parse_receipt (Ok (JDict d)) = _parse_receipt (Ok (JDict d')).
Proof.
  intros H1 H2 H3 H4 H5. unfold _parse_receipt.
  cbn [mbind result_bind getitem get]. now rewrite H1, H2, H3, H4, H5.
Qed.

(** The verification reads its input through the codec only. *)
Lemma verify_attestation_through_codec (a b : result json) (w : world) :
  _parse_receipt a = _parse_receipt b ->
  verify_attestation a w = verify_attestation b w.
Proof.
  intros E. destruct (_parse_receipt a) as [r|e] eqn:Ha; symmetry in E.
  - now rewrite (verify_attestation_parsed _ _ _ Ha), (verify_attestation_parsed _ _ _ E).
  - now rewrite (verify_attestation_unparsed _ _ _ Ha), (verify_attestation_unparsed _ _ _ E).
Qed.

Lemma strip_0x_unmarked (s : string) :
  startswith s "0x" = false -> strip_0x (JStr ("0x" +:+ s)) = strip_0x (JStr s).
Proof. intros H. cbn [strip_0x]. rewrite H. reflexivity. Qed.

End verifier_facts.

(** ** The registry *)
Section registry_facts.
Context `{rt : PyRuntime}.

Lemma add_authorized_node_run (h n : string) (w : world) :
  add_authorized_node h n w
  = match fromhex (replace_0x h) with
    | Some hw_id =>
        (Ok tt,
         World {| authorized_nodes := <[hw_id := n]> (authorized_nodes (self w));
                  counter_db := counter_db (self w);
                  approved_firmware := approved_firmware (self w) |}
               (trace w ++ [Print ("✓ Authorized node added: " +:+ n)]))
    | None => (Raise (Exn ValueError (error_text (BadHex (replace_0x h)))), w)
    end.
Proof.
  unfold add_authorized_node, lift, bytes_fromhex. rewrite bind_run.
  destruct (fromhex (replace_0x h)); reflexivity.
Qed.

Lemma add_approved_firmware_run (h : string) (w : world) :
  add_approved_firmware h w
  = match fromhex (replace_0x h) with
    | Some fw_hash =>
        (Ok tt,
         World {| authorized_nodes := authorized_nodes (self w);
                  counter_db := counter_db (self w);
                  approved_firmware := {[ fw_hash ]} ∪ approved_firmware (self w) |}
               (trace w ++ [Print ("✓ Approved firmware added: "
                                     +:+ str_take 18 h +:+ "...")]))
    | None => (Raise (Exn ValueError (error_text (BadHex (replace_0x h)))), w)
    end.
Proof.
  unfold add_approved_firmware, lift, bytes_fromhex. rewrite bind_run.
  destruct (fromhex (replace_0x h)); reflexivity.
Qed.

Lemma get_node_status_run (h : string) (w : world) :
  get_node_status h w
  = match fromhex (replace_0x h) with
    | Some hw_id =>
        (Ok {| authorized := bool_decide (is_Some (authorized_nodes (self w) !! hw_id));
               node_name := default "Unknown" (authorized_nodes (self w) !! hw_id);
               status_last_counter := last_counter (self w) hw_id |}, w)
    | None => (Raise (Exn ValueError (error_text (BadHex (replace_0x h)))), w)
    end.
Proof.
  unfold get_node_status, lift, bytes_fromhex. rewrite bind_run.
  destruct (fromhex (replace_0x h)); reflexivity.
Qed.

End registry_facts.

(** ** The counter file *)
Section persistence_facts.
Context `{rt : PyRuntime}.

(** A comprehension whose keys all convert, to keys that differ. *)
Lemma dict_comprehension_total {K V K'} `{Countable K'} (key : K -> result K')
    (g : K -> K') (items : list (K * V)) (d : gmap K' V) :
  Forall (fun kv => key kv.1 = Ok (g kv.1)) items ->
  NoDup ((fun kv => g kv.1) <$> items) ->
  dict_comprehension key items d = Ok (list_to_map (prod_map g id <$> items) ∪ d).
Proof.
  intros Hall. revert d. induction Hall as [|[k v] rest Hk _ IH]; intros d Hnd.
  - cbn. now rewrite (left_id_L ∅ (∪)).
  - cbn [dict_comprehension]. cbn [fst] in Hk. rewrite Hk. cbn [mbind result_bind].
    rewrite fmap_cons in Hnd. apply NoDup_cons in Hnd as [Hnot Hnd].
    rewrite (IH _ Hnd). f_equal.
    rewrite fmap_cons. cbn [list_to_map foldr prod_map fst snd id].
    rewrite <- insert_union_l. symmetry. apply insert_union_r.
    apply not_elem_of_list_to_map_1. rewrite <- list_fmap_compose.
    exact Hnot.
Qed.

(** A comprehension stops at the first key that does not convert. *)
Lemma dict_comprehension_raise {K V K'} `{Countable K'} (key : K -> result K')
    (items : list (K * V)) (d : gmap K' V) (e : exn) :
  dict_comprehension key items d = Raise e ->
  exists k v, (k, v) ∈ items /\ key k = Raise e.
Proof.
  revert d. induction items as [|[k v] rest IH]; intros d; [discriminate |].
  cbn [dict_comprehension]. destruct (key k) as [k'|e'] eqn:Hk; cbn [mbind result_bind].
  - intros (k0 & v0 & Hin & Hr)%IH. exists k0, v0. split; [now right | exact Hr].
  - intros [= ->]. exists k, v. split; [now left | exact Hk].
Qed.

Lemma saved_state (db : gmap bytes Z) :
  dict_comprehension (fun hw_id => Ok (hex hw_id)) (map_to_list db) ∅ = Ok (kmap hex db).
Proof.
  pose proof hex_inj as Hinj.
  rewrite (dict_comprehension_total _ hex).
  - now rewrite (right_id_L ∅ (∪)).
  - now apply Forall_forall.
  - replace ((fun kv : bytes * Z => hex kv.1) <$> map_to_list db)
      with (hex <$> (map_to_list db).*1) by (now rewrite <- list_fmap_compose).
    apply NoDup_fmap_2; [apply _ |]. apply NoDup_fst_map_to_list.
Qed.

Lemma loaded_state (db : gmap bytes Z) (items : list (string * Z)) :
  items ≡ₚ map_to_list (kmap hex db) ->
  dict_comprehension bytes_fromhex items ∅ = Ok db.
Proof.
  intros Hp.
  pose proof hex_inj as Hinj.
  assert (Hp' : items ≡ₚ prod_map hex id <$> map_to_list db).
  { rewrite Hp. apply (map_to_list_kmap hex). }
  assert (Hback : prod_map fromhex_literal id <$> items ≡ₚ map_to_list db).
  { rewrite Hp', <- list_fmap_compose.
    rewrite (list_fmap_ext _ id (map_to_list db)); [now rewrite list_fmap_id |].
    intros i [hw c] _. cbn. unfold fromhex_literal. now rewrite fromhex_hex. }
  rewrite (dict_comprehension_total _ fromhex_literal).
  - rewrite (right_id_L ∅ (∪)). f_equal.
    transitivity (list_to_map (map_to_list db) : gmap bytes Z);
      [| apply list_to_map_to_list].
    symmetry. apply list_to_map_proper; [apply NoDup_fst_map_to_list | now symmetry].
  - apply Forall_forall. intros [s c] Hin. cbn [fst].
    rewrite Hp' in Hin. apply list_elem_of_fmap in Hin as ([hw c'] & [= -> ->] & _).
    cbn. unfold fromhex_literal. rewrite fromhex_hex. apply bytes_fromhex_hex.
  - assert (E : (fun kv : string * Z => fromhex_literal kv.1) <$> items
                ≡ₚ (map_to_list db).*1).
    { rewrite <- Hback, <- list_fmap_compose. reflexivity. }
    rewrite E. apply NoDup_fst_map_to_list.
Qed.

Lemma save_counter_state_run (backend : string) (file : counter_state_file) (w : world) :
  save_counter_state backend file w
  = (Ok (if String.eqb backend "json"
         then Some (map_to_list (kmap hex (counter_db (self w)))) else file), w).
Proof.
  unfold save_counter_state, read, lift. rewrite !bind_run, saved_state.
  destruct (String.eqb backend "json"); reflexivity.
Qed.

(** Loading a file that holds the saved counters, in any order. *)
Lemma load_saved_state (v : NexusVerifier) (items : list (string * Z)) (w : world) :
  items ≡ₚ map_to_list (kmap hex (counter_db v)) ->
  load_counter_state "json" (Some items) w
  = (Ok tt,
     World {| authorized_nodes := authorized_nodes (self w);
              counter_db := counter_db v;
              approved_firmware := approved_firmware (self w) |}
           (trace w ++ [Print ("✓ Loaded " +:+ pretty (size (counter_db v))
                                 +:+ " counter states from storage")])).
Proof.
  intros Hp. unfold load_counter_state. cbn [String.eqb Ascii.eqb Bool.eqb].
  unfold lift. rewrite bind_run, (loaded_state _ _ Hp).
  unfold update, read, print, emit. rewrite !bind_run. reflexivity.
Qed.

End persistence_facts.

(** ** The generator and the format check *)
Section generator_facts.
Context `{rt : PyRuntime}.

(** What a call of the generator that returns went through. *)
Lemma generate_ok_inv (h f e : option string) (c : Z) (receipt : gmap string json) :
  generate_test_receipt.generate_test_receipt h f e c = Ok receipt ->
  exists h' f' e' hw fw ex,
    String.length h' = 64%nat /\ String.length f' = 64%nat /\ String.length e' = 64%nat
    /\ 0 <= c <= 2 ^ 64 - 1
    /\ fromhex h' = Some hw /\ fromhex f' = Some fw /\ fromhex e' = Some ex
    /\ receipt
       = <["hardware_identity" := JStr ("0x" +:+ h')]>
         (<["firmware_hash" := JStr ("0x" +:+ f')]>
         (<["execution_hash" := JStr ("0x" +:+ e')]>
         (<["receipt_digest" :=
              JStr ("0x" +:+ hex (canonical_digest NEXUS_RCT_DOMAIN hw fw ex c))]>
         (<["counter" := JInt c]> ∅)))).
Proof.
  unfold generate_test_receipt.generate_test_receipt.
  set (h' := replace_0x _). set (f' := replace_0x _). set (e' := replace_0x _).
  intros H.
  apply bind_Ok in H as (? & Ha1 & H). apply bind_Ok in H as (? & Ha2 & H).
  apply bind_Ok in H as (? & Ha3 & H). apply bind_Ok in H as (? & Ha4 & H).
  apply bind_Ok in H as (hw & Hh & H). apply bind_Ok in H as (fw & Hf & H).
  apply bind_Ok in H as (ex & He & H). apply bind_Ok in H as (be & Hbe & H).
  apply assert_Ok in Ha1, Ha2, Ha3, Ha4.
  apply Nat.eqb_eq in Ha1, Ha2, Ha3.
  apply andb_true_iff in Ha4 as [H0 H1]. apply Z.leb_le in H0. apply Z.ltb_lt in H1.
  unfold bytes_fromhex in Hh, Hf, He.
  destruct (fromhex h') as [hw'|] eqn:Hh'; [| discriminate].
  destruct (fromhex f') as [fw'|] eqn:Hf'; [| discriminate].
  destruct (fromhex e') as [ex'|] eqn:He'; [| discriminate].
  injection Hh as <-. injection Hf as <-. injection He as <-.
  rewrite to_bytes_u64 in Hbe by lia. injection Hbe as <-.
  injection H as <-.
  exists h', f', e', hw', fw', ex'. repeat split; try assumption; lia.
Qed.

(** The codec on a record whose hex fields carry the 0x marker. *)
Lemma parse_marked (h' f' e' : string) (hw fw ex dg : bytes) (c : Z) :
  fromhex h' = Some hw -> fromhex f' = Some fw -> fromhex e' = Some ex ->
  List.length dg = 32%nat -> 0 <= c <= 2 ^ 64 - 1 ->
  _parse_receipt
    (Ok (receipt_json ("0x" +:+ h') ("0x" +:+ f') ("0x" +:+ e') ("0x" +:+ hex dg) (JInt c)))
  = if negb (Nat.eqb (List.length hw) 32) then
      Raise (Exn Exception
        ("Invalid receipt format: hardware_identity must be 32 bytes, got "
           +:+ pretty (List.length hw)))
    else if negb (Nat.eqb (List.length fw) 32) then
      Raise (Exn Exception
        ("Invalid receipt format: firmware_hash must be 32 bytes, got "
           +:+ pretty (List.length fw)))
    else if negb (Nat.eqb (List.length ex) 32) then
      Raise (Exn Exception
        ("Invalid receipt format: execution_hash must be 32 bytes, got "
           +:+ pretty (List.length ex)))
    else
      Ok {| hardware_identity := hw; firmware_hash := fw; execution_hash := ex;
            counter := c; receipt_digest := dg |}.
Proof.
  intros Hh Hf He Hdg Hc.
  unfold _parse_receipt, receipt_json.
  cbn [mbind result_bind getitem get]. lookup_literal.
  cbn [mbind result_bind mret result_ret from_option id].
  rewrite !strip_0x_marked. cbn [mbind result_bind].
  rewrite (bytes_fromhex_case h'), Hh. cbn [mbind result_bind].
  destruct (Nat.eqb (List.length hw) 32); cbn [assert_ mbind result_bind negb];
    [| reflexivity].
  change (truthy (JStr ("0x" +:+ f'))) with true. cbn iota.
  rewrite (bytes_fromhex_case f'), Hf. cbn [mbind result_bind].
  destruct (Nat.eqb (List.length fw) 32); cbn [assert_ mbind result_bind negb mret result_ret];
    [| reflexivity].
  rewrite (bytes_fromhex_case e'), He. cbn [mbind result_bind].
  destruct (Nat.eqb (List.length ex) 32); cbn [assert_ mbind result_bind negb];
    [| reflexivity].
  rewrite bytes_fromhex_hex. cbn [mbind result_bind]. rewrite Hdg.
  cbn [mbind result_bind assert_ Nat.eqb int].
  destruct (Z.leb_spec 0 c); [| lia].
  destruct (Z.leb_spec c (2 ^ 64 - 1)); [| lia].
  reflexivity.
Qed.

(** The generator on the hex text of 32-byte values. *)
Lemma generate_hex (hw fw ex : bytes) (c : Z) :
  List.length hw = 32%nat -> List.length fw = 32%nat -> List.length ex = 32%nat ->
  0 <= c <= 2 ^ 64 - 1 ->
  generate_test_receipt.generate_test_receipt
    (Some (hex hw)) (Some (hex fw)) (Some (hex ex)) c
  = Ok (<["hardware_identity" := JStr ("0x" +:+ hex hw)]>
       (<["firmware_hash" := JStr ("0x" +:+ hex fw)]>
       (<["execution_hash" := JStr ("0x" +:+ hex ex)]>
       (<["receipt_digest" :=
            JStr ("0x" +:+ hex (canonical_digest NEXUS_RCT_DOMAIN hw fw ex c))]>
       (<["counter" := JInt c]> ∅))))).
Proof.
  intros Hhw Hfw Hex Hc. unfold generate_test_receipt.generate_test_receipt.
  cbn [from_option id]. rewrite !replace_0x_hex, !hex_length, Hhw, Hfw, Hex.
  change (2 * 32 =? 64)%nat with true.
  replace ((0 <=? c) && (c <? 2 ^ 64)) with true
    by (symmetry; apply andb_true_iff; split; [apply Z.leb_le | apply Z.ltb_lt]; lia).
  cbn [assert_ mbind result_bind]. rewrite !bytes_fromhex_hex, (to_bytes_u64 c Hc).
  reflexivity.
Qed.

(** A receipt the generator returned passes the format check. *)
Lemma generated_format (h f e : option string) (c : Z) (receipt : gmap string json) :
  generate_test_receipt.generate_test_receipt h f e c = Ok receipt ->
  generate_test_receipt.verify_receipt_format receipt
  = (["✓ Receipt format is valid"], Ok true).
Proof.
  intros (h' & f' & e' & hw & fw & ex & Lh & Lf & Le & Hc & Hh & Hf & He & ->)%generate_ok_inv.
  unfold generate_test_receipt.verify_receipt_format,
    generate_test_receipt.required_fields, generate_test_receipt.checks.
  cbn [generate_test_receipt.missing_field]. lookup_literal.
  rewrite !bool_decide_eq_false_2 by discriminate.
  cbn [generate_test_receipt.wrong_length getitem mbind result_bind]. lookup_literal.
  cbn [mbind result_bind len].
  assert (L : forall t b, fromhex t = Some b -> String.length t = 64%nat ->
                len_str ("0x" +:+ t) = 66%nat).
  { intros t b Ht Lt. change (len_str ("0x" +:+ t)) with (S (S (len_str t))).
    now rewrite (fromhex_len_str t b Ht), Lt. }
  rewrite (L h' hw Hh Lh), (L f' fw Hf Lf), (L e' ex He Le).
  rewrite (L (hex (canonical_digest NEXUS_RCT_DOMAIN hw fw ex c)) _ (fromhex_hex _))
    by (unfold canonical_digest; rewrite hex_length, keccak_length; reflexivity).
  reflexivity.
Qed.

End generator_facts.

(** ** The benchmark's encodings *)
Section benchmark_facts.
Context `{rt : PyRuntime}.

Lemma u64be_run (x : Z) :
  _u64be x
  = if (0 <=? x) && (x <? 2 ^ 64) then Ok (be_bytes 8 x)
    else Raise (Exn ValueError "counter must fit into uint64").
Proof.
  unfold _u64be, to_bytes. change (256 ^ Z.of_nat 8) with (2 ^ 64).
  destruct (Z.ltb_spec x 0), (Z.leb_spec (2 ^ 64) x), (Z.leb_spec 0 x), (Z.ltb_spec x (2 ^ 64));
    cbn [orb andb]; try reflexivity; lia.
Qed.

Lemma hex32_to_bytes_hex (b : bytes) :
  List.length b = 32%nat -> _hex32_to_bytes (hex b) = Ok b.
Proof.
  intros Hb. unfold _hex32_to_bytes, _strip_0x.
  assert (Hs : startswith (hex b) "0x" = false).
  { destruct b as [|x [|y b]]; try discriminate Hb. cbn [hex startswith].
    destruct (Ascii.eqb_spec "x" (hexdigit (Byte.to_N x mod 16))) as [E|_];
      [| now rewrite andb_false_r].
    exfalso. pose proof (no_x_hex [x]) as Hx. cbn [hex no_x] in Hx.
    rewrite <- E in Hx. rewrite andb_comm in Hx. discriminate Hx. }
  rewrite Hs, hex_length, Hb. cbn [Nat.eqb negb Nat.mul Nat.add]. apply bytes_fromhex_hex.
Qed.

(** [bad[-1] ^= mask] changes the last byte only. *)
Lemma xor_last_spec (d : bytes) (mask : Z) :
  d <> [] ->
  exists init x,
    d = init ++ [x]
    /\ xor_last d mask = Some (init ++ [Z_to_byte (Z.lxor (byte_to_Z x) mask)]).
Proof.
  induction d as [|y d IH]; [congruence |]. intros _.
  destruct d as [|z d].
  - exists [], y. split; reflexivity.
  - destruct IH as (init & x & E & Hx); [discriminate |].
    exists (y :: init), x. split; [now rewrite E |].
    change (xor_last (y :: z :: d) mask) with (cons y <$> xor_last (z :: d) mask).
    now rewrite Hx.
Qed.

Lemma xor_byte_1 (x : byte) :
  Z_to_byte (Z.lxor (byte_to_Z x) 1) <> x
  /\ Z_to_byte (Z.lxor (byte_to_Z (Z_to_byte (Z.lxor (byte_to_Z x) 1))) 1) = x.
Proof. destruct x; split; (discriminate || reflexivity). Qed.

Lemma exec_hash_for_run (c : Z) :
  exec_hash_for c
  = if (0 <=? c) && (c <? 2 ^ 64)
    then Ok (keccak (list_byte_of_string "exec:" ++ be_bytes 8 c))
    else Raise (Exn ValueError "counter must fit into uint64").
Proof.
  unfold exec_hash_for. rewrite u64be_run. now destruct (_ && _).
Qed.

Lemma compute_digest_run (chain_id : Z) (hw fw ex : bytes) (c : Z) :
  compute_digest chain_id hw fw ex c
  = if ((0 <=? chain_id) && (chain_id <? 2 ^ 64)) && ((0 <=? c) && (c <? 2 ^ 64))
    then Ok (keccak (DOMAIN ++ be_bytes 8 chain_id ++ hw ++ fw ++ ex ++ be_bytes 8 c))
    else Raise (Exn ValueError "counter must fit into uint64").
Proof.
  unfold compute_digest. rewrite !u64be_run.
  destruct ((0 <=? chain_id) && (chain_id <? 2 ^ 64)); [| reflexivity].
  now destruct ((0 <=? c) && (c <? 2 ^ 64)).
Qed.

Lemma pack_v1_run (chain_id : Z) (hw fw ex : bytes) (c : Z) (d : bytes) :
  pack_v1 chain_id hw fw ex c d
  = if negb ((0 <=? c) && (c <? 2 ^ 64)) then
      Raise (Exn ValueError "counter must fit into uint64")
    else if negb (Nat.eqb (List.length hw + List.length fw + List.length ex + List.length d) 128)
    then
      Raise (Exn RuntimeError
        ("packed receipt length mismatch: "
           +:+ pretty (9 + (List.length hw + List.length fw + List.length ex + List.length d))%nat))
    else Ok ([x01] ++ hw ++ fw ++ ex ++ be_bytes 8 c ++ d).
Proof.
  unfold pack_v1. rewrite u64be_run.
  destruct ((0 <=? c) && (c <? 2 ^ 64)); cbn [negb mbind result_bind]; [| reflexivity].
  assert (L : List.length ([x01] ++ hw ++ fw ++ ex ++ be_bytes 8 c ++ d)
              = (9 + (List.length hw + List.length fw + List.length ex + List.length d))%nat).
  { rewrite !length_app, be_bytes_length. cbn [List.length]. lia. }
  rewrite L. unfold PACKED_V1_LEN.
  change (9 + ?n =? 137)%nat with (n =? 128)%nat.
  now destruct (_ =? 128)%nat.
Qed.

Lemma batch_loop_acc (chain_id : Z) (hw fw : bytes) (start : Z) (l : list Z) (out : bytes) :
  batch_loop chain_id hw fw start l out
  = (p ← batch_loop chain_id hw fw start l []; mret (out ++ p)).
Proof.
  revert out. induction l as [|i l IH]; intros out.
  - cbn. now rewrite app_nil_r.
  - cbn [batch_loop].
    destruct (exec_hash_for (start + i)) as [ex|e]; cbn [mbind result_bind]; [| reflexivity].
    destruct (compute_digest chain_id hw fw ex (start + i)) as [d|e];
      cbn [mbind result_bind]; [| reflexivity].
    destruct (pack_v1 chain_id hw fw ex (start + i) d) as [p|e];
      cbn [mbind result_bind]; [| reflexivity].
    rewrite (IH (out ++ p)), (IH ([] ++ p)).
    destruct (batch_loop chain_id hw fw start l []) as [q|e];
      cbn [mbind result_bind mret result_ret]; [| reflexivity].
    now rewrite <- app_assoc.
Qed.

Lemma batch_loop_app (chain_id : Z) (hw fw : bytes) (start : Z) (l1 l2 : list Z) (out : bytes) :
  batch_loop chain_id hw fw start (l1 ++ l2) out
  = (o ← batch_loop chain_id hw fw start l1 out; batch_loop chain_id hw fw start l2 o).
Proof.
  revert out. induction l1 as [|i l1 IH]; intros out; [reflexivity |].
  cbn [app batch_loop].
  destruct (exec_hash_for (start + i)) as [ex|e]; cbn [mbind result_bind]; [| reflexivity].
  destruct (compute_digest chain_id hw fw ex (start + i)) as [d|e];
    cbn [mbind result_bind]; [| reflexivity].
  destruct (pack_v1 chain_id hw fw ex (start + i) d) as [p|e];
    cbn [mbind result_bind]; [| reflexivity].
  apply IH.
Qed.

Lemma batch_loop_shift (chain_id : Z) (hw fw : bytes) (start n : Z) (l : list Z) (out : bytes) :
  batch_loop chain_id hw fw start (map (Z.add n) l) out
  = batch_loop chain_id hw fw (start + n) l out.
Proof.
  revert out. induction l as [|i l IH]; intros out; [reflexivity |].
  cbn [map batch_loop]. rewrite Z.add_assoc.
  destruct (exec_hash_for (start + n + i)) as [ex|e]; cbn [mbind result_bind]; [| reflexivity].
  destruct (compute_digest chain_id hw fw ex (start + n + i)) as [d|e];
    cbn [mbind result_bind]; [| reflexivity].
  destruct (pack_v1 chain_id hw fw ex (start + n + i) d) as [p|e];
    cbn [mbind result_bind]; [| reflexivity].
  apply IH.
Qed.

Lemma range_add (n m : Z) :
  0 <= n -> 0 <= m -> range (n + m) = range n ++ map (Z.add n) (range m).
Proof.
  intros Hn Hm. unfold range. rewrite Z2Nat.inj_add by lia.
  rewrite seq_app, map_app. f_equal. cbn [Nat.add].
  rewrite <- (Nat.add_0_r (Z.to_nat n)) at 1.
  rewrite <- (fmap_add_seq (Z.to_nat n) 0), !map_map.
  apply map_ext. intros k. lia.
Qed.

Lemma range_nonpositive (n : Z) : n <= 0 -> range n = [].
Proof. intros Hn. unfold range. now replace (Z.to_nat n) with 0%nat by lia. Qed.

Lemma range_positive (n : Z) :
  0 < n -> range n = 0 :: map (Z.add 1) (range (n - 1)).
Proof.
  intros Hn. replace n with (1 + (n - 1)) at 1 by lia.
  rewrite range_add by lia. reflexivity.
Qed.

(** The loop, when the chain id fits and the two fields make 64 bytes. *)
Lemma batch_loop_run (chain_id : Z) (hw fw : bytes) (start : Z) (l : list Z) (out : bytes) :
  0 <= chain_id < 2 ^ 64 ->
  (List.length hw + List.length fw = 64)%nat ->
  batch_loop chain_id hw fw start l out
  = if forallb (fun i => (0 <=? start + i) && (start + i <? 2 ^ 64)) l
    then Ok (out ++ List.concat (map (fun i => batch_record chain_id hw fw (start + i)) l))
    else Raise (Exn ValueError "counter must fit into uint64").
Proof.
  intros Hchain Hlen. revert out. induction l as [|i l IH]; intros out.
  - cbn. now rewrite app_nil_r.
  - cbn [batch_loop forallb map List.concat].
    rewrite exec_hash_for_run.
    destruct ((0 <=? start + i) && (start + i <? 2 ^ 64)) eqn:Hi;
      cbn [mbind result_bind andb]; [| reflexivity].
    rewrite compute_digest_run, Hi.
    destruct (Z.leb_spec 0 chain_id); [| lia].
    destruct (Z.ltb_spec chain_id (2 ^ 64)); [| lia].
    cbn [andb mbind result_bind]. rewrite pack_v1_run, Hi, !keccak_length.
    replace (List.length hw + List.length fw + 32 + 32)%nat with 128%nat by lia.
    cbn [negb Nat.eqb mbind result_bind]. rewrite IH.
    destruct (forallb _ l); [| reflexivity].
    rewrite <- app_assoc. unfold batch_record, record_v1. now rewrite !be_bytes_u64.
Qed.

Lemma range_in64 (start n : Z) :
  0 <= start < 2 ^ 64 -> 0 < n ->
  forallb (fun i => (0 <=? start + i) && (start + i <? 2 ^ 64)) (range n)
  = (start + n <=? 2 ^ 64).
Proof.
  intros Hs Hn. destruct (Z.leb_spec (start + n) (2 ^ 64)) as [Hle|Hgt].
  - apply forallb_forall. intros i Hi. unfold range in Hi.
    apply in_map_iff in Hi as (k & <- & Hk). apply in_seq in Hk.
    apply andb_true_iff. split; [apply Z.leb_le | apply Z.ltb_lt]; lia.
  - apply not_true_iff_false. intros Hall.
    assert (Hin : In (n - 1) (range n)).
    { unfold range. apply in_map_iff. exists (Z.to_nat (n - 1)). split; [lia |].
      apply in_seq. lia. }
    apply (proj1 (forallb_forall _ _) Hall) in Hin.
    apply andb_true_iff in Hin as [_ Hin]. apply Z.ltb_lt in Hin. lia.
Qed.

Lemma to_bytes_run (c : Z) :
  to_bytes c 8
  = if c <? 0 then Raise (Exn OverflowError (error_text ToBytesNegative))
    else if 2 ^ 64 <=? c then Raise (Exn OverflowError (error_text ToBytesTooBig))
    else Ok (be_bytes 8 c).
Proof. reflexivity. Qed.

Lemma build_receipt_material_run (hw fw ex : bytes) (c : Z) :
  prove_and_submit.build_receipt_material hw fw ex c
  = if negb (Nat.eqb (List.length hw) 32) then
      Raise (Exn AssertionError "hw_id must be 32 bytes")
    else if negb (Nat.eqb (List.length fw) 32) then
      Raise (Exn AssertionError "fw_hash must be 32 bytes")
    else if negb (Nat.eqb (List.length ex) 32) then
      Raise (Exn AssertionError "exec_hash must be 32 bytes")
    else if c <? 0 then Raise (Exn OverflowError (error_text ToBytesNegative))
    else if 2 ^ 64 <=? c then Raise (Exn OverflowError (error_text ToBytesTooBig))
    else Ok (list_byte_of_string "anchor_RCT_V1" ++ hw ++ fw ++ ex ++ be_bytes 8 c).
Proof.
  unfold prove_and_submit.build_receipt_material.
  destruct (Nat.eqb_spec (List.length hw) 32) as [Hhw|]; cbn [assert_ mbind result_bind negb];
    [| reflexivity].
  destruct (Nat.eqb_spec (List.length fw) 32) as [Hfw|]; cbn [assert_ mbind result_bind negb];
    [| reflexivity].
  destruct (Nat.eqb_spec (List.length ex) 32) as [Hex|]; cbn [assert_ mbind result_bind negb];
    [| reflexivity].
  change (List.length (list_byte_of_string "anchor_RCT_V1") =? 13)%nat with true.
  cbn [assert_ mbind result_bind]. rewrite to_bytes_run.
  destruct (c <? 0); [reflexivity |]. destruct (2 ^ 64 <=? c); [reflexivity |].
  cbn [mbind result_bind].
  rewrite !length_app, Hhw, Hfw, Hex, be_bytes_length. reflexivity.
Qed.

End benchmark_facts.

(** * Further properties: the theorems *)

(** ** The verifier *)
Section verifier_extras.
Context `{rt : PyRuntime}.

(** X1: [verify_attestation] accepts valid receipts only. When it
    returns success, the message is the one of a valid receipt, the input
    parsed to a receipt whose hardware identity is on the allowlist, whose
    firmware hash is approved, whose counter is above the last counter of
    that identity and fits 64 bits, and whose digest is the Keccak-256 of
    the receipt material; the counter is then recorded. *)
Theorem accepted_only_if_valid (json_blob : result json) (w w' : world) (message : string) :
  verify_attestation json_blob w = (Ok (true, message), w') ->
  message = msg_valid
  /\ exists r,
       _parse_receipt json_blob = Ok r
       /\ hardware_identity r ∈ dom (authorized_nodes (self w))
       /\ firmware_hash r ∈ approved_firmware (self w)
       /\ last_counter (self w) (hardware_identity r) < counter r <= 2 ^ 64 - 1
       /\ to_bytes (counter r) 8 = Ok (be_bytes 8 (counter r))
       /\ receipt_digest r = keccak (receipt_material r (be_bytes 8 (counter r)))
       /\ self w' = record_counter (hardware_identity r) (counter r) (self w).
Proof.
  intros Hv. apply verify_accept_inv in Hv as (r & Hp & Ho & -> & Hw).
  split; [reflexivity |]. exists r.
  pose proof (decide_receipt_cases (self w) r) as Hd. rewrite Ho in Hd.
  destruct Hd as (H1 & H2 & H3 & H4).
  pose proof (parse_ok_inv _ _ Hp) as (_ & _ & _ & _ & Hc).
  rewrite be_bytes_u64.
  repeat split; try assumption; try lia.
  now apply to_bytes_u64.
Qed.

(** X2: a receipt rejected for its digest does not use up its counter. If
    a receipt passes the identity, firmware and counter checks and carries
    a wrong digest, it is rejected with the digest-mismatch message and the
    store stays as it was: a receipt with the same hardware identity,
    firmware hash and counter and a right digest is accepted afterwards. *)
Theorem forged_digest_keeps_counter (forged : result json) (r : Receipt) (w : world) :
  _parse_receipt forged = Ok r ->
  hardware_identity r ∈ dom (authorized_nodes (self w)) ->
  firmware_hash r ∈ approved_firmware (self w) ->
  last_counter (self w) (hardware_identity r) < counter r ->
  receipt_digest r <> receipt_canonical_digest r ->
  let w1 := snd (verify_attestation forged w) in
  fst (verify_attestation forged w) = Ok (rejected (text_mismatch r))
  /\ self w1 = self w
  /\ forall genuine r',
       _parse_receipt genuine = Ok r' ->
       hardware_identity r' = hardware_identity r ->
       firmware_hash r' = firmware_hash r ->
       counter r' = counter r ->
       receipt_digest r' = receipt_canonical_digest r' ->
       fst (verify_attestation genuine w1) = Ok (true, msg_valid).
Proof.
  intros Hp Hhw Hfw Hc Hd w1.
  assert (Ho : decide_receipt (self w) r = Rejected DigestMismatch).
  { unfold decide_receipt.
    rewrite (bool_decide_eq_true_2 _ Hhw), (bool_decide_eq_true_2 _ Hfw),
      (bool_decide_eq_false_2 _ Hd). cbn [negb].
    destruct (Z.leb_spec (counter r) (last_counter (self w) (hardware_identity r)));
      [lia | reflexivity]. }
  assert (Hs : self w1 = self w).
  { subst w1. now rewrite verify_attestation_store, Hp, Ho. }
  split; [now rewrite verify_attestation_fst, Hp, Ho |].
  split; [exact Hs |].
  intros genuine r' Hp' Ehw Efw Ec Ed.
  rewrite verify_attestation_fst, Hp', Hs. f_equal.
  unfold decide_receipt. rewrite Ehw, Efw, Ec.
  rewrite (bool_decide_eq_true_2 _ Hhw), (bool_decide_eq_true_2 _ Hfw),
    (bool_decide_eq_true_2 _ Ed). cbn [negb].
  destruct (Z.leb_spec (counter r) (last_counter (self w) (hardware_identity r)));
    [lia | reflexivity].
Qed.

(** X3: [verify_attestation] hashes at most once. It calls Keccak exactly
    when the input parsed and the receipt passed the identity, the firmware
    and the counter check, and then once, on the 12-byte domain tag followed
    by the three hashes and the 8 bytes of the counter; a receipt that does
    not parse, or that fails one of the first three checks, is answered
    without hashing. *)
Theorem hashed_at_most_once (json_blob : result json) (w : world) :
  keccak_calls (trace (snd (verify_attestation json_blob w)))
  = keccak_calls (trace w)
      ++ match _parse_receipt json_blob with
         | Ok r =>
             if bool_decide (hardware_identity r ∈ dom (authorized_nodes (self w)))
                && bool_decide (firmware_hash r ∈ approved_firmware (self w))
                && (last_counter (self w) (hardware_identity r) <? counter r)
             then [NEXUS_RCT_DOMAIN ++ hardware_identity r ++ firmware_hash r
                     ++ execution_hash r ++ be_bytes 8 (counter r)]
             else []
         | Raise _ => []
         end.
Proof.
  destruct (_parse_receipt json_blob) as [r|e] eqn:Hp.
  - rewrite (verify_attestation_parsed _ _ _ Hp). cbn [snd trace].
    rewrite !keccak_calls_app, keccak_calls_banner. cbn [app]. f_equal.
    rewrite be_bytes_u64.
    pose proof (decide_receipt_cases (self w) r) as Hd.
    destruct (decide_receipt (self w) r) as [|[]].
    + destruct Hd as (H1 & H2 & H3 & _).
      rewrite (bool_decide_eq_true_2 _ H1), (bool_decide_eq_true_2 _ H2).
      apply Z.ltb_lt in H3. rewrite H3. reflexivity.
    + rewrite (bool_decide_eq_false_2 _ Hd). reflexivity.
    + destruct Hd as (H1 & H2).
      rewrite (bool_decide_eq_true_2 _ H1), (bool_decide_eq_false_2 _ H2). reflexivity.
    + destruct Hd as (H1 & H2 & H3).
      rewrite (bool_decide_eq_true_2 _ H1), (bool_decide_eq_true_2 _ H2).
      apply Z.ltb_ge in H3. rewrite H3. reflexivity.
    + destruct Hd as (H1 & H2 & H3 & _).
      rewrite (bool_decide_eq_true_2 _ H1), (bool_decide_eq_true_2 _ H2).
      apply Z.ltb_lt in H3. rewrite H3. reflexivity.
  - rewrite (verify_attestation_unparsed _ _ _ Hp). cbn [snd trace].
    rewrite keccak_calls_app. reflexivity.
Qed.

(** X4: counters never go down. Along any sequence of
    [add_authorized_node], [add_approved_firmware] and [verify_attestation]
    calls the last counter of every hardware identity stays or grows, and
    each acceptance makes the last counter of the receipt's identity
    strictly greater, namely the receipt's counter. *)
Theorem last_counter_never_decreases (cs : list call) (w : world) (hw : bytes) :
  last_counter (self w) hw <= last_counter (self (after_calls w cs)) hw
  /\ forall json_blob message w',
       verify_attestation json_blob (after_calls w cs) = (Ok (true, message), w') ->
       exists r,
         _parse_receipt json_blob = Ok r
         /\ last_counter (self (after_calls w cs)) (hardware_identity r)
            < last_counter (self w') (hardware_identity r)
         /\ last_counter (self w') (hardware_identity r) = counter r.
Proof.
  split; [apply last_counter_after_calls |].
  intros json_blob message w' Hv.
  apply verify_accept_inv in Hv as (r & Hp & Ho & _ & Hw).
  exists r. split; [exact Hp |].
  pose proof (decide_receipt_cases (self (after_calls w cs)) r) as Hd. rewrite Ho in Hd.
  destruct Hd as (_ & _ & Hlt & _).
  rewrite Hw, last_counter_recorded. split; [exact Hlt | reflexivity].
Qed.

(** X5: from a freshly constructed verifier, after any sequence of
    [add_authorized_node], [add_approved_firmware] and [verify_attestation]
    calls, every entry of [counter_db] has a key of 32 bytes and a counter
    between 1 and 2^64 - 1. *)
Theorem recorded_counters_well_formed (calls : list call) (printed : list event) :
  map_Forall (fun hw c => List.length hw = 32%nat /\ 1 <= c <= 2 ^ 64 - 1)
    (counter_db (self (after_calls (World __init__ printed) calls))).
Proof.
  apply counters_well_formed_after_calls. unfold counters_well_formed.
  cbn [self __init__ counter_db]. apply map_Forall_empty.
Qed.

(** X6: an accepted receipt is never accepted again. After the receipt was
    accepted, and whatever [add_authorized_node], [add_approved_firmware]
    and [verify_attestation] calls followed, the same input is rejected as
    a replay, and every receipt of the same hardware identity with a
    counter that is not greater is rejected, the store staying as it is. *)
Theorem accepted_receipt_never_again (json_blob : result json) (w0 w1 : world)
    (message : string) (cs : list call) :
  verify_attestation json_blob w0 = (Ok (true, message), w1) ->
  let w2 := after_calls w1 cs in
  exists r,
    _parse_receipt json_blob = Ok r
    /\ fst (verify_attestation json_blob w2) = Ok (rejected (text_replay (self w2) r))
    /\ read_outcome (rejected (text_replay (self w2) r)) = Some (Rejected ReplayDetected)
    /\ forall other r',
         _parse_receipt other = Ok r' ->
         hardware_identity r' = hardware_identity r ->
         counter r' <= counter r ->
         exists text,
           fst (verify_attestation other w2) = Ok (false, text)
           /\ self (snd (verify_attestation other w2)) = self w2.
Proof.
  intros Hv w2. apply verify_accept_inv in Hv as (r & Hp & Ho & _ & Hw).
  exists r. split; [exact Hp |].
  pose proof (decide_receipt_cases (self w0) r) as Hd. rewrite Ho in Hd.
  destruct Hd as (H1 & H2 & _ & _).
  destruct (after_calls_grows cs w1) as [Hg1 Hg2]. fold w2 in Hg1, Hg2.
  assert (Hl : counter r <= last_counter (self w2) (hardware_identity r)).
  { etransitivity; [| apply last_counter_after_calls].
    rewrite Hw, last_counter_recorded. lia. }
  assert (Hhw : hardware_identity r ∈ dom (authorized_nodes (self w2))).
  { apply Hg1. now rewrite Hw. }
  assert (Hfw : firmware_hash r ∈ approved_firmware (self w2)).
  { apply Hg2. now rewrite Hw. }
  split; [| split; [reflexivity |]].
  - rewrite verify_attestation_fst, Hp.
    assert (Ho2 : decide_receipt (self w2) r = Rejected ReplayDetected).
    { unfold decide_receipt.
      rewrite (bool_decide_eq_true_2 _ Hhw), (bool_decide_eq_true_2 _ Hfw). cbn [negb].
      destruct (Z.leb_spec (counter r) (last_counter (self w2) (hardware_identity r)));
        [reflexivity | lia]. }
    now rewrite Ho2.
  - intros other r' Hp' Ehw Ec.
    rewrite verify_attestation_fst, verify_attestation_store, Hp'.
    pose proof (decide_receipt_cases (self w2) r') as Hd.
    destruct (decide_receipt (self w2) r') as [|why].
    + destruct Hd as (_ & _ & Hlt & _). rewrite Ehw in Hlt. lia.
    + destruct why; eexists; split; reflexivity.
Qed.

(** X7: a counter at its maximum ends the receipts of the device. Once the
    last counter of a hardware identity is 2^64 - 1, it stays so along any
    [add_authorized_node], [add_approved_firmware] and [verify_attestation]
    calls, and every receipt of that identity that the codec parses is
    rejected, the store staying as it is. *)
Theorem exhausted_counter_rejects_all (w : world) (hw : bytes) (cs : list call)
    (json_blob : result json) (r : Receipt) :
  last_counter (self w) hw = 2 ^ 64 - 1 ->
  _parse_receipt json_blob = Ok r ->
  hardware_identity r = hw ->
  let w' := after_calls w cs in
  last_counter (self w') hw = 2 ^ 64 - 1
  /\ exists text,
       fst (verify_attestation json_blob w') = Ok (false, text)
       /\ self (snd (verify_attestation json_blob w')) = self w'.
Proof.
  intros Hmax Hp Ehw w'.
  assert (Hl : last_counter (self w') hw = 2 ^ 64 - 1).
  { apply Z.le_antisymm.
    - apply last_counter_bounded_after_calls. lia.
    - rewrite <- Hmax. apply last_counter_after_calls. }
  split; [exact Hl |].
  pose proof (parse_ok_inv _ _ Hp) as (_ & _ & _ & _ & Hc).
  rewrite verify_attestation_fst, verify_attestation_store, Hp.
  pose proof (decide_receipt_cases (self w') r) as Hd.
  destruct (decide_receipt (self w') r) as [|why].
  - destruct Hd as (_ & _ & Hlt & _). rewrite Ehw in Hlt. lia.
  - destruct why; eexists; split; reflexivity.
Qed.

(** X8: receipts of different devices do not interfere. For two parsed
    receipts of different hardware identities, verifying one does not
    change the answer to the other, and verifying them in either order
    leaves the same store. *)
Theorem devices_are_independent (first second : result json) (r1 r2 : Receipt) (w : world) :
  _parse_receipt first = Ok r1 ->
  _parse_receipt second = Ok r2 ->
  hardware_identity r1 <> hardware_identity r2 ->
  fst (verify_attestation second (snd (verify_attestation first w)))
  = fst (verify_attestation second w)
  /\ fst (verify_attestation first (snd (verify_attestation second w)))
     = fst (verify_attestation first w)
  /\ self (snd (verify_attestation second (snd (verify_attestation first w))))
     = self (snd (verify_attestation first (snd (verify_attestation second w)))).
Proof.
  intros Hp1 Hp2 Hne.
  assert (Hne' : hardware_identity r2 <> hardware_identity r1) by congruence.
  rewrite !verify_attestation_fst, !verify_attestation_store, Hp1, Hp2.
  destruct (decide_receipt_other_device (self w) r1 r2 (decide_receipt (self w) r1) Hne)
    as [Hd2 Hr2].
  destruct (decide_receipt_other_device (self w) r2 r1 (decide_receipt (self w) r2) Hne')
    as [Hd1 Hr1].
  rewrite Hd1, Hd2, Hr1, Hr2. split; [reflexivity |]. split; [reflexivity |].
  destruct (decide_receipt (self w) r1), (decide_receipt (self w) r2);
    cbn [store_after]; try reflexivity.
  unfold record_counter. cbn [authorized_nodes counter_db approved_firmware].
  f_equal. now apply insert_insert_ne.
Qed.

End verifier_extras.

(** ** The registry *)
Section registry_extras.
Context `{rt : PyRuntime}.

(** X9: a node put on the allowlist is reported by [get_node_status]. When
    the hex text decodes, [add_authorized_node] returns, and a
    [get_node_status] of the same text then reports the node as authorized,
    under the name given, with the last counter it had before: the call
    changes the allowlist entry of that identity and nothing else of the
    store, and prints one line. *)
Theorem authorized_node_status (h name : string) (hw : bytes) (w : world) :
  fromhex (replace_0x h) = Some hw ->
  let w1 := snd (add_authorized_node h name w) in
  fst (add_authorized_node h name w) = Ok tt
  /\ get_node_status h w1
     = (Ok {| authorized := true; node_name := name;
              status_last_counter := last_counter (self w) hw |}, w1)
  /\ counter_db (self w1) = counter_db (self w)
  /\ approved_firmware (self w1) = approved_firmware (self w)
  /\ (forall other, other <> hw ->
        authorized_nodes (self w1) !! other = authorized_nodes (self w) !! other)
  /\ trace w1 = trace w ++ [Print ("✓ Authorized node added: " +:+ name)].
Proof.
  intros Hh w1. subst w1. rewrite get_node_status_run, add_authorized_node_run, Hh.
  cbn [fst snd self trace authorized_nodes counter_db approved_firmware].
  rewrite lookup_insert_eq. split; [reflexivity |]. split.
  - rewrite bool_decide_eq_true_2 by eauto. reflexivity.
  - repeat split. intros other Ho. now rewrite lookup_insert_ne.
Qed.

(** X10: from a freshly constructed verifier, after any sequence of
    [add_authorized_node], [add_approved_firmware] and [verify_attestation]
    calls, [get_node_status] reports an identity that is not on the
    allowlist as not authorized, named Unknown, with last counter 0, and
    leaves the verifier as it is. *)
Theorem unknown_node_status (calls : list call) (printed : list event) (h : string) (hw : bytes) :
  let w := after_calls (World __init__ printed) calls in
  fromhex (replace_0x h) = Some hw ->
  hw ∉ dom (authorized_nodes (self w)) ->
  get_node_status h w
  = (Ok {| authorized := false; node_name := "Unknown"; status_last_counter := 0 |}, w).
Proof.
  intros w Hh Hno. rewrite get_node_status_run, Hh.
  assert (Hinv : dom (counter_db (self w)) ⊆ dom (authorized_nodes (self w))).
  { apply after_calls_invariant. cbn [self __init__ counter_db].
    rewrite dom_empty_L. apply empty_subseteq. }
  assert (Ha : authorized_nodes (self w) !! hw = None) by now apply not_elem_of_dom.
  assert (Hc : counter_db (self w) !! hw = None).
  { apply not_elem_of_dom. intros Hin. apply Hno, Hinv, Hin. }
  unfold last_counter. rewrite Ha, Hc. cbn [from_option].
  rewrite bool_decide_eq_false_2 by (apply is_Some_None). reflexivity.
Qed.

(** X11: the registry reads a hex text as the codec does. A text the codec
    decodes as a field of a receipt (after it stripped a leading 0x) is
    decoded to the same bytes by [add_authorized_node],
    [add_approved_firmware] and [get_node_status], which remove every 0x:
    registering a node under the text its receipts carry registers the
    identity the codec reads. *)
Theorem registry_reads_receipt_text (s name : string) (b : bytes) (w : world) :
  strip_0x (JStr s) ≫= bytes_fromhex = Ok b ->
  add_authorized_node s name w
  = (Ok tt,
     World {| authorized_nodes := <[b := name]> (authorized_nodes (self w));
              counter_db := counter_db (self w);
              approved_firmware := approved_firmware (self w) |}
           (trace w ++ [Print ("✓ Authorized node added: " +:+ name)]))
  /\ approved_firmware (self (snd (add_approved_firmware s w)))
     = {[ b ]} ∪ approved_firmware (self w)
  /\ fst (get_node_status s w)
     = Ok {| authorized := bool_decide (b ∈ dom (authorized_nodes (self w)));
             node_name := default "Unknown" (authorized_nodes (self w) !! b);
             status_last_counter := last_counter (self w) b |}.
Proof.
  rewrite strip_0x_str. cbn [mbind result_bind]. rewrite bytes_fromhex_case.
  destruct (fromhex (unmarked s)) as [b'|] eqn:Hs; [| discriminate].
  intros [= ->].
  rewrite add_authorized_node_run, add_approved_firmware_run, get_node_status_run.
  rewrite (replace_0x_unmarked s b Hs), Hs. cbn [fst snd self approved_firmware].
  split; [reflexivity |]. split; [reflexivity |].
  do 2 f_equal. apply bool_decide_ext. now rewrite elem_of_dom.
Qed.

End registry_extras.

(** ** The codec *)
Section codec_extras.
Context `{rt : PyRuntime}.

(** X12: fields the codec does not know are ignored. Adding a field other
    than the five of a receipt to a record, or removing one, changes
    neither what [_parse_receipt] returns or raises nor what
    [verify_attestation] does. *)
Theorem unknown_fields_ignored (d : gmap string json) (key : string) (value : json)
    (w : world) :
  key ∉ ["hardware_identity"; "firmware_hash"; "execution_hash"; "receipt_digest"; "counter"] ->
  _parse_receipt (Ok (JDict (<[key := value]> d))) = _parse_receipt (Ok (JDict d))
  /\ _parse_receipt (Ok (JDict (delete key d))) = _parse_receipt (Ok (JDict d))
  /\ verify_attestation (Ok (JDict (<[key := value]> d))) w
     = verify_attestation (Ok (JDict d)) w.
Proof.
  intros Hk.
  assert (Hne : forall field,
            field ∈ ["hardware_identity"; "firmware_hash"; "execution_hash";
                     "receipt_digest"; "counter"] -> key <> field).
  { intros field Hin ->. now apply Hk. }
  assert (E1 : _parse_receipt (Ok (JDict (<[key := value]> d))) = _parse_receipt (Ok (JDict d))).
  { apply parse_reads_five_fields; apply lookup_insert_ne, Hne; set_solver. }
  split; [exact E1 |]. split.
  - apply parse_reads_five_fields; apply lookup_delete_ne, Hne; set_solver.
  - now apply verify_attestation_through_codec.
Qed.

(** X13: the 0x marker of a hex field is optional. For a text that does not
    itself start with 0x, the codec makes the same of a record whether the
    hex field carries the text or 0x followed by the text; for the firmware
    hash this holds for every text but the empty one. *)
Theorem hex_marker_optional (d : gmap string json) (field s : string) :
  field ∈ ["hardware_identity"; "firmware_hash"; "execution_hash"; "receipt_digest"] ->
  startswith s "0x" = false ->
  (field = "firmware_hash" -> s <> EmptyString) ->
  _parse_receipt (Ok (JDict (<[field := JStr ("0x" +:+ s)]> d)))
  = _parse_receipt (Ok (JDict (<[field := JStr s]> d))).
Proof.
  intros Hf Hs Hne.
  pose proof (strip_0x_unmarked s Hs) as Hstrip.
  unfold _parse_receipt. cbn [mbind result_bind getitem get].
  repeat (apply elem_of_cons in Hf as [->|Hf]);
    [ | | | | now apply elem_of_nil in Hf ];
    lookup_literal; cbn [mbind result_bind from_option id];
    rewrite ?Hstrip; try reflexivity.
  assert (Ht : truthy (JStr s) = true).
  { cbn [truthy]. destruct s; [now destruct Hne | reflexivity]. }
  change (truthy (JStr ("0x" +:+ s))) with true. rewrite Ht. reflexivity.
Qed.

(** X14: the counter is read through [int]. A record whose counter field
    holds a value that [int] converts to the integer n (a boolean, a float
    that is truncated, a string holding a literal) is parsed and verified
    exactly as the record whose counter field holds n. *)
Theorem counter_read_through_int (d : gmap string json) (value : json) (n : Z) (w : world) :
  int value = Ok n ->
  _parse_receipt (Ok (JDict (<["counter" := value]> d)))
  = _parse_receipt (Ok (JDict (<["counter" := JInt n]> d)))
  /\ verify_attestation (Ok (JDict (<["counter" := value]> d))) w
     = verify_attestation (Ok (JDict (<["counter" := JInt n]> d))) w.
Proof.
  intros Hv.
  assert (E : _parse_receipt (Ok (JDict (<["counter" := value]> d)))
              = _parse_receipt (Ok (JDict (<["counter" := JInt n]> d)))).
  { unfold _parse_receipt. cbn [mbind result_bind getitem get]. lookup_literal.
    cbn [mbind result_bind]. rewrite Hv. reflexivity. }
  split; [exact E | now apply verify_attestation_through_codec].
Qed.

(** X15: the hashed material determines the four fields. Two receipts the
    codec parsed whose materials, domain tag then hardware identity,
    firmware hash, execution hash and the 8 bytes of the counter, are the
    same bytes have the same hardware identity, firmware hash, execution
    hash and counter. *)
Theorem receipt_material_binds_fields (a b : result json) (r1 r2 : Receipt) :
  _parse_receipt a = Ok r1 ->
  _parse_receipt b = Ok r2 ->
  receipt_material r1 (be_bytes 8 (counter r1)) = receipt_material r2 (be_bytes 8 (counter r2)) ->
  hardware_identity r1 = hardware_identity r2
  /\ firmware_hash r1 = firmware_hash r2
  /\ execution_hash r1 = execution_hash r2
  /\ counter r1 = counter r2.
Proof.
  intros (L1 & L2 & L3 & _ & C1)%parse_ok_inv (M1 & M2 & M3 & _ & C2)%parse_ok_inv.
  unfold receipt_material. intros E.
  apply app_inv_head in E.
  apply app_inj_1 in E as [E1 E]; [| congruence].
  apply app_inj_1 in E as [E2 E]; [| congruence].
  apply app_inj_1 in E as [E3 E]; [| congruence].
  repeat split; try assumption.
  assert (H : from_bytes_big (be_bytes 8 (counter r1)) = from_bytes_big (be_bytes 8 (counter r2)))
    by now rewrite E.
  rewrite !from_bytes_be_bytes in H by lia. change (256 ^ Z.of_nat 8) with (2 ^ 64) in H.
  rewrite !Z.mod_small in H by lia. exact H.
Qed.

End codec_extras.

(** ** The generator *)
Section generator_extras.
Context `{rt : PyRuntime}.

(** X16: what the codec makes of a generated receipt. When
    [generate_test_receipt] returns a receipt, [_parse_receipt] either
    parses it, to a receipt with the counter given and with the Keccak-256
    of its material as digest, or refuses it as malformed; it never parses
    it to a receipt with another digest. *)
Theorem generated_receipt_parses (h f e : option string) (c : Z)
    (receipt : gmap string json) :
  generate_test_receipt.generate_test_receipt h f e c = Ok receipt ->
  match _parse_receipt (Ok (JDict receipt)) with
  | Ok r =>
      counter r = c
      /\ receipt_digest r
         = keccak (NEXUS_RCT_DOMAIN ++ hardware_identity r ++ firmware_hash r
                     ++ execution_hash r ++ be_bytes 8 c)
      /\ receipt !! "receipt_digest" = Some (JStr ("0x" +:+ hex (receipt_digest r)))
  | Raise e => exists text, e = Exn Exception ("Invalid receipt format: " +:+ text)
  end.
Proof.
  intros (h' & f' & e' & hw & fw & ex & _ & _ & _ & Hc & Hh & Hf & He & ->)%generate_ok_inv.
  pose proof (parse_marked h' f' e' hw fw ex
                (canonical_digest NEXUS_RCT_DOMAIN hw fw ex c) c Hh Hf He
                (keccak_length _) Hc) as Hp.
  unfold receipt_json in Hp. rewrite Hp.
  repeat (destruct (negb _); [eexists; reflexivity |]).
  cbn [counter receipt_digest hardware_identity firmware_hash execution_hash].
  rewrite be_bytes_u64. split; [reflexivity |]. split; [reflexivity |].
  lookup_literal. reflexivity.
Qed.

(** X17: a generated receipt passes the format check. When
    [generate_test_receipt] returns a receipt, [verify_receipt_format]
    returns True on it and prints that the format is valid. *)
Theorem generated_receipt_format_valid (h f e : option string) (c : Z)
    (receipt : gmap string json) :
  generate_test_receipt.generate_test_receipt h f e c = Ok receipt ->
  generate_test_receipt.verify_receipt_format receipt
  = (["✓ Receipt format is valid"], Ok true).
Proof. apply generated_format. Qed.

(** X18: registering a device and its firmware, generating a receipt and
    verifying it. For a hardware identity, a firmware hash and an execution
    hash of 32 bytes and a counter that fits 64 bits and is above the last
    counter of the identity: after [add_authorized_node] and
    [add_approved_firmware] on their hex texts, the receipt
    [generate_test_receipt] returns for them passes the format check and is
    accepted by [verify_attestation], and [get_node_status] then reports
    the node as authorized with that counter as last counter. *)
Theorem onboarding_flow (hw fw ex : bytes) (name : string) (c : Z) (w : world) :
  List.length hw = 32%nat -> List.length fw = 32%nat -> List.length ex = 32%nat ->
  0 <= c <= 2 ^ 64 - 1 ->
  last_counter (self w) hw < c ->
  let w1 := snd (add_authorized_node ("0x" +:+ hex hw) name w) in
  let w2 := snd (add_approved_firmware ("0x" +:+ hex fw) w1) in
  exists receipt,
    generate_test_receipt.generate_test_receipt
      (Some (hex hw)) (Some (hex fw)) (Some (hex ex)) c = Ok receipt
    /\ generate_test_receipt.verify_receipt_format receipt
       = (["✓ Receipt format is valid"], Ok true)
    /\ fst (verify_attestation (Ok (JDict receipt)) w2) = Ok (true, msg_valid)
    /\ fst (get_node_status ("0x" +:+ hex hw)
              (snd (verify_attestation (Ok (JDict receipt)) w2)))
       = Ok {| authorized := true; node_name := name; status_last_counter := c |}.
Proof.
  intros Hhw Hfw Hex Hc Hlast w1 w2.
  pose proof (generate_hex hw fw ex c Hhw Hfw Hex Hc) as Hg.
  eexists. split; [exact Hg |].
  split; [apply (generated_format _ _ _ _ _ Hg) |].
  assert (Hp : _parse_receipt
                 (Ok (receipt_json ("0x" +:+ hex hw) ("0x" +:+ hex fw) ("0x" +:+ hex ex)
                        ("0x" +:+ hex (canonical_digest NEXUS_RCT_DOMAIN hw fw ex c)) (JInt c)))
               = Ok {| hardware_identity := hw; firmware_hash := fw; execution_hash := ex;
                       counter := c;
                       receipt_digest := canonical_digest NEXUS_RCT_DOMAIN hw fw ex c |}).
  { apply parse_receipt_json; try assumption. apply keccak_length. }
  unfold receipt_json in Hp.
  assert (Hs2 : self w2
                = {| authorized_nodes := <[hw := name]> (authorized_nodes (self w));
                     counter_db := counter_db (self w);
                     approved_firmware := {[ fw ]} ∪ approved_firmware (self w) |}).
  { subst w2 w1. rewrite add_approved_firmware_store, add_authorized_node_store.
    change (replace_0x ("0x" +:+ hex fw)) with (replace_0x (hex fw)).
    change (replace_0x ("0x" +:+ hex hw)) with (replace_0x (hex hw)).
    now rewrite !replace_0x_hex, !fromhex_hex. }
  assert (Ho : decide_receipt (self w2)
                 {| hardware_identity := hw; firmware_hash := fw; execution_hash := ex;
                    counter := c;
                    receipt_digest := canonical_digest NEXUS_RCT_DOMAIN hw fw ex c |}
               = Accept).
  { unfold decide_receipt. rewrite Hs2.
    cbn [hardware_identity firmware_hash counter receipt_digest authorized_nodes
         approved_firmware].
    rewrite bool_decide_eq_true_2
      by (rewrite dom_insert_L; apply elem_of_union_l; now apply elem_of_singleton).
    rewrite bool_decide_eq_true_2 by (apply elem_of_union_l; now apply elem_of_singleton).
    rewrite bool_decide_eq_true_2 by reflexivity. cbn [negb].
    unfold last_counter in *. cbn [counter_db].
    destruct (Z.leb_spec c (default 0 (counter_db (self w) !! hw))); [lia | reflexivity]. }
  split.
  - rewrite verify_attestation_fst, Hp, Ho. reflexivity.
  - rewrite get_node_status_run.
    change (replace_0x ("0x" +:+ hex hw)) with (replace_0x (hex hw)).
    rewrite replace_0x_hex, fromhex_hex. cbn [fst].
    rewrite verify_attestation_store, Hp, Ho. cbn [store_after].
    rewrite last_counter_recorded. cbn [record_counter authorized_nodes hardware_identity counter].
    rewrite Hs2. cbn [authorized_nodes]. rewrite lookup_insert_eq.
    rewrite bool_decide_eq_true_2 by eauto. reflexivity.
Qed.

End generator_extras.

(** ** The benchmark's packing *)
Section benchmark_extras.
Context `{rt : PyRuntime}.

(** X19: [_u64be] returns the 8 big-endian bytes of an integer between 0
    and 2^64 - 1 and raises its ValueError on every other integer; the
    bytes read back as the integer, and two integers with the same bytes
    are the same. *)
Theorem u64be_encodes (x : Z) :
  _u64be x
  = (if (0 <=? x) && (x <? 2 ^ 64) then Ok (be_bytes 8 x)
     else Raise (Exn ValueError "counter must fit into uint64"))
  /\ (forall b, _u64be x = Ok b -> List.length b = 8%nat /\ from_bytes_big b = x)
  /\ (forall y b, _u64be x = Ok b -> _u64be y = Ok b -> x = y).
Proof.
  split; [apply u64be_run |].
  assert (H : forall z b, _u64be z = Ok b ->
                0 <= z < 2 ^ 64 /\ List.length b = 8%nat /\ from_bytes_big b = z).
  { intros z b. rewrite u64be_run.
    destruct (Z.leb_spec 0 z), (Z.ltb_spec z (2 ^ 64)); cbn [andb]; try discriminate.
    intros Hb. assert (E : b = be_bytes 8 z) by congruence. subst b. clear Hb.
    split; [lia |]. split; [apply be_bytes_length |].
    rewrite from_bytes_be_bytes by lia. change (256 ^ Z.of_nat 8) with (2 ^ 64).
    apply Z.mod_small. lia. }
  split.
  - intros b Hb. now apply H in Hb.
  - intros y b Hx Hy. apply H in Hx as (_ & _ & <-). now apply H in Hy as (_ & _ & <-).
Qed.

(** X20: [pack_v1] checks the total length only. It raises the ValueError
    of [_u64be] when the counter does not fit 64 bits, else a RuntimeError
    when the four fields do not make 128 bytes together, and else returns
    the version byte 0x01 followed by the fields, with the counter before
    the digest: fields of other sizes that make 128 bytes are packed. The
    chain id has no part in the result. *)
Theorem pack_v1_checks_total_length (chain_id : Z) (hw fw ex : bytes) (c : Z) (d : bytes) :
  pack_v1 chain_id hw fw ex c d
  = (if negb ((0 <=? c) && (c <? 2 ^ 64)) then
       Raise (Exn ValueError "counter must fit into uint64")
     else if negb (Nat.eqb (List.length hw + List.length fw + List.length ex + List.length d) 128)
     then
       Raise (Exn RuntimeError
         ("packed receipt length mismatch: "
            +:+ pretty (9 + (List.length hw + List.length fw + List.length ex + List.length d))%nat))
     else Ok ([x01] ++ hw ++ fw ++ ex ++ be_bytes 8 c ++ d))
  /\ forall other_chain,
       pack_v1 other_chain hw fw ex c d = pack_v1 chain_id hw fw ex c d.
Proof.
  split; [apply pack_v1_run |]. intros other. now rewrite !pack_v1_run.
Qed.

(** X21: every outcome of [make_single_args]. It returns when chain id and
    counter fit 64 bits, and else raises the ValueError of [_u64be]; it
    never raises an IndexError. The execution hash is the Keccak-256 of
    exec: and the counter bytes, the claimed digest the Keccak-256 of the
    chain-scoped material, and the bad digest is the claimed digest of 32
    bytes with the lowest bit of its last byte flipped: another digest, with
    the same first 31 bytes. *)
Theorem single_args_outcomes (chain_id : Z) (hw fw : bytes) (c : Z) :
  match make_single_args chain_id hw fw c with
  | inl args =>
      (0 <= chain_id < 2 ^ 64 /\ 0 <= c < 2 ^ 64)
      /\ exec_hash args = keccak (list_byte_of_string "exec:" ++ be_bytes 8 c)
      /\ claimed_digest args
         = keccak (DOMAIN ++ be_bytes 8 chain_id ++ hw ++ fw ++ exec_hash args ++ be_bytes 8 c)
      /\ List.length (claimed_digest_bad args) = 32%nat
      /\ claimed_digest_bad args <> claimed_digest args
      /\ take 31 (claimed_digest_bad args) = take 31 (claimed_digest args)
      /\ xor_last (claimed_digest_bad args) 1 = Some (claimed_digest args)
  | inr (Builtin e) =>
      e = Exn ValueError "counter must fit into uint64"
      /\ ~ (0 <= chain_id < 2 ^ 64 /\ 0 <= c < 2 ^ 64)
  | inr (IndexError _) => False
  end.
Proof.
  unfold make_single_args. rewrite exec_hash_for_run.
  destruct (Z.leb_spec 0 c), (Z.ltb_spec c (2 ^ 64)); cbn [andb];
    try (split; [reflexivity | lia]).
  rewrite compute_digest_run.
  destruct (Z.leb_spec 0 chain_id), (Z.ltb_spec chain_id (2 ^ 64)); cbn [andb];
    try (split; [reflexivity | lia]).
  destruct (Z.leb_spec 0 c); [| lia]. destruct (Z.ltb_spec c (2 ^ 64)); [| lia]. cbn [andb].
  set (d := keccak (DOMAIN ++ _)).
  pose proof (keccak_length (DOMAIN ++ be_bytes 8 chain_id ++ hw ++ fw
                ++ keccak (list_byte_of_string "exec:" ++ be_bytes 8 c) ++ be_bytes 8 c)) as Hlen.
  fold d in Hlen.
  destruct (xor_last_spec d 1) as (init & x & E & Hx); [now destruct d |].
  rewrite Hx. cbn [exec_hash claimed_digest claimed_digest_bad].
  assert (Hi : List.length init = 31%nat).
  { rewrite E, length_app in Hlen. cbn in Hlen. lia. }
  destruct (xor_byte_1 x) as [Hne Hback].
  split; [lia |]. split; [reflexivity |]. split; [reflexivity |].
  split; [rewrite length_app; cbn; lia |].
  split; [rewrite E; intros Heq; apply app_inv_head in Heq; congruence |].
  split; [now rewrite E, !take_app_length' |].
  rewrite E.
  destruct (xor_last_spec (init ++ [Z_to_byte (Z.lxor (byte_to_Z x) 1)]) 1)
    as (init' & x' & E' & Hx'); [now destruct init |].
  apply app_inj_tail in E' as [<- <-]. now rewrite Hx', Hback.
Qed.

(** X22: every outcome of [make_packed_batch]. Without records to pack (n
    at most 0) it returns no byte, whatever the other arguments. Else it
    raises the ValueError of [_u64be] when the first counter or the chain id
    does not fit 64 bits, else a RuntimeError when hardware identity and
    firmware hash do not make 64 bytes together, else the ValueError when a
    later counter passes 2^64 - 1, and else returns the records of the
    counters start, start + 1, ... one after the other. *)
Theorem packed_batch_outcomes (chain_id : Z) (hw fw : bytes) (start n : Z) :
  make_packed_batch chain_id hw fw start n
  = if n <=? 0 then Ok []
    else if negb ((0 <=? start) && (start <? 2 ^ 64)
                  && ((0 <=? chain_id) && (chain_id <? 2 ^ 64))) then
      Raise (Exn ValueError "counter must fit into uint64")
    else if negb (Nat.eqb (List.length hw + List.length fw) 64) then
      Raise (Exn RuntimeError
        ("packed receipt length mismatch: "
           +:+ pretty (73 + (List.length hw + List.length fw))%nat))
    else if 2 ^ 64 <? start + n then
      Raise (Exn ValueError "counter must fit into uint64")
    else
      Ok (List.concat (map (fun i => batch_record chain_id hw fw (start + i)) (range n))).
Proof.
  unfold make_packed_batch.
  destruct (Z.leb_spec n 0) as [Hn|Hn]; [now rewrite range_nonpositive |].
  destruct ((0 <=? start) && (start <? 2 ^ 64)) eqn:Hs; cbn [andb negb].
  2: { rewrite range_positive by lia. cbn [batch_loop].
       rewrite exec_hash_for_run, Z.add_0_r, Hs. reflexivity. }
  destruct ((0 <=? chain_id) && (chain_id <? 2 ^ 64)) eqn:Hc; cbn [negb].
  2: { rewrite range_positive by lia. cbn [batch_loop].
       rewrite exec_hash_for_run, Z.add_0_r, Hs. cbn [mbind result_bind].
       rewrite compute_digest_run, Hc. reflexivity. }
  apply andb_true_iff in Hs as [Hs0 Hs1]. apply Z.leb_le in Hs0. apply Z.ltb_lt in Hs1.
  destruct (Nat.eqb_spec (List.length hw + List.length fw) 64) as [Hl|Hl]; cbn [negb].
  2: { rewrite range_positive by lia. cbn [batch_loop].
       rewrite exec_hash_for_run, Z.add_0_r.
       destruct (Z.leb_spec 0 start); [| lia]. destruct (Z.ltb_spec start (2 ^ 64)); [| lia].
       cbn [andb mbind result_bind]. rewrite compute_digest_run, Hc.
       destruct (Z.leb_spec 0 start); [| lia]. destruct (Z.ltb_spec start (2 ^ 64)); [| lia].
       cbn [andb mbind result_bind]. rewrite pack_v1_run, !keccak_length.
       destruct (Z.leb_spec 0 start); [| lia]. destruct (Z.ltb_spec start (2 ^ 64)); [| lia].
       cbn [andb negb].
       replace (List.length hw + List.length fw + 32 + 32 =? 128)%nat with false
         by (symmetry; apply Nat.eqb_neq; lia).
       cbn [negb mbind result_bind]. do 3 f_equal. f_equal. lia. }
  apply andb_true_iff in Hc as [Hc0 Hc1]. apply Z.leb_le in Hc0. apply Z.ltb_lt in Hc1.
  rewrite batch_loop_run by (try lia; assumption).
  rewrite range_in64 by lia. rewrite Z.ltb_antisym.
  now destruct (start + n <=? 2 ^ 64).
Qed.

(** X23: a batch is the batch of its first records followed by the batch
    of the others: the batch of n + m records from a counter on is, errors
    included, the batch of n records from that counter followed by the batch
    of m records from n counters further. *)
Theorem packed_batch_appends (chain_id : Z) (hw fw : bytes) (start n m : Z) :
  0 <= n -> 0 <= m ->
  make_packed_batch chain_id hw fw start (n + m)
  = (first ← make_packed_batch chain_id hw fw start n;
     others ← make_packed_batch chain_id hw fw (start + n) m;
     mret (first ++ others)).
Proof.
  intros Hn Hm. unfold make_packed_batch.
  rewrite range_add, batch_loop_app by lia.
  destruct (batch_loop chain_id hw fw start (range n) []) as [p|e];
    cbn [mbind result_bind]; [| reflexivity].
  rewrite batch_loop_shift. apply batch_loop_acc.
Qed.

(** X24: [_hex32_to_bytes] reads back what [_hex32] writes. For 32 bytes,
    decoding their hex text gives them back, with the 0x marker and without
    it; and whatever text [_hex32_to_bytes] accepts, it returns 32 bytes at
    most. *)
Theorem hex32_round_trip (b : bytes) :
  List.length b = 32%nat ->
  _hex32_to_bytes (run_gas_benchmarks._hex32 b) = Ok b
  /\ _hex32_to_bytes (hex b) = Ok b
  /\ forall s b', _hex32_to_bytes s = Ok b' -> (List.length b' <= 32)%nat.
Proof.
  intros Hb. split; [| split].
  - unfold run_gas_benchmarks._hex32, _hex32_to_bytes, _strip_0x.
    change (startswith ("0x" +:+ hex b) "0x") with true.
    change (str_drop 2 ("0x" +:+ hex b)) with (hex b). cbv beta iota zeta.
    rewrite hex_length, Hb. apply bytes_fromhex_hex.
  - now apply hex32_to_bytes_hex.
  - intros s b'. unfold _hex32_to_bytes.
    destruct (Nat.eqb_spec (String.length (_strip_0x s)) 64) as [Hl|]; [| discriminate].
    cbn [negb]. unfold bytes_fromhex.
    destruct (fromhex (_strip_0x s)) as [b0|] eqn:Hf; [| discriminate].
    intros [= <-]. apply fromhex_length in Hf. lia.
Qed.

End benchmark_extras.

(** ** The material of the proof script *)
Section material_extras.
Context `{rt : PyRuntime}.

(** X25: every outcome of [build_receipt_material]. It returns exactly for
    three fields of 32 bytes and a counter between 0 and 2^64 - 1; else it
    raises the AssertionError of the first field that is not 32 bytes long,
    or the OverflowError of [to_bytes]; its two assertions without message
    never fail. The material is 117 bytes: the 13 bytes of the domain tag,
    the hardware identity at offset 13, the firmware hash at 45, the
    execution hash at 77 and the counter, big-endian, at 109. *)
Theorem receipt_material_layout (hw fw ex : bytes) (c : Z) :
  match prove_and_submit.build_receipt_material hw fw ex c with
  | Ok material =>
      (List.length hw = 32%nat /\ List.length fw = 32%nat /\ List.length ex = 32%nat
       /\ 0 <= c < 2 ^ 64)
      /\ List.length material = 117%nat
      /\ take 13 material = list_byte_of_string "anchor_RCT_V1"
      /\ take 32 (drop 13 material) = hw
      /\ take 32 (drop 45 material) = fw
      /\ take 32 (drop 77 material) = ex
      /\ drop 109 material = be_bytes 8 c
      /\ from_bytes_big (drop 109 material) = c
  | Raise e =>
      e = (if negb (Nat.eqb (List.length hw) 32) then
             Exn AssertionError "hw_id must be 32 bytes"
           else if negb (Nat.eqb (List.length fw) 32) then
             Exn AssertionError "fw_hash must be 32 bytes"
           else if negb (Nat.eqb (List.length ex) 32) then
             Exn AssertionError "exec_hash must be 32 bytes"
           else if c <? 0 then Exn OverflowError (error_text ToBytesNegative)
           else Exn OverflowError (error_text ToBytesTooBig))
      /\ ~ (List.length hw = 32%nat /\ List.length fw = 32%nat /\ List.length ex = 32%nat
            /\ 0 <= c < 2 ^ 64)
  end.
Proof.
  rewrite build_receipt_material_run.
  destruct (Nat.eqb_spec (List.length hw) 32) as [Hhw|]; cbn [negb];
    [| split; [reflexivity | tauto]].
  destruct (Nat.eqb_spec (List.length fw) 32) as [Hfw|]; cbn [negb];
    [| split; [reflexivity | tauto]].
  destruct (Nat.eqb_spec (List.length ex) 32) as [Hex|]; cbn [negb];
    [| split; [reflexivity | tauto]].
  destruct (Z.ltb_spec c 0); [split; [reflexivity | lia] |].
  destruct (Z.leb_spec (2 ^ 64) c); [split; [reflexivity | lia] |].
  split; [repeat split; (assumption || lia) |].
  split; [rewrite !length_app, Hhw, Hfw, Hex, be_bytes_length; reflexivity |].
  split; [now rewrite take_app_length' |].
  split.
  { rewrite drop_app_length' by reflexivity. now rewrite take_app_length'. }
  split.
  { rewrite (app_assoc _ hw), drop_app_length'
      by (rewrite length_app, Hhw; reflexivity).
    now rewrite take_app_length'. }
  split.
  { rewrite (app_assoc _ hw), (app_assoc _ fw), drop_app_length'
      by (rewrite !length_app, Hhw, Hfw; reflexivity).
    now rewrite take_app_length'. }
  assert (Hd : drop 109 (list_byte_of_string "anchor_RCT_V1" ++ hw ++ fw ++ ex ++ be_bytes 8 c)
               = be_bytes 8 c).
  { rewrite (app_assoc _ hw), (app_assoc _ fw), (app_assoc _ ex).
    apply drop_app_length'. rewrite !length_app, Hhw, Hfw, Hex. reflexivity. }
  rewrite Hd. split; [reflexivity |].
  rewrite from_bytes_be_bytes by lia. change (256 ^ Z.of_nat 8) with (2 ^ 64).
  apply Z.mod_small. lia.
Qed.

(** X26: the three scripts hash three materials. For the same receipt, the
    verifier hashes the tag NEXUS_RCT_V1 followed by the fields (116 bytes),
    the proof script builds the tag anchor_RCT_V1 followed by the fields
    (117 bytes), and the benchmark hashes the tag anchor_RCT_V1, the 8 bytes
    of the chain id and the fields (125 bytes). *)
Theorem three_receipt_materials (chain_id : Z) (r : Receipt) (w : world) :
  List.length (hardware_identity r) = 32%nat ->
  List.length (firmware_hash r) = 32%nat ->
  List.length (execution_hash r) = 32%nat ->
  0 <= counter r < 2 ^ 64 ->
  0 <= chain_id < 2 ^ 64 ->
  let fields := hardware_identity r ++ firmware_hash r ++ execution_hash r
                  ++ be_bytes 8 (counter r) in
  keccak_calls (trace (snd (_check_digest r w)))
  = keccak_calls (trace w) ++ [list_byte_of_string "NEXUS_RCT_V1" ++ fields]
  /\ prove_and_submit.build_receipt_material
       (hardware_identity r) (firmware_hash r) (execution_hash r) (counter r)
     = Ok (list_byte_of_string "anchor_RCT_V1" ++ fields)
  /\ compute_digest chain_id (hardware_identity r) (firmware_hash r) (execution_hash r)
       (counter r)
     = Ok (keccak (list_byte_of_string "anchor_RCT_V1" ++ be_bytes 8 chain_id ++ fields))
  /\ List.length (list_byte_of_string "NEXUS_RCT_V1" ++ fields) = 116%nat
  /\ List.length (list_byte_of_string "anchor_RCT_V1" ++ fields) = 117%nat
  /\ List.length (list_byte_of_string "anchor_RCT_V1" ++ be_bytes 8 chain_id ++ fields)
     = 125%nat.
Proof.
  intros Hhw Hfw Hex Hc Hchain fields.
  split.
  { rewrite (check_digest_run r w) by lia. cbv zeta.
    destruct (bool_decide _); cbn [snd trace]; rewrite !keccak_calls_app; cbn;
      rewrite ?app_nil_r; unfold receipt_material, fields; now rewrite be_bytes_u64. }
  split.
  { rewrite build_receipt_material_run, Hhw, Hfw, Hex. cbn [Nat.eqb negb].
    destruct (Z.ltb_spec (counter r) 0); [lia |].
    destruct (Z.leb_spec (2 ^ 64) (counter r)); [lia |]. reflexivity. }
  split.
  { rewrite compute_digest_run.
    destruct (Z.leb_spec 0 chain_id); [| lia].
    destruct (Z.ltb_spec chain_id (2 ^ 64)); [| lia].
    destruct (Z.leb_spec 0 (counter r)); [| lia].
    destruct (Z.ltb_spec (counter r) (2 ^ 64)); [| lia]. reflexivity. }
  unfold fields. rewrite !length_app, Hhw, Hfw, Hex, !be_bytes_length.
  repeat split.
Qed.

End material_extras.

(** ** The persistence of the counters *)
Section persistence_extras.
Context `{rt : PyRuntime}.

(** X27: the counters saved are the counters loaded. [save_counter_state]
    with the json backend writes a file and leaves the verifier as it is;
    [load_counter_state] on that file, in whatever order its items are,
    sets [counter_db] to the one that was saved, keeps the allowlist and the
    approved firmware of the verifier it is called on, and prints the number
    of counters loaded. *)
Theorem counter_state_round_trip (old : counter_state_file) (w restarted : world) :
  exists state,
    save_counter_state "json" old w = (Ok (Some state), w)
    /\ forall items,
         items ≡ₚ state ->
         load_counter_state "json" (Some items) restarted
         = (Ok tt,
            World {| authorized_nodes := authorized_nodes (self restarted);
                     counter_db := counter_db (self w);
                     approved_firmware := approved_firmware (self restarted) |}
                  (trace restarted
                     ++ [Print ("✓ Loaded " +:+ pretty (size (counter_db (self w)))
                                  +:+ " counter states from storage")])).
Proof.
  exists (map_to_list (kmap hex (counter_db (self w)))).
  split; [now rewrite save_counter_state_run |].
  intros items Hp. now apply load_saved_state.
Qed.

(** X28: loading is all or nothing. When [load_counter_state] returns, the
    allowlist and the approved firmware are as before, and [counter_db] is
    replaced by the items of the file, whatever it held (or the verifier is
    left as it is, when there is no file or the backend is not json); when
    it raises, it is the ValueError of a key of the file that is no hex
    text, and the verifier is as before: no counter of the file is
    loaded. *)
Theorem load_counter_state_all_or_nothing (backend : string) (file : counter_state_file)
    (w : world) :
  match load_counter_state backend file w with
  | (Ok _, w') =>
      authorized_nodes (self w') = authorized_nodes (self w)
      /\ approved_firmware (self w') = approved_firmware (self w)
      /\ match file with
         | Some items =>
             if String.eqb backend "json" then
               dict_comprehension bytes_fromhex items ∅ = Ok (counter_db (self w'))
               /\ trace w'
                  = trace w ++ [Print ("✓ Loaded " +:+ pretty (size (counter_db (self w')))
                                         +:+ " counter states from storage")]
             else w' = w
         | None => w' = w
         end
  | (Raise e, w') =>
      w' = w
      /\ exists items key counter,
           file = Some items /\ (key, counter) ∈ items
           /\ fromhex key = None
           /\ e = Exn ValueError (error_text (BadHex key))
  end.
Proof.
  unfold load_counter_state.
  destruct (String.eqb backend "json") eqn:Hb.
  2: { cbn. destruct file; repeat split. }
  destruct file as [items|]; [| cbn; repeat split].
  unfold lift. rewrite bind_run.
  destruct (dict_comprehension bytes_fromhex items ∅) as [db|e] eqn:Hd.
  - unfold update, read, print, emit. rewrite !bind_run.
    cbn [self trace authorized_nodes approved_firmware counter_db]. repeat split.
  - split; [reflexivity |].
    apply dict_comprehension_raise in Hd as (k & v & Hin & Hk).
    exists items, k, v. unfold bytes_fromhex in Hk.
    destruct (fromhex k); [discriminate |]. injection Hk as <-. repeat split. exact Hin.
Qed.

(** X29: replay protection across a restart. When a receipt was accepted
    and the counters are saved, at once or after further calls, a verifier
    that loads the file, whatever its own state, holds a last counter for
    the receipt's identity that is at least the receipt's counter, and
    rejects the receipt. *)
Theorem replay_protection_survives_restart (json_blob : result json) (w0 w1 : world)
    (message : string) (cs : list call) (old : counter_state_file) (restarted : world) :
  verify_attestation json_blob w0 = (Ok (true, message), w1) ->
  let w := after_calls w1 cs in
  exists state r,
    _parse_receipt json_blob = Ok r
    /\ save_counter_state "json" old w = (Ok (Some state), w)
    /\ forall items,
         items ≡ₚ state ->
         let w' := snd (load_counter_state "json" (Some items) restarted) in
         counter r <= last_counter (self w') (hardware_identity r)
         /\ exists text,
              fst (verify_attestation json_blob w') = Ok (false, text)
              /\ self (snd (verify_attestation json_blob w')) = self w'.
Proof.
  intros Hv w. apply verify_accept_inv in Hv as (r & Hp & _ & _ & Hw1).
  exists (map_to_list (kmap hex (counter_db (self w)))), r.
  split; [exact Hp |]. split; [now rewrite save_counter_state_run |].
  intros items Hperm w'. subst w'.
  rewrite (load_saved_state (self w) items restarted Hperm). cbn [snd].
  assert (Hl : counter r <= last_counter (self w) (hardware_identity r)).
  { etransitivity; [| apply last_counter_after_calls].
    rewrite Hw1, last_counter_recorded. lia. }
  split; [exact Hl |].
  rewrite verify_attestation_fst, verify_attestation_store, Hp. cbn [self].
  match goal with |- context [decide_receipt ?v r] =>
    pose proof (decide_receipt_cases v r) as Hd; destruct (decide_receipt v r) as [|why]
  end.
  - destruct Hd as (_ & _ & Hlt & _). unfold last_counter in Hlt, Hl. cbn [counter_db] in Hlt. lia.
  - destruct why; eexists; split; reflexivity.
Qed.

End persistence_extras.

(** * The further properties on sample data *)

(** X1 on the alpha receipt with counter 5, accepted by a fresh verifier. *)
Lemma accepted_only_if_valid_witness :
  exists r,
    _parse_receipt (rt := cpython) (alpha_receipt 5) = Ok r
    /\ self after_five = record_counter (hardware_identity r) (counter r) (self fresh).
Proof.
  destruct (accepted_only_if_valid (rt := cpython) (alpha_receipt 5) fresh after_five msg_valid)
    as (_ & r & Hp & _ & _ & _ & _ & _ & Hs).
  - vm_compute; reflexivity.
  - exists r. split; assumption.
Defined.

(** X2 on the alpha receipt with counter 5: first with a forged digest,
    then with the right one. *)
Lemma forged_digest_keeps_counter_witness :
  fst (verify_attestation (rt := cpython) (forged_receipt 5) fresh)
  = Ok (rejected (text_mismatch (forged_parsed 5)))
  /\ fst (verify_attestation (rt := cpython) (alpha_receipt 5)
            (snd (verify_attestation (rt := cpython) (forged_receipt 5) fresh)))
     = Ok (true, msg_valid).
Proof.
  destruct (forged_digest_keeps_counter (rt := cpython) (forged_receipt 5) (forged_parsed 5) fresh)
    as (H1 & _ & H3).
  - vm_compute; reflexivity.
  - apply (bool_decide_unpack _); vm_compute; exact I.
  - apply (bool_decide_unpack _); vm_compute; exact I.
  - vm_compute; reflexivity.
  - vm_compute; discriminate.
  - split; [exact H1 |].
    apply (H3 (alpha_receipt 5) (alpha_parsed 5)); vm_compute; reflexivity.
Defined.

(** X6 on the alpha receipt with counter 5, sent again after a node was
    added, a firmware approved and the receipt with counter 9 accepted. *)
Lemma accepted_receipt_never_again_witness :
  exists r,
    _parse_receipt (rt := cpython) (alpha_receipt 5) = Ok r
    /\ fst (verify_attestation (rt := cpython) (alpha_receipt 5)
              (after_calls (rt := cpython) after_five later_calls))
       = Ok (rejected (text_replay (self (after_calls (rt := cpython) after_five later_calls)) r)).
Proof.
  destruct (accepted_receipt_never_again (rt := cpython) (alpha_receipt 5) fresh after_five
              msg_valid later_calls) as (r & Hp & Hv & _).
  - vm_compute; reflexivity.
  - exists r. split; assumption.
Defined.

(** The answer to that resubmission. *)
Example late_resubmission_message :
  fst (verify_attestation (rt := cpython) (alpha_receipt 5)
         (after_calls (rt := cpython) after_five later_calls))
  = Ok (false, "❌ REJECTED: Replay attack detected: counter 5 ≤ last seen 9").
Proof. vm_compute; reflexivity. Qed.

(** X7 on the verifier that accepted the alpha receipt with counter
    2^64 - 1. *)
Lemma exhausted_counter_rejects_all_witness :
  exists text,
    fst (verify_attestation (rt := cpython) (alpha_receipt 5) exhausted) = Ok (false, text).
Proof.
  destruct (exhausted_counter_rejects_all (rt := cpython) exhausted
              (hardware_identity (alpha_parsed 5)) [] (alpha_receipt 5) (alpha_parsed 5))
    as (_ & text & Ht & _).
  - vm_compute; reflexivity.
  - vm_compute; reflexivity.
  - reflexivity.
  - exists text. exact Ht.
Defined.

(** X8 on a receipt of the alpha node and a receipt of the beta node. *)
Lemma devices_are_independent_witness :
  self (snd (verify_attestation (rt := cpython) (beta_receipt 3)
               (snd (verify_attestation (rt := cpython) (alpha_receipt 5) two_nodes))))
  = self (snd (verify_attestation (rt := cpython) (alpha_receipt 5)
                 (snd (verify_attestation (rt := cpython) (beta_receipt 3) two_nodes)))).
Proof.
  apply (devices_are_independent (rt := cpython) (alpha_receipt 5) (beta_receipt 3)
           (alpha_parsed 5) (beta_parsed 3) two_nodes).
  - vm_compute; reflexivity.
  - vm_compute; reflexivity.
  - vm_compute; discriminate.
Defined.

(** Both are accepted, in either order. *)
Example two_devices_accepted :
  fst (verify_attestation (rt := cpython) (beta_receipt 3)
         (snd (verify_attestation (rt := cpython) (alpha_receipt 5) two_nodes)))
  = Ok (true, msg_valid)
  /\ fst (verify_attestation (rt := cpython) (alpha_receipt 5)
            (snd (verify_attestation (rt := cpython) (beta_receipt 3) two_nodes)))
     = Ok (true, msg_valid).
Proof. by_computation. Qed.

(** X9 on the beta node. *)
Lemma authorized_node_status_witness :
  fst (add_authorized_node (rt := cpython) beta_hw "Beta_Node" fresh) = Ok tt
  /\ fst (get_node_status (rt := cpython) beta_hw two_nodes)
     = Ok {| authorized := true; node_name := "Beta_Node"; status_last_counter := 0 |}.
Proof.
  destruct (authorized_node_status (rt := cpython) beta_hw "Beta_Node"
              (fromhex_literal (unmarked beta_hw)) fresh) as (H1 & H2 & _).
  - vm_compute; reflexivity.
  - split; [exact H1 |]. unfold two_nodes. rewrite H2. reflexivity.
Defined.

(** X10 on a node nobody authorized. *)
Lemma unknown_node_status_witness :
  get_node_status (rt := cpython) stranger_hw
    (after_calls (rt := cpython) (World __init__ []) [])
  = (Ok {| authorized := false; node_name := "Unknown"; status_last_counter := 0 |},
     after_calls (rt := cpython) (World __init__ []) []).
Proof.
  apply (unknown_node_status (rt := cpython) [] [] stranger_hw
           (fromhex_literal (unmarked stranger_hw))).
  - vm_compute; reflexivity.
  - apply (bool_decide_unpack _); vm_compute; exact I.
Defined.

(** X11 on the text of the alpha firmware, as receipts carry it. *)
Lemma registry_reads_receipt_text_witness :
  approved_firmware (self (snd (add_approved_firmware (rt := cpython) alpha_fw fresh)))
  = {[ fromhex_literal (unmarked alpha_fw) ]} ∪ approved_firmware (self fresh).
Proof.
  destruct (registry_reads_receipt_text (rt := cpython) alpha_fw "Alpha"
              (fromhex_literal (unmarked alpha_fw)) fresh) as (_ & H & _).
  - vm_compute; reflexivity.
  - exact H.
Defined.

(** The other way round it fails: the registry takes a text with 0x in
    its middle, which the codec refuses. *)
Example registry_takes_more :
  authorized_nodes (self (snd (add_authorized_node (rt := cpython) "110x22" "Odd" fresh)))
    !! [x11; x22] = Some "Odd"
  /\ strip_0x (rt := cpython) (JStr "110x22") ≫= bytes_fromhex (rt := cpython)
     = Raise (Exn ValueError "non-hexadecimal number found in fromhex() arg at position 3").
Proof. by_computation. Qed.

(** X12 on the alpha receipt without firmware hash, with a note added. *)
Lemma unknown_fields_ignored_witness :
  _parse_receipt (rt := cpython) (Ok (JDict (<["note" := JStr "spare"]> no_firmware)))
  = _parse_receipt (rt := cpython) (Ok (JDict no_firmware)).
Proof.
  destruct (unknown_fields_ignored (rt := cpython) no_firmware "note" (JStr "spare") fresh)
    as (H & _).
  - apply (bool_decide_unpack _); vm_compute; exact I.
  - exact H.
Defined.

(** X13 on the firmware hash of the alpha receipt. *)
Lemma hex_marker_optional_witness :
  _parse_receipt (rt := cpython)
    (Ok (JDict (<["firmware_hash" := JStr ("0x" +:+ unmarked alpha_fw)]> no_firmware)))
  = _parse_receipt (rt := cpython)
      (Ok (JDict (<["firmware_hash" := JStr (unmarked alpha_fw)]> no_firmware))).
Proof.
  apply (hex_marker_optional (rt := cpython) no_firmware "firmware_hash" (unmarked alpha_fw)).
  - apply (bool_decide_unpack _); vm_compute; exact I.
  - reflexivity.
  - intros _. discriminate.
Defined.

(** An empty firmware hash is defaulted, the marker alone is refused. *)
Example marker_alone_refused :
  (exists r, _parse_receipt (rt := cpython)
               (Ok (JDict (<["firmware_hash" := JStr EmptyString]> no_firmware))) = Ok r)
  /\ _parse_receipt (rt := cpython) (Ok (JDict (<["firmware_hash" := JStr "0x"]> no_firmware)))
     = Raise (Exn Exception "Invalid receipt format: firmware_hash must be 32 bytes, got 0").
Proof. split; [eexists |]; vm_compute; reflexivity. Qed.

(** X14 on a counter given as the JSON value true. *)
Lemma counter_read_through_int_witness :
  _parse_receipt (rt := cpython) (Ok (JDict (<["counter" := JBool true]> no_firmware)))
  = _parse_receipt (rt := cpython) (Ok (JDict (<["counter" := JInt 1]> no_firmware))).
Proof.
  destruct (counter_read_through_int (rt := cpython) no_firmware (JBool true) 1 fresh)
    as (H & _).
  - reflexivity.
  - exact H.
Defined.

(** X15 on the alpha receipt and its forgery, which differ by the digest
    only. *)
Lemma receipt_material_binds_fields_witness :
  hardware_identity (alpha_parsed 5) = hardware_identity (forged_parsed 5)
  /\ firmware_hash (alpha_parsed 5) = firmware_hash (forged_parsed 5)
  /\ execution_hash (alpha_parsed 5) = execution_hash (forged_parsed 5)
  /\ counter (alpha_parsed 5) = counter (forged_parsed 5).
Proof.
  apply (receipt_material_binds_fields (rt := cpython) (alpha_receipt 5) (forged_receipt 5)).
  - vm_compute; reflexivity.
  - vm_compute; reflexivity.
  - vm_compute; reflexivity.
Defined.

(** X16 on the default receipt. *)
Lemma generated_receipt_parses_witness :
  match _parse_receipt (rt := cpython) (Ok (JDict default_receipt)) with
  | Ok r =>
      counter r = 1
      /\ receipt_digest r
         = keccak (NEXUS_RCT_DOMAIN ++ hardware_identity r ++ firmware_hash r
                     ++ execution_hash r ++ be_bytes 8 1)
      /\ default_receipt !! "receipt_digest" = Some (JStr ("0x" +:+ hex (receipt_digest r)))
  | Raise e => exists text, e = Exn Exception ("Invalid receipt format: " +:+ text)
  end.
Proof.
  apply (generated_receipt_parses (rt := cpython) None None None 1 default_receipt).
  vm_compute; exact eq_refl.
Defined.

(** A generated receipt the codec refuses: white space in the hex text of
    the hardware identity passes the length check of the generator. *)
Example spaced_receipt_refused :
  match generate_test_receipt.generate_test_receipt (rt := cpython)
          (Some spaced_hex) None None 1 with
  | Ok receipt =>
      _parse_receipt (rt := cpython) (Ok (JDict receipt))
      = Raise (Exn Exception
                 "Invalid receipt format: hardware_identity must be 32 bytes, got 31")
  | Raise _ => False
  end.
Proof. vm_compute; reflexivity. Qed.

(** X17 on the default receipt. *)
Lemma generated_receipt_format_valid_witness :
  generate_test_receipt.verify_receipt_format (rt := cpython) default_receipt
  = (["✓ Receipt format is valid"], Ok true).
Proof.
  apply (generated_receipt_format_valid (rt := cpython) None None None 1 default_receipt).
  vm_compute; exact eq_refl.
Defined.

(** What the format check says of the alpha receipt without firmware hash,
    which the codec parses. *)
Example format_check_is_stricter :
  generate_test_receipt.verify_receipt_format (rt := cpython) no_firmware
  = (["✗ Missing field: firmware_hash"], Ok false).
Proof. vm_compute; reflexivity. Qed.

(** X18 on the fields of the end-to-end example, with counter 1. *)
Lemma onboarding_flow_witness :
  exists receipt,
    generate_test_receipt.generate_test_receipt (rt := cpython)
      (Some (hex example_hw)) (Some (hex example_fw)) (Some (hex example_ex)) 1 = Ok receipt
    /\ fst (verify_attestation (rt := cpython) (Ok (JDict receipt)) onboarded)
       = Ok (true, msg_valid).
Proof.
  destruct (onboarding_flow (rt := cpython) example_hw example_fw example_ex
              "Example_Node" 1 fresh) as (receipt & Hg & _ & Hv & _).
  - reflexivity.
  - reflexivity.
  - reflexivity.
  - lia.
  - vm_compute; reflexivity.
  - exists receipt. split; [exact Hg | exact Hv].
Defined.

(** X23 on a batch of 2 + 3 records from counter 1 on. *)
Lemma packed_batch_appends_witness :
  make_packed_batch (rt := cpython) CHAIN_ID_DEFAULT example_hw example_fw 1 (2 + 3)
  = (first ← make_packed_batch (rt := cpython) CHAIN_ID_DEFAULT example_hw example_fw 1 2;
     others ← make_packed_batch (rt := cpython) CHAIN_ID_DEFAULT example_hw example_fw (1 + 2) 3;
     mret (first ++ others)).
Proof.
  apply (packed_batch_appends (rt := cpython) CHAIN_ID_DEFAULT example_hw example_fw 1 2 3); lia.
Defined.

(** Fields of 31 and 33 bytes are packed. *)
Example mis_sized_fields_packed :
  pack_v1 (rt := cpython) CHAIN_ID_DEFAULT (bytes_zero 31) (bytes_zero 33) example_ex 1
    (bytes_zero 32)
  = Ok ([x01] ++ bytes_zero 31 ++ bytes_zero 33 ++ example_ex ++ be_bytes 8 1
          ++ bytes_zero 32).
Proof. vm_compute; reflexivity. Qed.

(** X24 on the firmware hash of the end-to-end example. *)
Lemma hex32_round_trip_witness :
  _hex32_to_bytes (rt := cpython) (run_gas_benchmarks._hex32 example_fw) = Ok example_fw.
Proof.
  destruct (hex32_round_trip (rt := cpython) example_fw) as (H & _).
  - reflexivity.
  - exact H.
Defined.

(** A text of 64 characters that [_hex32_to_bytes] reads as 31 bytes. *)
Example hex32_of_spaced_text :
  _hex32_to_bytes (rt := cpython) spaced_hex = Ok (repeat xaa 31).
Proof. vm_compute; reflexivity. Qed.

(** X26 on the alpha receipt with counter 5. *)
Lemma three_receipt_materials_witness :
  prove_and_submit.build_receipt_material (rt := cpython)
    (hardware_identity (alpha_parsed 5)) (firmware_hash (alpha_parsed 5))
    (execution_hash (alpha_parsed 5)) (counter (alpha_parsed 5))
  = Ok (list_byte_of_string "anchor_RCT_V1"
          ++ hardware_identity (alpha_parsed 5) ++ firmware_hash (alpha_parsed 5)
          ++ execution_hash (alpha_parsed 5) ++ be_bytes 8 (counter (alpha_parsed 5))).
Proof.
  destruct (three_receipt_materials (rt := cpython) CHAIN_ID_DEFAULT (alpha_parsed 5) fresh)
    as (_ & H & _).
  - reflexivity.
  - reflexivity.
  - reflexivity.
  - cbn [counter alpha_parsed]. lia.
  - unfold CHAIN_ID_DEFAULT. lia.
  - exact H.
Defined.

(** The three digests of that receipt, on chain 421614. *)
Example three_digests_differ :
  let r := alpha_parsed 5 in
  let verifier := receipt_canonical_digest r in
  let proof_script :=
    prove_and_submit.keccak256
      (list_byte_of_string "anchor_RCT_V1" ++ hardware_identity r ++ firmware_hash r
         ++ execution_hash r ++ be_bytes 8 (counter r)) in
  compute_digest (rt := cpython) CHAIN_ID_DEFAULT (hardware_identity r) (firmware_hash r)
    (execution_hash r) (counter r) <> Ok verifier
  /\ compute_digest (rt := cpython) CHAIN_ID_DEFAULT (hardware_identity r) (firmware_hash r)
       (execution_hash r) (counter r) <> Ok proof_script
  /\ verifier <> proof_script.
Proof. cbv zeta. repeat split; vm_compute; discriminate. Qed.

(** The file the verifier that accepted the alpha receipt with counter 5
    writes. *)
Example saved_counter_file :
  fst (save_counter_state "json" None after_five)
  = Ok (Some [("52fdfc072182654f163f5f0f0f0f0f0f0f0f0f0f0f0f0f0f0f0f0f0f0f0f0f0f", 5)]).
Proof. vm_compute; reflexivity. Qed.

(** X29 on the alpha receipt with counter 5: the verifier that accepted it
    saves its counters, and a fresh verifier loads them. *)
Lemma replay_protection_survives_restart_witness :
  exists state,
    fst (save_counter_state "json" None after_five) = Ok (Some state)
    /\ exists text,
         fst (verify_attestation (rt := cpython) (alpha_receipt 5)
                (snd (load_counter_state (rt := cpython) "json" (Some state) fresh)))
         = Ok (false, text).
Proof.
  destruct (replay_protection_survives_restart (rt := cpython) (alpha_receipt 5) fresh
              after_five msg_valid [] None fresh) as (state & r & _ & Hsave & Hload).
  - vm_compute; reflexivity.
  - exists state. split; [exact (f_equal fst Hsave) |].
    destruct (Hload state) as (_ & text & Ht & _); [reflexivity |].
    exists text. exact Ht.
Defined.

(** Without the file, the fresh verifier accepts the receipt again. *)
Example replay_after_restart_without_file :
  fst (verify_attestation (rt := cpython) (alpha_receipt 5)
         (snd (load_counter_state (rt := cpython) "json" None fresh)))
  = Ok (true, msg_valid).
Proof. vm_compute; reflexivity. Qed.
